(** * Streaming response normalisation of the llm unification layer

    A shallow embedding of the Go package [llm]: the canonical message
    model, the four provider bindings (OpenAI, Gemini, Claude, Ollama), their
    stream wrappers and the generic consumer [StreamChatCompletion], followed
    by the properties the specification states about them.

    Conventions of the embedding.
    - A Go [string] is a Rocq [string] (a sequence of bytes); [len] is
      [String.length].  A slice is a [list]; [nil] and the empty slice are
      both [[]].
    - A Go function returning [(T, error)] returns an [outcome T]:
      [Return v] for [v, nil], [Fail e] for [zero, e], and [Panic p] when the
      Go code panics (explicit [panic], index out of range, send on a closed
      channel).
    - A method with a pointer receiver takes the receiver's state and gives
      the new state back.  The state a panicking call leaves behind is the
      one its assignments had produced when the panic was raised.
    - Vendor SDK objects (iterators, HTTP streams, channels fed by a
      goroutine) are scripts: the list of results their successive calls will
      give. *)

From Stdlib Require Import ZArith String Ascii List Bool Lia.
From Stdlib Require Import SpecFloat.
From stdpp Require Import gmap strings list.
Import ListNotations.
Open Scope string_scope.
Set Warnings "-register-all".

(** ** Errors, panics and outcomes *)

(** The [error] values the package creates or inspects. *)
Inductive error : Type :=
| io_EOF                                  (* io.EOF *)
| iterator_Done                           (* iterator.Done *)
| context_Canceled                        (* ctx.Err() after cancellation *)
| context_DeadlineExceeded
| openai_APIError (Code Message : string) (* *openai.APIError *)
| vendor_error (msg : string)             (* any other error of an SDK *)
| Errorf (msg : string)                   (* fmt.Errorf without %w *)
| Errorf_w (msg : string) (inner : error) (* fmt.Errorf("msg%w", inner) *).

(** [err == io.EOF] *)
Definition isEOF (err : error) : bool :=
  match err with io_EOF => true | _ => false end.

(** [errors.Is(err, iterator.Done)]: follows the [%w] chain. *)
Fixpoint errors_Is_iterator_Done (err : error) : bool :=
  match err with
  | iterator_Done => true
  | Errorf_w _ inner => errors_Is_iterator_Done inner
  | _ => false
  end.

(** [errors.Is(err, io.EOF)] *)
Fixpoint errors_Is_EOF (err : error) : bool :=
  match err with
  | io_EOF => true
  | Errorf_w _ inner => errors_Is_EOF inner
  | _ => false
  end.

(** [errors.As(err, &openAIErr)]: the first [*openai.APIError] of the chain. *)
Fixpoint errors_As_APIError (err : error) : option (string * string) :=
  match err with
  | openai_APIError c m => Some (c, m)
  | Errorf_w _ inner => errors_As_APIError inner
  | _ => None
  end.

(** [err.Error()] *)
Fixpoint error_Error (err : error) : string :=
  match err with
  | io_EOF => "EOF"
  | iterator_Done => "no more items in iterator"
  | context_Canceled => "context canceled"
  | context_DeadlineExceeded => "context deadline exceeded"
  | openai_APIError _ Message => Message
  | vendor_error msg => msg
  | Errorf msg => msg
  | Errorf_w msg inner => msg +:+ error_Error inner
  end.

(** What a Go panic carries. *)
Inductive panic_value : Type :=
| panic_error (e : error)                 (* panic(err) *)
| panic_index_out_of_range (i len : Z)    (* runtime error: index out of range *)
| panic_nil_dereference
| panic_send_on_closed_channel
| panic_close_of_closed_channel.

Inductive outcome (A : Type) : Type :=
| Return (a : A)
| Fail (e : error)
| Panic (p : panic_value).
Arguments Return {A} a.
Arguments Fail {A} e.
Arguments Panic {A} p.

(** ** The canonical model (types of the package) *)

Definition Role := string.
Definition RoleUser : Role := "user".
Definition RoleAssistant : Role := "assistant".
Definition RoleTool : Role := "tool".

Definition Model := string.
Definition ModelChatGPT4oLatest : Model := "chatgpt-4o-latest".
Definition ModelGPT4o : Model := "gpt-4o".
Definition ModelGPT4oMini : Model := "gpt-4o-mini".
Definition ModelGPT4o2024_08_06 : Model := "gpt-4o-2024-08-06".
Definition ModelGPT4oMini2024_07_18 : Model := "gpt-4o-mini-2024-07-18".
Definition ModelO1 : Model := "o1".
Definition ModelO1_2024_12_17 : Model := "o1-2024-12-17".
Definition ModelO1Preview2024_09_12 : Model := "o1-preview-2024-09-12".
Definition ModelO1Preview : Model := "o1-preview".
Definition ModelO1Mini : Model := "o1-mini".
Definition ModelO1Mini2024_09_12 : Model := "o1-mini-2024-09-12".
Definition ModelO3Mini : Model := "o3-mini".
Definition ModelO3Mini2025_01_31 : Model := "o3-mini-2025-01-31".
Definition ModelClaude2Dot0 : Model := "claude-2.0".
Definition ModelClaude2Dot1 : Model := "claude-2.1".
Definition ModelClaude3Opus20240229 : Model := "claude-3-opus-20240229".
Definition ModelClaude3Sonnet20240229 : Model := "claude-3-sonnet-20240229".
Definition ModelClaude3Dot5Sonnet20240620 : Model := "claude-3-5-sonnet-20240620".
Definition ModelClaude3Dot5Sonnet20241022 : Model := "claude-3-5-sonnet-20241022".
Definition ModelClaude3Dot5SonnetLatest : Model := "claude-3-5-sonnet-latest".
Definition ModelClaude3Haiku20240307 : Model := "claude-3-haiku-20240307".
Definition ModelClaude3Dot5HaikuLatest : Model := "claude-3-5-haiku-latest".
Definition ModelClaude3Dot5Haiku20241022 : Model := "claude-3-5-haiku-20241022".
Definition ModelGemini2Flash : Model := "gemini-2.0-flash".
Definition ModelGemini2FlashLite001 : Model := "gemini-2.0-flash-lite-001".
Definition ModelGemini15Flash : Model := "gemini-1.5-flash".
Definition ModelGemini15Flash8B : Model := "gemini-1.5-flash-8b".
Definition ModelGemini15Pro : Model := "gemini-1.5-pro".

Definition ContentType := string.
Definition ContentTypeText : ContentType := "text".
Definition ContentTypeImage : ContentType := "image".

Module ContentPart.
Record t : Type := mk
  { Type_ : ContentType; Text : string; Data : string; MediaType : string }.
End ContentPart.

Module ToolCallFunction.
Record t : Type := mk { Name : string; Arguments : string }.
End ToolCallFunction.

Module ToolCall.
Record t : Type := mk
  { ID : string; Type_ : string; Function : ToolCallFunction.t }.
End ToolCall.

Module ToolResult.
Record t : Type := mk
  { ToolCallID : string; FunctionName : string; Result : string;
    IsError : bool }.
End ToolResult.

Module InputMessage.
Record t : Type := mk
  { Role : Role;
    MultiContent : list ContentPart.t;
    ToolCalls : list ToolCall.t;
    ToolResults : list ToolResult.t }.
End InputMessage.

Module OutputMessage.
Record t : Type := mk
  { Role : Role; Content : string; ToolCalls : list ToolCall.t }.
(** The zero value [OutputMessage{}]. *)
Definition zero : t := mk "" "" [].
End OutputMessage.

(** A [float32] is an IEEE 754 binary32 datum, here a [spec_float] of the
    Standard Library (precision 24, maximal exponent 128). *)
Definition float32 : Type := spec_float.
Definition float32_prec : Z := 24.
Definition float32_emax : Z := 128.
(** The literal [0] compared against a [float32]. *)
Definition float32_zero : float32 := S754_zero false.
(** [x > 0] on [float32] (false on NaN). *)
Definition float32_gt (x y : float32) : bool := SFltb y x.
(** [math.SmallestNonzeroFloat32], 2^-149, the least positive subnormal. *)
Definition SmallestNonzeroFloat32 : float32 := S754_finite false 1 (-149).

(** A value of Go's [interface{}] as the tool schemas use it. *)
Inductive any : Type :=
| any_string (s : string)
| any_map (m : list (string * any))
| any_slice (l : list any)
| any_other.

Module Function.
Record t : Type := mk
  { Name : string; Description : string; Parameters : list (string * any) }.
End Function.

Module Tool.
Record t : Type := mk { Type_ : string; Function : Function.t }.
End Tool.

Module ChatCompletionRequest.
Record t : Type := mk
  { Model : Model;
    Messages : list InputMessage.t;
    SystemPrompt : option string;
    Tools : list Tool.t;
    Temperature : float32;
    TopP : option float32;
    MaxTokens : Z;
    JSONMode : bool }.
End ChatCompletionRequest.

Definition FinishReason := string.
Definition FinishReasonToolCalls : FinishReason := "tool_calls".
Definition FinishReasonStop : FinishReason := "stop".
Definition FinishReasonMaxTokens : FinishReason := "max_tokens".
Definition FinishReasonNull : FinishReason := "null".

Module Choice.
Record t : Type := mk
  { Index : Z; Message : OutputMessage.t; FinishReason : FinishReason }.
End Choice.

Module Usage.
Record t : Type := mk
  { PromptTokens : Z; CompletionTokens : Z; TotalTokens : Z }.
Definition zero : t := mk 0 0 0.
End Usage.

Module ChatCompletionResponse.
Record t : Type := mk
  { ID : string; Choices : list Choice.t; Usage : Usage.t }.
(** The zero value [ChatCompletionResponse{}]. *)
Definition zero : t := mk "" [] Usage.zero.
End ChatCompletionResponse.

(** [a == b] on strings, as a boolean. *)
Definition streq (a b : string) : bool := String.eqb a b.

(** The text of all deltas of a list of responses, in order. *)
Definition choices_text (cs : list Choice.t) : string :=
  fold_right (fun c acc => OutputMessage.Content (Choice.Message c) +:+ acc) "" cs.

Definition responses_text (rs : list ChatCompletionResponse.t) : string :=
  fold_right (fun r acc => choices_text (ChatCompletionResponse.Choices r) +:+ acc) "" rs.

(** The responses among a list of outcomes. *)
Fixpoint returned {A : Type} (os : list (outcome A)) : list A :=
  match os with
  | [] => []
  | Return a :: os' => a :: returned os'
  | _ :: os' => returned os'
  end.


(** ** Gemini *)

(** The part of the vendor SDK [genai] the binding reads. *)
Module genai.

(** [genai.FinishReason]: the four values the binding names, and any other
    value of the enumeration, carried with its [%v] rendering. *)
Inductive FinishReason : Type :=
| FinishReasonUnspecified
| FinishReasonStop
| FinishReasonMaxTokens
| FinishReasonSafety
| FinishReasonOtherValue (shown : string).

(** [genai.Part]: [Text], a [FunctionCall] with its name and the result of
    [json.Marshal(p.Args)] ([None] when marshalling fails), or another kind
    of part. *)
Inductive Part : Type :=
| Text (s : string)
| FunctionCall (Name : string) (MarshalledArgs : option string)
| OtherPart.

Module Candidate.
Record t : Type := mk { Content_Parts : list Part; FinishReason : FinishReason }.
End Candidate.

Module GenerateContentResponse.
Record t : Type := mk
  { Candidates : list Candidate.t;
    (* PromptTokenCount, CandidatesTokenCount, TotalTokenCount *)
    UsageMetadata : option (Z * Z * Z) }.
End GenerateContentResponse.

(** [*genai.GenerateContentResponseIterator]: the results its successive
    [Next] calls will give; once the script is used up [Next] gives
    [iterator.Done]. *)
Definition GenerateContentResponseIterator : Type :=
  list (GenerateContentResponse.t + error).

Definition Next (it : GenerateContentResponseIterator)
  : (GenerateContentResponse.t + error) * GenerateContentResponseIterator :=
  match it with
  | [] => (inr iterator_Done, [])
  | r :: it' => (r, it')
  end.

(** [%v] of a finish reason. *)
Definition FinishReason_String (r : FinishReason) : string :=
  match r with
  | FinishReasonUnspecified => "FinishReasonUnspecified"
  | FinishReasonStop => "FinishReasonStop"
  | FinishReasonMaxTokens => "FinishReasonMaxTokens"
  | FinishReasonSafety => "FinishReasonSafety"
  | FinishReasonOtherValue shown => shown
  end.

(** [genai.Type] of a schema. *)
Inductive Type_ : Type :=
| TypeUnspecified | TypeString | TypeNumber | TypeInteger | TypeBoolean
| TypeArray | TypeObject.

Module Schema.
Record t : Type := mk
  { Type__ : Type_; Description : string;
    Properties : list (string * (Type_ * string)); Required : list string }.
End Schema.

Module FunctionDeclaration.
Record t : Type := mk
  { Name : string; Description : string; Parameters : Schema.t }.
End FunctionDeclaration.

(** [*genai.GenerativeModel]: the configuration the binding sets. *)
Module GenerativeModel.
Record t : Type := mk
  { Name : string;
    SystemInstruction : option string;
    Temperature : option float32;
    TopP : option float32;
    MaxOutputTokens : option Z;
    ResponseMIMEType : string;
    Tools : list FunctionDeclaration.t }.
Definition new (name : string) : t := mk name None None None None "" [].
End GenerativeModel.

End genai.

(** [convertSchemaType] *)
Definition convertSchemaType (typ : string) : genai.Type_ :=
  if streq typ "object" then genai.TypeObject
  else if streq typ "string" then genai.TypeString
  else if streq typ "number" then genai.TypeNumber
  else if streq typ "integer" then genai.TypeInteger
  else if streq typ "boolean" then genai.TypeBoolean
  else if streq typ "array" then genai.TypeArray
  else genai.TypeUnspecified.

(** [m[key]] on a map held as an association list. *)
Fixpoint map_index {V : Type} (m : list (string * V)) (key : string) : option V :=
  match m with
  | [] => None
  | (k, v) :: m' => if streq k key then Some v else map_index m' key
  end.

(** The loop body of [convertToGeminiTools] over one property. *)
Definition convertProperty (entry : string * any)
  : option (string * (genai.Type_ * string)) :=
  match entry with
  | (name, any_map propMap) =>
      let ty := match map_index propMap "type" with
                | Some (any_string typ) => convertSchemaType typ
                | _ => genai.TypeUnspecified
                end in
      let desc := match map_index propMap "description" with
                  | Some (any_string d) => d
                  | _ => ""
                  end in
      Some (name, (ty, desc))
  | _ => None
  end.

(** [convertToGeminiTools]: one function declaration per tool. *)
Definition convertToGeminiTools (tools : list Tool.t)
  : list genai.FunctionDeclaration.t :=
  map (fun tool =>
         let params := Function.Parameters (Tool.Function tool) in
         let props := match map_index params "properties" with
                      | Some (any_map properties) => omap convertProperty properties
                      | _ => []
                      end in
         let required := match map_index params "required" with
                         | Some (any_slice required) =>
                             map (fun r => match r with any_string str => str | _ => "" end)
                                 required
                         | _ => []
                         end in
         genai.FunctionDeclaration.mk
           (Function.Name (Tool.Function tool))
           (Function.Description (Tool.Function tool))
           (genai.Schema.mk genai.TypeObject "" props required))
      tools.

(** [int32(x)]: conversion of an [int] with wrap-around. *)
Definition int32 (x : Z) : Z := ((x + 2 ^ 31) mod 2 ^ 32 - 2 ^ 31)%Z.

Definition SetTemperature (model : genai.GenerativeModel.t) (v : float32)
  : genai.GenerativeModel.t :=
  let 'genai.GenerativeModel.mk n s _ p m r tl := model in
  genai.GenerativeModel.mk n s (Some v) p m r tl.

Definition SetTopP (model : genai.GenerativeModel.t) (v : float32)
  : genai.GenerativeModel.t :=
  let 'genai.GenerativeModel.mk n s t _ m r tl := model in
  genai.GenerativeModel.mk n s t (Some v) m r tl.

Definition SetMaxOutputTokens (model : genai.GenerativeModel.t) (v : Z)
  : genai.GenerativeModel.t :=
  let 'genai.GenerativeModel.mk n s t p _ r tl := model in
  genai.GenerativeModel.mk n s t p (Some v) r tl.

Definition setResponseMIMEType (model : genai.GenerativeModel.t) (v : string)
  : genai.GenerativeModel.t :=
  let 'genai.GenerativeModel.mk n s t p m _ tl := model in
  genai.GenerativeModel.mk n s t p m v tl.

Definition setTools (model : genai.GenerativeModel.t)
  (v : list genai.FunctionDeclaration.t) : genai.GenerativeModel.t :=
  let 'genai.GenerativeModel.mk n s t p m r _ := model in
  genai.GenerativeModel.mk n s t p m r v.

Definition setSystemInstruction (model : genai.GenerativeModel.t) (v : string)
  : genai.GenerativeModel.t :=
  let 'genai.GenerativeModel.mk n _ t p m r tl := model in
  genai.GenerativeModel.mk n (Some v) t p m r tl.

(** [setModelConfig] *)
Definition setModelConfig (model : genai.GenerativeModel.t)
  (req : ChatCompletionRequest.t) : genai.GenerativeModel.t :=
  let model :=
    if float32_gt (ChatCompletionRequest.Temperature req) float32_zero
    then SetTemperature model (ChatCompletionRequest.Temperature req)
    else SetTemperature model SmallestNonzeroFloat32 in
  let model :=
    match ChatCompletionRequest.TopP req with
    | Some p => if float32_gt p float32_zero then SetTopP model p else model
    | None => model
    end in
  let model := SetMaxOutputTokens model (int32 (ChatCompletionRequest.MaxTokens req)) in
  let model :=
    if ChatCompletionRequest.JSONMode req
    then setResponseMIMEType model "application/json" else model in
  setTools model (convertToGeminiTools (ChatCompletionRequest.Tools req)).

Module GeminiLLM.

(** [GeminiLLM.isSupported] *)
Definition isSupported (model : Model) : bool :=
  streq model ModelGemini2Flash || streq model ModelGemini15Flash
  || streq model ModelGemini15Flash8B || streq model ModelGemini15Pro
  || streq model ModelGemini2FlashLite001.

End GeminiLLM.

Module geminiStreamWrapper.

Record t : Type := mk
  { iter : option genai.GenerateContentResponseIterator;
    done : bool;
    accumulatedText : string;
    accumulatedToolCalls : list ToolCall.t }.

(** Step 1 of [Recv]: the text and the tool calls of the parts. *)
Definition extractParts (parts : list genai.Part) : string * list ToolCall.t :=
  fold_left
    (fun (acc : string * list ToolCall.t) part =>
       let '(newText, newToolCalls) := acc in
       match part with
       | genai.Text p => (newText +:+ p, newToolCalls)
       | genai.FunctionCall name (Some args) =>
           (newText,
            (newToolCalls ++
               [ToolCall.mk "" "function" (ToolCallFunction.mk name args)])%list)
       | genai.FunctionCall _ None => (newText, newToolCalls)
       | genai.OtherPart => (newText, newToolCalls)
       end)
    parts ("", []).

(** The inner loop of step 3: is [tc] absent from the accumulated calls? *)
Definition isNew (accumulated : list ToolCall.t) (tc : ToolCall.t) : bool :=
  negb (existsb
          (fun existing =>
             streq (ToolCallFunction.Name (ToolCall.Function existing))
                   (ToolCallFunction.Name (ToolCall.Function tc))
             && streq (ToolCallFunction.Arguments (ToolCall.Function existing))
                      (ToolCallFunction.Arguments (ToolCall.Function tc)))
          accumulated).

(** Step 3 of [Recv]: the calls not seen before, and the accumulated calls
    they are added to as the loop goes. *)
Definition newCalls (accumulated newToolCalls : list ToolCall.t)
  : list ToolCall.t * list ToolCall.t :=
  fold_left
    (fun (acc : list ToolCall.t * list ToolCall.t) tc =>
       let '(deltaCalls, accumulated) := acc in
       if isNew accumulated tc
       then ((deltaCalls ++ [tc])%list, (accumulated ++ [tc])%list)
       else (deltaCalls, accumulated))
    newToolCalls ([], accumulated).

(** [geminiStreamWrapper.Recv] *)
Definition Recv (w : t) : outcome ChatCompletionResponse.t * t :=
  if done w then (Fail io_EOF, w)
  else
    match iter w with
    | None => (Panic panic_nil_dereference, w)
    | Some it =>
        let '(r, it') := genai.Next it in
        let w := mk (Some it') (done w) (accumulatedText w) (accumulatedToolCalls w) in
        match r with
        | inr err =>
            if errors_Is_iterator_Done err then (Fail io_EOF, w)
            else (Fail err, w)
        | inl resp =>
            match genai.GenerateContentResponse.Candidates resp with
            | [] =>
                (Return (ChatCompletionResponse.mk ""
                           [Choice.mk 0 (OutputMessage.mk RoleAssistant "" [])
                                      FinishReasonNull]
                           Usage.zero), w)
            | candidate :: _ =>
                let '(newText, newToolCalls) :=
                  extractParts (genai.Candidate.Content_Parts candidate) in
                (* 2. new text into a partial delta *)
                let oldLen := String.length (accumulatedText w) in
                let text := accumulatedText w +:+ newText in
                let deltaContent :=
                  if Nat.ltb oldLen (String.length text)
                  then substring oldLen (String.length text - oldLen) text
                  else "" in
                (* 3. new tool calls *)
                let '(deltaCalls, calls) :=
                  newCalls (accumulatedToolCalls w) newToolCalls in
                (* 4. finish reason *)
                let finish : option (FinishReason * bool) :=
                  match genai.Candidate.FinishReason candidate with
                  | genai.FinishReasonStop =>
                      if Nat.ltb 0 (List.length calls)
                      then Some (FinishReasonToolCalls, true)
                      else Some (FinishReasonStop, true)
                  | genai.FinishReasonSafety => Some (FinishReasonStop, true)
                  | genai.FinishReasonMaxTokens => Some (FinishReasonMaxTokens, true)
                  | genai.FinishReasonUnspecified => Some (FinishReasonNull, false)
                  | genai.FinishReasonOtherValue _ => None
                  end in
                match finish with
                | None =>
                    (Panic (panic_error
                              (Errorf ("unknown finish reason: " +:+
                                       genai.FinishReason_String
                                         (genai.Candidate.FinishReason candidate)))),
                     mk (Some it') (done w) text calls)
                | Some (fr, d) =>
                    (Return (ChatCompletionResponse.mk ""
                               [Choice.mk 0
                                  (OutputMessage.mk RoleAssistant deltaContent deltaCalls)
                                  fr]
                               Usage.zero),
                     mk (Some it') d text calls)
                end
            end
        end
    end.

(** [geminiStreamWrapper.Close] *)
Definition Close (w : t) : outcome unit * t :=
  (Return tt, mk None true (accumulatedText w) (accumulatedToolCalls w)).

(** The wrapper [CreateChatCompletionStream] returns. *)
Definition new (respIter : genai.GenerateContentResponseIterator) : t :=
  mk (Some respIter) false "" [].

End geminiStreamWrapper.

(** ** encoding/json: does [json.Unmarshal(data, &js)] succeed?

    [isValidJSON] asks whether [json.Unmarshal] into a
    [map[string]interface{}] returns no error.  [Unmarshal] first runs the
    scanner over the whole input ([checkValid]) and then decodes; into a map
    the decoding succeeds on an object and on [null], and every number has to
    fit a [float64].  The scanner below is the state machine of
    encoding/json, one constructor per step function. *)
Module json.

Inductive parseKind : Type := parseObjectKey | parseObjectValue | parseArrayValue.

Inductive stepFn : Type :=
| stateBeginValueOrEmpty | stateBeginValue | stateBeginStringOrEmpty
| stateBeginString | stateEndValue | stateEndTop
| stateInString | stateInStringEsc
| stateInStringEscU | stateInStringEscU1 | stateInStringEscU12 | stateInStringEscU123
| stateNeg | state1 | state0 | stateDot | stateDot0 | stateE | stateESign | stateE0
| stateT | stateTr | stateTru
| stateF | stateFa | stateFal | stateFals
| stateN | stateNu | stateNul
| stateError.

Record scanner : Type := mkScanner
  { step : stepFn; endTop : bool; parseState : list parseKind; err : bool }.

Definition maxNestingDepth : Z := 10000.

Definition reset : scanner := mkScanner stateBeginValue false [] false.

Definition error_ (s : scanner) : scanner :=
  mkScanner stateError (endTop s) (parseState s) true.

Definition setStep (s : scanner) (f : stepFn) : scanner :=
  mkScanner f (endTop s) (parseState s) (err s).

Definition code (c : ascii) : nat := nat_of_ascii c.

Definition isSpace (c : ascii) : bool :=
  Ascii.eqb c " " || Nat.eqb (code c) 9 || Nat.eqb (code c) 13 || Nat.eqb (code c) 10.

Definition isDigit (c : ascii) : bool := Nat.leb 48 (code c) && Nat.leb (code c) 57.
Definition isDigit19 (c : ascii) : bool := Nat.leb 49 (code c) && Nat.leb (code c) 57.
Definition isHex (c : ascii) : bool :=
  isDigit c || (Nat.leb 97 (code c) && Nat.leb (code c) 102)
  || (Nat.leb 65 (code c) && Nat.leb (code c) 70).

(** [pushParseState]: the stack is a list with its top at the head. *)
Definition pushParseState (s : scanner) (k : parseKind) (next : stepFn) : scanner :=
  let stack := k :: parseState s in
  if Z.leb (Z.of_nat (List.length stack)) maxNestingDepth
  then mkScanner next (endTop s) stack (err s)
  else error_ (mkScanner next (endTop s) stack (err s)).

Definition popParseState (s : scanner) : scanner :=
  match parseState s with
  | [] => error_ s
  | _ :: rest =>
      match rest with
      | [] => mkScanner stateEndTop true rest (err s)
      | _ => mkScanner stateEndValue (endTop s) rest (err s)
      end
  end.

Definition setTop (s : scanner) (k : parseKind) : scanner :=
  match parseState s with
  | [] => s
  | _ :: rest => mkScanner (step s) (endTop s) (k :: rest) (err s)
  end.

Definition doEndTop (s : scanner) (c : ascii) : scanner :=
  if isSpace c then s else error_ s.

Definition doEndValue (s : scanner) (c : ascii) : scanner :=
  match parseState s with
  | [] => doEndTop (mkScanner stateEndTop true [] (err s)) c
  | ps :: _ =>
      if isSpace c then setStep s stateEndValue
      else
        match ps with
        | parseObjectKey =>
            if Ascii.eqb c ":" then setStep (setTop s parseObjectValue) stateBeginValue
            else error_ s
        | parseObjectValue =>
            if Ascii.eqb c "," then setStep (setTop s parseObjectKey) stateBeginString
            else if Ascii.eqb c "}" then popParseState s
            else error_ s
        | parseArrayValue =>
            if Ascii.eqb c "," then setStep s stateBeginValue
            else if Ascii.eqb c "]" then popParseState s
            else error_ s
        end
  end.

Definition doBeginValue (s : scanner) (c : ascii) : scanner :=
  if isSpace c then s
  else if Ascii.eqb c "{" then pushParseState s parseObjectKey stateBeginStringOrEmpty
  else if Ascii.eqb c "[" then pushParseState s parseArrayValue stateBeginValueOrEmpty
  else if Nat.eqb (code c) 34 then setStep s stateInString
  else if Ascii.eqb c "-" then setStep s stateNeg
  else if Ascii.eqb c "0" then setStep s state0
  else if Ascii.eqb c "t" then setStep s stateT
  else if Ascii.eqb c "f" then setStep s stateF
  else if Ascii.eqb c "n" then setStep s stateN
  else if isDigit19 c then setStep s state1
  else error_ s.

Definition doBeginString (s : scanner) (c : ascii) : scanner :=
  if isSpace c then s
  else if Nat.eqb (code c) 34 then setStep s stateInString
  else error_ s.

Definition expect (s : scanner) (c want : ascii) (next : stepFn) : scanner :=
  if Ascii.eqb c want then setStep s next else error_ s.

Definition do0 (s : scanner) (c : ascii) : scanner :=
  if Ascii.eqb c "." then setStep s stateDot
  else if Ascii.eqb c "e" || Ascii.eqb c "E" then setStep s stateE
  else doEndValue s c.

Definition doESign (s : scanner) (c : ascii) : scanner :=
  if isDigit c then setStep s stateE0 else error_ s.

(** [s.step(s, c)] *)
Definition stepByte (s : scanner) (c : ascii) : scanner :=
  match step s with
  | stateBeginValueOrEmpty =>
      if isSpace c then s
      else if Ascii.eqb c "]" then doEndValue s c
      else doBeginValue s c
  | stateBeginValue => doBeginValue s c
  | stateBeginStringOrEmpty =>
      if isSpace c then s
      else if Ascii.eqb c "}" then doEndValue (setTop s parseObjectValue) c
      else doBeginString s c
  | stateBeginString => doBeginString s c
  | stateEndValue => doEndValue s c
  | stateEndTop => doEndTop s c
  | stateInString =>
      if Nat.eqb (code c) 34 then setStep s stateEndValue
      else if Nat.eqb (code c) 92 then setStep s stateInStringEsc
      else if Nat.ltb (code c) 32 then error_ s
      else s
  | stateInStringEsc =>
      if Ascii.eqb c "b" || Ascii.eqb c "f" || Ascii.eqb c "n" || Ascii.eqb c "r"
         || Ascii.eqb c "t" || Nat.eqb (code c) 92 || Ascii.eqb c "/"
         || Nat.eqb (code c) 34
      then setStep s stateInString
      else if Ascii.eqb c "u" then setStep s stateInStringEscU
      else error_ s
  | stateInStringEscU => if isHex c then setStep s stateInStringEscU1 else error_ s
  | stateInStringEscU1 => if isHex c then setStep s stateInStringEscU12 else error_ s
  | stateInStringEscU12 => if isHex c then setStep s stateInStringEscU123 else error_ s
  | stateInStringEscU123 => if isHex c then setStep s stateInString else error_ s
  | stateNeg =>
      if Ascii.eqb c "0" then setStep s state0
      else if isDigit19 c then setStep s state1
      else error_ s
  | state1 => if isDigit c then setStep s state1 else do0 s c
  | state0 => do0 s c
  | stateDot => if isDigit c then setStep s stateDot0 else error_ s
  | stateDot0 =>
      if isDigit c then s
      else if Ascii.eqb c "e" || Ascii.eqb c "E" then setStep s stateE
      else doEndValue s c
  | stateE =>
      if Ascii.eqb c "+" || Ascii.eqb c "-" then setStep s stateESign
      else doESign s c
  | stateESign => doESign s c
  | stateE0 => if isDigit c then s else doEndValue s c
  | stateT => expect s c "r" stateTr
  | stateTr => expect s c "u" stateTru
  | stateTru => expect s c "e" stateEndValue
  | stateF => expect s c "a" stateFa
  | stateFa => expect s c "l" stateFal
  | stateFal => expect s c "s" stateFals
  | stateFals => expect s c "e" stateEndValue
  | stateN => expect s c "u" stateNu
  | stateNu => expect s c "l" stateNul
  | stateNul => expect s c "l" stateEndValue
  | stateError => error_ s
  end.

(** [scanner.eof]: is the input a complete value? *)
Definition eof (s : scanner) : bool :=
  if err s then false
  else if endTop s then true
  else
    let s' := stepByte s " " in
    endTop s' && negb (err s').

(** [checkValid(data, scan) == nil] *)
Definition checkValid (data : list ascii) : bool :=
  eof (fold_left stepByte data reset).

(** The kind of the top-level value of a valid text: its first byte that is
    not white space. *)
Fixpoint topLevelIsObjectOrNull (data : list ascii) : bool :=
  match data with
  | [] => false
  | c :: rest =>
      if isSpace c then topLevelIsObjectOrNull rest
      else Ascii.eqb c "{" || Ascii.eqb c "n"
  end.

(** *** Numbers: [strconv.ParseFloat(s, 64)] fails when the literal rounds to
    an infinity, that is when its magnitude reaches 2^1024 - 2^970. *)

Definition digitVal (c : ascii) : Z := (Z.of_nat (code c) - 48)%Z.

(** A number literal as (digits of the mantissa, count of fraction digits,
    sign of the exponent, digits of the exponent). *)
Inductive numPhase : Type := inInt | inFrac | inExp.

Record numAcc : Type := mkNum
  { phase : numPhase; mant : Z; fracDigits : Z; expNeg : bool; expVal : Z }.

Definition numStart : numAcc := mkNum inInt 0 0 false 0.

Definition numFeed (a : numAcc) (c : ascii) : numAcc :=
  if isDigit c then
    match phase a with
    | inInt => mkNum inInt (10 * mant a + digitVal c)%Z 0 (expNeg a) (expVal a)
    | inFrac =>
        mkNum inFrac (10 * mant a + digitVal c)%Z (fracDigits a + 1)%Z (expNeg a) (expVal a)
    | inExp => mkNum inExp (mant a) (fracDigits a) (expNeg a) (10 * expVal a + digitVal c)%Z
    end
  else if Ascii.eqb c "." then mkNum inFrac (mant a) (fracDigits a) (expNeg a) (expVal a)
  else if Ascii.eqb c "e" || Ascii.eqb c "E"
       then mkNum inExp (mant a) (fracDigits a) (expNeg a) (expVal a)
  else if Ascii.eqb c "-" then
    match phase a with
    | inExp => mkNum inExp (mant a) (fracDigits a) true (expVal a)
    | _ => a
    end
  else a.

Definition float64_overflow_threshold : Z := (2 ^ 1024 - 2 ^ 970)%Z.

(** Does the literal fit a [float64]? *)
Definition numInRange (a : numAcc) : bool :=
  let e := ((if expNeg a then - expVal a else expVal a) - fracDigits a)%Z in
  if Z.eqb (mant a) 0 then true
  else if Z.leb 0 e then Z.ltb (mant a * 10 ^ e)%Z float64_overflow_threshold
  else Z.ltb (mant a) (float64_overflow_threshold * 10 ^ (- e))%Z.

Definition isNumChar (c : ascii) : bool :=
  isDigit c || Ascii.eqb c "-" || Ascii.eqb c "+" || Ascii.eqb c "."
  || Ascii.eqb c "e" || Ascii.eqb c "E".

Inductive lexMode : Type :=
| lexOutside | lexInString | lexInStringEsc | lexInNumber (a : numAcc).

(** All number literals of a valid text fit a [float64]. *)
Fixpoint numbersInRange (mode : lexMode) (data : list ascii) : bool :=
  match data with
  | [] => match mode with lexInNumber a => numInRange a | _ => true end
  | c :: rest =>
      match mode with
      | lexInString =>
          if Nat.eqb (code c) 34 then numbersInRange lexOutside rest
          else if Nat.eqb (code c) 92 then numbersInRange lexInStringEsc rest
          else numbersInRange lexInString rest
      | lexInStringEsc => numbersInRange lexInString rest
      | lexInNumber a =>
          if isNumChar c then numbersInRange (lexInNumber (numFeed a c)) rest
          else numInRange a && numbersInRange lexOutside rest
      | lexOutside =>
          if Nat.eqb (code c) 34 then numbersInRange lexInString rest
          else if isDigit c || Ascii.eqb c "-"
               then numbersInRange (lexInNumber (numFeed numStart c)) rest
          else numbersInRange lexOutside rest
      end
  end.

(** [json.Unmarshal([]byte(s), &js) == nil] for [js : map[string]interface{}]. *)
Definition Unmarshal_map_ok (s : string) : bool :=
  let data := list_ascii_of_string s in
  checkValid data && topLevelIsObjectOrNull data && numbersInRange lexOutside data.

End json.

(** [isValidJSON] *)
Definition isValidJSON (s : string) : bool := json.Unmarshal_map_ok s.

(** ** OpenAI *)

(** The part of the vendor SDK [go-openai] the binding reads and writes. *)
Module openai.

Definition ChatMessageRoleSystem : string := "system".
Definition ChatMessageRoleUser : string := "user".
Definition ChatMessageRoleAssistant : string := "assistant".
Definition ChatMessageRoleTool : string := "tool".

Definition ChatMessagePartTypeText : string := "text".
Definition ChatMessagePartTypeImageURL : string := "image_url".
Definition ToolTypeFunction : string := "function".

Definition FinishReason := string.
Definition FinishReasonStop : FinishReason := "stop".
Definition FinishReasonLength : FinishReason := "length".
Definition FinishReasonFunctionCall : FinishReason := "function_call".
Definition FinishReasonToolCalls : FinishReason := "tool_calls".
Definition FinishReasonContentFilter : FinishReason := "content_filter".
Definition FinishReasonNull : FinishReason := "null".

Module ChatMessageImageURL.
Record t : Type := mk { URL : string; Detail : string }.
End ChatMessageImageURL.

Module ChatMessagePart.
Record t : Type := mk
  { Type_ : string; Text : string; ImageURL : option ChatMessageImageURL.t }.
End ChatMessagePart.

Module FunctionCall.
Record t : Type := mk { Name : string; Arguments : string }.
End FunctionCall.

Module ToolCall.
Record t : Type := mk { ID : string; Type_ : string; Function : FunctionCall.t }.
End ToolCall.

Module ChatCompletionMessage.
Record t : Type := mk
  { Role : string;
    Content : string;
    MultiContent : list ChatMessagePart.t;
    ToolCalls : list ToolCall.t;
    ToolCallID : string }.
Definition zero : t := mk "" "" [] [] "".
End ChatCompletionMessage.

Module FunctionDefinition.
Record t : Type := mk
  { Name : string; Description : string; Parameters : list (string * any) }.
End FunctionDefinition.

Module Tool.
Record t : Type := mk { Type_ : string; Function : FunctionDefinition.t }.
End Tool.

Module ChatCompletionRequest.
Record t : Type := mk
  { Model : string;
    Messages : list ChatCompletionMessage.t;
    Temperature : float32;
    N : Z;
    TopP : float32;
    Stop : list string;
    Tools : list Tool.t;
    Stream : bool;
    MaxCompletionTokens : Z;
    ResponseFormat : option string;
    ReasoningEffort : string }.
End ChatCompletionRequest.

Module ChatCompletionChoice.
Record t : Type := mk
  { Index : Z; Message : ChatCompletionMessage.t; FinishReason : FinishReason }.
End ChatCompletionChoice.

Module ChatCompletionResponse.
Record t : Type := mk
  { ID : string; Choices : list ChatCompletionChoice.t; Usage : Usage.t }.
End ChatCompletionResponse.

Module ChatCompletionStreamChoiceDelta.
Record t : Type := mk { Content : string; Role : string; ToolCalls : list ToolCall.t }.
End ChatCompletionStreamChoiceDelta.

Module ChatCompletionStreamChoice.
Record t : Type := mk
  { Index : Z; Delta : ChatCompletionStreamChoiceDelta.t; FinishReason : FinishReason }.
End ChatCompletionStreamChoice.

Module ChatCompletionStreamResponse.
Record t : Type := mk { ID : string; Choices : list ChatCompletionStreamChoice.t }.
End ChatCompletionStreamResponse.

(** [*openai.ChatCompletionStream]: the results its successive [Recv] calls
    will give ([io.EOF] once they are used up) and the results of its
    successive [Close] calls ([nil] once they are used up). *)
Module ChatCompletionStream.
Record t : Type := mk
  { recvs : list (ChatCompletionStreamResponse.t + error);
    closes : list (option error) }.

Definition Recv (s : t) : (ChatCompletionStreamResponse.t + error) * t :=
  match recvs s with
  | [] => (inr io_EOF, s)
  | r :: rest => (r, mk rest (closes s))
  end.

Definition Close (s : t) : option error * t :=
  match closes s with
  | [] => (None, s)
  | r :: rest => (r, mk (recvs s) rest)
  end.
End ChatCompletionStream.

(** [*openai.Client]: what the server answers to a request. *)
Module Client.
Record t : Type := mk
  { CreateChatCompletion : ChatCompletionRequest.t -> ChatCompletionResponse.t + error;
    CreateChatCompletionStream : ChatCompletionRequest.t -> ChatCompletionStream.t + error }.
End Client.

(** A request sent over the network. *)
Inductive NetCall : Type :=
| call_CreateChatCompletion (req : ChatCompletionRequest.t)
| call_CreateChatCompletionStream (req : ChatCompletionRequest.t).

End openai.

(** [convertOpenAIMessageContent] *)
Definition convertOpenAIMessageContent (content : list ContentPart.t)
  : list openai.ChatMessagePart.t :=
  fold_left
    (fun multiContent part =>
       if streq (ContentPart.Type_ part) ContentTypeText then
         (multiContent ++
            [openai.ChatMessagePart.mk openai.ChatMessagePartTypeText
               (ContentPart.Text part) None])%list
       else if streq (ContentPart.Type_ part) ContentTypeImage then
         let imageURL :=
           "data:" +:+ ContentPart.MediaType part +:+ ";base64," +:+ ContentPart.Data part in
         (multiContent ++
            [openai.ChatMessagePart.mk openai.ChatMessagePartTypeImageURL ""
               (Some (openai.ChatMessageImageURL.mk imageURL "high"))])%list
       else multiContent)
    content [].

(** [convertToOpenAIToolsCalls] *)
Definition convertToOpenAIToolsCalls (tools : list ToolCall.t) : list openai.ToolCall.t :=
  map (fun tool =>
         openai.ToolCall.mk (ToolCall.ID tool) openai.ToolTypeFunction
           (openai.FunctionCall.mk
              (ToolCallFunction.Name (ToolCall.Function tool))
              (ToolCallFunction.Arguments (ToolCall.Function tool))))
      tools.

(** [convertFromOpenAIToolCalls] *)
Definition convertFromOpenAIToolCalls (toolCalls : list openai.ToolCall.t) : list ToolCall.t :=
  map (fun call =>
         ToolCall.mk (openai.ToolCall.ID call) (openai.ToolCall.Type_ call)
           (ToolCallFunction.mk
              (openai.FunctionCall.Name (openai.ToolCall.Function call))
              (openai.FunctionCall.Arguments (openai.ToolCall.Function call))))
      toolCalls.

(** [convertToOpenAITools] *)
Definition convertToOpenAITools (tools : list Tool.t) : list openai.Tool.t :=
  map (fun tool =>
         openai.Tool.mk openai.ToolTypeFunction
           (openai.FunctionDefinition.mk
              (Function.Name (Tool.Function tool))
              (Function.Description (Tool.Function tool))
              (Function.Parameters (Tool.Function tool))))
      tools.

(** The body of the loop of [convertToOpenAIMessages] for one message:
    [msg.ToolResults[0]] panics when a tool message has no result. *)
Definition convertToOpenAIMessage (msg : InputMessage.t)
  : outcome openai.ChatCompletionMessage.t :=
  let role :=
    if streq (InputMessage.Role msg) RoleUser then openai.ChatMessageRoleUser
    else if streq (InputMessage.Role msg) RoleAssistant then openai.ChatMessageRoleAssistant
    else if streq (InputMessage.Role msg) RoleTool then openai.ChatMessageRoleTool
    else "" in
  if streq (InputMessage.Role msg) RoleTool then
    match InputMessage.ToolResults msg with
    | [] => Panic (panic_index_out_of_range 0 0)
    | r :: _ =>
        Return (openai.ChatCompletionMessage.mk role
                  (ToolResult.Result r) [] [] (ToolResult.ToolCallID r))
    end
  else
    Return (openai.ChatCompletionMessage.mk role ""
              (convertOpenAIMessageContent (InputMessage.MultiContent msg))
              (convertToOpenAIToolsCalls (InputMessage.ToolCalls msg)) "").

(** [convertToOpenAIMessages] *)
Fixpoint convertToOpenAIMessages_from (openAIMessages : list openai.ChatCompletionMessage.t)
  (messages : list InputMessage.t) : outcome (list openai.ChatCompletionMessage.t) :=
  match messages with
  | [] => Return openAIMessages
  | msg :: rest =>
      match convertToOpenAIMessage msg with
      | Return openAIMsg =>
          convertToOpenAIMessages_from (openAIMessages ++ [openAIMsg])%list rest
      | Fail e => Fail e
      | Panic p => Panic p
      end
  end.

Definition convertToOpenAIMessages (messages : list InputMessage.t)
  : outcome (list openai.ChatCompletionMessage.t) :=
  convertToOpenAIMessages_from [] messages.

(** [strings.Join(elems, "")] *)
Definition strings_Join_empty (elems : list string) : string :=
  fold_right (fun a b => a +:+ b) "" elems.

(** [convertFromOpenAIMessage] *)
Definition convertFromOpenAIMessage (msg : openai.ChatCompletionMessage.t) : OutputMessage.t :=
  let content :=
    match openai.ChatCompletionMessage.MultiContent msg with
    | [] => openai.ChatCompletionMessage.Content msg
    | parts =>
        strings_Join_empty
          (map openai.ChatMessagePart.Text
             (List.filter (fun part =>
                             streq (openai.ChatMessagePart.Type_ part)
                                   openai.ChatMessagePartTypeText) parts))
    end in
  OutputMessage.mk (openai.ChatCompletionMessage.Role msg) content
    (convertFromOpenAIToolCalls (openai.ChatCompletionMessage.ToolCalls msg)).

(** [convertFromOpenAIFinishReason] *)
Definition convertFromOpenAIFinishReason (reason : openai.FinishReason)
  : outcome FinishReason :=
  if streq reason openai.FinishReasonToolCalls then Return FinishReasonToolCalls
  else if streq reason openai.FinishReasonStop then Return FinishReasonStop
  else if streq reason openai.FinishReasonLength then Return FinishReasonMaxTokens
  else if streq reason openai.FinishReasonFunctionCall then Return FinishReasonToolCalls
  else if streq reason openai.FinishReasonContentFilter then Return FinishReasonStop
  else if streq reason openai.FinishReasonNull then Return FinishReasonNull
  else if streq reason "" then Return FinishReasonNull
  else Fail (Errorf ("default case reason: " +:+ reason)).

Module openAIStreamWrapper.

(** The wrapper holds pointers to [ToolCall] objects, in [currentToolCall]
    and in the values of [toolCallBuffer]; [heap] is the store of the objects
    these pointers designate, a pointer being an index into it. *)
Abbreviation ptr := nat (only parsing).

Record t : Type := mk
  { stream : openai.ChatCompletionStream.t;
    heap : list ToolCall.t;
    currentToolCall : option ptr;
    toolCallBuffer : gmap string ptr }.

(** [newOpenAIStreamWrapper] *)
Definition newOpenAIStreamWrapper (stream : openai.ChatCompletionStream.t) : t :=
  mk stream [] None ∅.

(** [*p] *)
Definition deref (h : list ToolCall.t) (p : ptr) : ToolCall.t :=
  List.nth p h (ToolCall.mk "" "" (ToolCallFunction.mk "" "")).

Definition setName (tc : ToolCall.t) (name : string) : ToolCall.t :=
  ToolCall.mk (ToolCall.ID tc) (ToolCall.Type_ tc)
    (ToolCallFunction.mk name (ToolCallFunction.Arguments (ToolCall.Function tc))).

Definition appendArguments (tc : ToolCall.t) (fragment : string) : ToolCall.t :=
  ToolCall.mk (ToolCall.ID tc) (ToolCall.Type_ tc)
    (ToolCallFunction.mk (ToolCallFunction.Name (ToolCall.Function tc))
       (ToolCallFunction.Arguments (ToolCall.Function tc) +:+ fragment)).

(** The variables the loop over [c.Delta.ToolCalls] updates. *)
Record loopState : Type := mkLoop
  { toolCalls : list ToolCall.t;
    l_heap : list ToolCall.t;
    l_current : option ptr;
    l_buffer : gmap string ptr }.

(** "Accumulate tool call data": the end of the loop body, with [toolCall]
    the buffer of [tc.ID]. *)
Definition accumulate (st : loopState) (toolCall : ptr) (tc : openai.ToolCall.t)
  : loopState :=
  let name := openai.FunctionCall.Name (openai.ToolCall.Function tc) in
  let arguments := openai.FunctionCall.Arguments (openai.ToolCall.Function tc) in
  let h :=
    if negb (streq name "")
    then <[toolCall := setName (deref (l_heap st) toolCall) name]> (l_heap st)
    else l_heap st in
  if negb (streq arguments "") then
    let h := <[toolCall := appendArguments (deref h toolCall) arguments]> h in
    if isValidJSON (ToolCallFunction.Arguments (ToolCall.Function (deref h toolCall))) then
      mkLoop (toolCalls st ++ [deref h toolCall])%list h
        (match l_current st with
         | Some cur =>
             if streq (ToolCall.ID (deref h cur)) (openai.ToolCall.ID tc)
             then None else Some cur
         | None => None
         end)
        (delete (openai.ToolCall.ID tc) (l_buffer st))
    else mkLoop (toolCalls st) h (l_current st) (l_buffer st)
  else mkLoop (toolCalls st) h (l_current st) (l_buffer st).

(** The body of the loop over [c.Delta.ToolCalls]. *)
Definition handleToolCallDelta (st : loopState) (tc : openai.ToolCall.t) : loopState :=
  let arguments := openai.FunctionCall.Arguments (openai.ToolCall.Function tc) in
  match l_buffer st !! openai.ToolCall.ID tc with
  | Some toolCall => accumulate st toolCall tc
  | None =>
      if streq (openai.ToolCall.ID tc) "" then
        (* an empty ID: the fragment goes to the current tool call *)
        match l_current st with
        | Some cur =>
            if negb (streq arguments "") then
              let h := <[cur := appendArguments (deref (l_heap st) cur) arguments]> (l_heap st) in
              if isValidJSON (ToolCallFunction.Arguments (ToolCall.Function (deref h cur)))
              then mkLoop (toolCalls st ++ [deref h cur])%list h None
                     (delete (ToolCall.ID (deref h cur)) (l_buffer st))
              else mkLoop (toolCalls st) h (l_current st) (l_buffer st)
            else st
        | None => st
        end
      else
        (* a new tool call *)
        let toolCall := List.length (l_heap st) in
        let h :=
          (l_heap st ++
             [ToolCall.mk (openai.ToolCall.ID tc) (openai.ToolCall.Type_ tc)
                (ToolCallFunction.mk
                   (openai.FunctionCall.Name (openai.ToolCall.Function tc)) "")])%list in
        accumulate
          (mkLoop (toolCalls st) h (Some toolCall)
             (<[openai.ToolCall.ID tc := toolCall]> (l_buffer st)))
          toolCall tc
  end.

(** The tool calls of one choice: [toolCalls] starts empty. *)
Definition handleToolCalls (w : t) (deltas : list openai.ToolCall.t) : loopState :=
  fold_left handleToolCallDelta deltas
    (mkLoop [] (heap w) (currentToolCall w) (toolCallBuffer w)).

(** The body of the loop over [resp.Choices]. *)
Definition handleChoice (w : t) (c : openai.ChatCompletionStreamChoice.t)
  : outcome Choice.t * t :=
  let delta := openai.ChatCompletionStreamChoice.Delta c in
  let st := handleToolCalls w (openai.ChatCompletionStreamChoiceDelta.ToolCalls delta) in
  let w := mk (stream w) (l_heap st) (l_current st) (l_buffer st) in
  let message :=
    OutputMessage.mk (openai.ChatCompletionStreamChoiceDelta.Role delta)
      (openai.ChatCompletionStreamChoiceDelta.Content delta) (toolCalls st) in
  match convertFromOpenAIFinishReason (openai.ChatCompletionStreamChoice.FinishReason c) with
  | Return finishReason =>
      (Return (Choice.mk (openai.ChatCompletionStreamChoice.Index c) message finishReason), w)
  | Fail err => (Fail err, w)
  | Panic p => (Panic p, w)
  end.

(** The loop over [resp.Choices]: it returns at the first error. *)
Fixpoint handleChoices (w : t) (cs : list openai.ChatCompletionStreamChoice.t)
  : outcome (list Choice.t) * t :=
  match cs with
  | [] => (Return [], w)
  | c :: rest =>
      match handleChoice w c with
      | (Return choice, w) =>
          match handleChoices w rest with
          | (Return choices, w) => (Return (choice :: choices), w)
          | other => other
          end
      | (Fail err, w) => (Fail err, w)
      | (Panic p, w) => (Panic p, w)
      end
  end.

(** [openAIStreamWrapper.Recv] *)
Definition Recv (w : t) : outcome ChatCompletionResponse.t * t :=
  let '(r, stream') := openai.ChatCompletionStream.Recv (stream w) in
  let w := mk stream' (heap w) (currentToolCall w) (toolCallBuffer w) in
  match r with
  | inr err =>
      if isEOF err then (Fail err, w)
      else
        match errors_As_APIError err with
        | Some (code, message) =>
            (Fail (Errorf ("OpenAI API error: " +:+ code +:+ " - " +:+ message)), w)
        | None => (Fail (Errorf_w "stream receive failed: " err), w)
        end
  | inl resp =>
      match handleChoices w (openai.ChatCompletionStreamResponse.Choices resp) with
      | (Return choices, w) =>
          (Return (ChatCompletionResponse.mk (openai.ChatCompletionStreamResponse.ID resp)
                     choices Usage.zero), w)
      | (Fail err, w) => (Fail err, w)
      | (Panic p, w) => (Panic p, w)
      end
  end.

(** [openAIStreamWrapper.Close]: [return w.stream.Close()] *)
Definition Close (w : t) : outcome unit * t :=
  let '(r, stream') := openai.ChatCompletionStream.Close (stream w) in
  let w := mk stream' (heap w) (currentToolCall w) (toolCallBuffer w) in
  match r with
  | None => (Return tt, w)
  | Some err => (Fail err, w)
  end.

End openAIStreamWrapper.

Module OpenAILLM.

(** [OpenAILLM.isSupported] *)
Definition isSupported (model : Model) : bool :=
  if streq model ModelO3Mini then true
  else if streq model ModelGPT4o then true
  else if streq model ModelGPT4oMini then true
  else false.

(** [float32(1)] *)
Definition float32_one : float32 := S754_finite false 8388608 (-23).

(** The request both entry points build, up to the [Stream] flag and the
    reasoning effort; it panics when the conversion of the messages does. *)
Definition buildRequest (req : ChatCompletionRequest.t) (stream : bool)
  : outcome openai.ChatCompletionRequest.t :=
  let topP := match ChatCompletionRequest.TopP req with
              | Some p => p
              | None => float32_one
              end in
  let messages :=
    match ChatCompletionRequest.SystemPrompt req with
    | Some prompt =>
        [openai.ChatCompletionMessage.mk openai.ChatMessageRoleSystem prompt [] [] ""]
    | None => []
    end in
  match convertToOpenAIMessages (ChatCompletionRequest.Messages req) with
  | Return inputMessages =>
      Return
        (openai.ChatCompletionRequest.mk
           (ChatCompletionRequest.Model req)
           (messages ++ inputMessages)%list
           (ChatCompletionRequest.Temperature req)
           1 topP []
           (convertToOpenAITools (ChatCompletionRequest.Tools req))
           stream
           (ChatCompletionRequest.MaxTokens req)
           (if ChatCompletionRequest.JSONMode req then Some "json_object" else None)
           (if negb stream && streq (ChatCompletionRequest.Model req) ModelO3Mini
            then "high" else ""))
  | Fail e => Fail e
  | Panic p => Panic p
  end.

(** The loop of [CreateChatCompletion] over [resp.Choices]. *)
Fixpoint convertChoices (cs : list openai.ChatCompletionChoice.t) : outcome (list Choice.t) :=
  match cs with
  | [] => Return []
  | c :: rest =>
      let msg := convertFromOpenAIMessage (openai.ChatCompletionChoice.Message c) in
      match convertFromOpenAIFinishReason (openai.ChatCompletionChoice.FinishReason c) with
      | Return finishReason =>
          match convertChoices rest with
          | Return choices =>
              Return (Choice.mk (openai.ChatCompletionChoice.Index c) msg finishReason
                        :: choices)
          | other => other
          end
      | Fail err => Fail err
      | Panic p => Panic p
      end
  end.

(** [OpenAILLM.CreateChatCompletion]: its result and the requests it sent. *)
Definition CreateChatCompletion (o : openai.Client.t) (req : ChatCompletionRequest.t)
  : outcome ChatCompletionResponse.t * list openai.NetCall :=
  if negb (isSupported (ChatCompletionRequest.Model req)) then
    (Fail (Errorf ("model " +:+ ChatCompletionRequest.Model req +:+ " is not available")), [])
  else
    match buildRequest req false with
    | Panic p => (Panic p, [])
    | Fail e => (Fail e, [])
    | Return openAIReq =>
        let sent := [openai.call_CreateChatCompletion openAIReq] in
        match openai.Client.CreateChatCompletion o openAIReq with
        | inr err => (Fail err, sent)
        | inl resp =>
            match convertChoices (openai.ChatCompletionResponse.Choices resp) with
            | Return choices =>
                (Return (ChatCompletionResponse.mk (openai.ChatCompletionResponse.ID resp)
                           choices (openai.ChatCompletionResponse.Usage resp)), sent)
            | Fail err => (Fail err, sent)
            | Panic p => (Panic p, sent)
            end
        end
    end.

(** [OpenAILLM.CreateChatCompletionStream]: the stream handle or the error,
    and the requests it sent. *)
Definition CreateChatCompletionStream (o : openai.Client.t) (req : ChatCompletionRequest.t)
  : outcome openAIStreamWrapper.t * list openai.NetCall :=
  if negb (isSupported (ChatCompletionRequest.Model req)) then
    (Fail (Errorf ("model " +:+ ChatCompletionRequest.Model req +:+ " is not available")), [])
  else
    match buildRequest req true with
    | Panic p => (Panic p, [])
    | Fail e => (Fail e, [])
    | Return openAIReq =>
        let sent := [openai.call_CreateChatCompletionStream openAIReq] in
        match openai.Client.CreateChatCompletionStream o openAIReq with
        | inr err =>
            match errors_As_APIError err with
            | Some (code, message) =>
                (Fail (Errorf ("OpenAI API error: " +:+ code +:+ " - " +:+ message)), sent)
            | None => (Fail (Errorf_w "stream creation failed: " err), sent)
            end
        | inl stream => (Return (openAIStreamWrapper.newOpenAIStreamWrapper stream), sent)
        end
    end.

End OpenAILLM.

(** ** Gemini: the entry points

    The translation of the messages into the vendor's format
    ([convertToGeminiMessages], one [genai.Content] per message) is left out:
    a request is recorded with the model configuration and the canonical
    messages, the last of which is the one sent. *)
Module GeminiClient.

(** A request sent over the network. *)
Inductive NetCall : Type :=
| call_SendMessage (model : genai.GenerativeModel.t) (messages : list InputMessage.t)
| call_SendMessageStream (model : genai.GenerativeModel.t) (messages : list InputMessage.t).

(** [*genai.Client]: what the server answers, and the conversion
    [FinishReason(c.FinishReason)] of the vendor's enumeration value to a
    string, which depends on the numbers the SDK gives its constants. *)
Record t : Type := mk
  { SendMessage : genai.GenerativeModel.t -> list InputMessage.t ->
                  genai.GenerateContentResponse.t + error;
    SendMessageStream : genai.GenerativeModel.t -> list InputMessage.t ->
                        genai.GenerateContentResponseIterator;
    FinishReason_to_string : genai.FinishReason -> string }.

End GeminiClient.

(** [convertFromGeminiCandidate] *)
Definition convertFromGeminiCandidate (to_string : genai.FinishReason -> string)
  (c : genai.Candidate.t) (index : Z) : Choice.t :=
  let '(textParts, toolCalls) :=
    fold_left
      (fun (acc : list string * list ToolCall.t) part =>
         let '(textParts, toolCalls) := acc in
         match part with
         | genai.Text p => ((textParts ++ [p])%list, toolCalls)
         | genai.FunctionCall name (Some args) =>
             (textParts,
              (toolCalls ++
                 [ToolCall.mk "" "function" (ToolCallFunction.mk name args)])%list)
         | genai.FunctionCall _ None => (textParts, toolCalls)
         | genai.OtherPart => (textParts, toolCalls)
         end)
      (genai.Candidate.Content_Parts c) ([], []) in
  Choice.mk index
    (OutputMessage.mk RoleAssistant (strings_Join_empty textParts) toolCalls)
    (to_string (genai.Candidate.FinishReason c)).

(** [for i, c := range cs]: the elements with their indices from [i]. *)
Fixpoint indexed_from {A : Type} (i : Z) (l : list A) : list (Z * A) :=
  match l with
  | [] => []
  | a :: l' => (i, a) :: indexed_from (i + 1)%Z l'
  end.

(** [GeminiLLM.CreateChatCompletion], on the [GeminiLLM] of client [g]. *)
Definition GeminiLLM_CreateChatCompletion (g : GeminiClient.t) (req : ChatCompletionRequest.t)
  : outcome ChatCompletionResponse.t * list GeminiClient.NetCall :=
  if negb (GeminiLLM.isSupported (ChatCompletionRequest.Model req)) then
    (Fail (Errorf ("model " +:+ ChatCompletionRequest.Model req +:+ " is not supported")), [])
  else
    let model := genai.GenerativeModel.new (ChatCompletionRequest.Model req) in
    let model := match ChatCompletionRequest.SystemPrompt req with
                 | Some prompt => setSystemInstruction model prompt
                 | None => model
                 end in
    let model := setModelConfig model req in
    match ChatCompletionRequest.Messages req with
    | [] => (Fail (Errorf "no messages provided"), [])
    | messages =>
        let sent := [GeminiClient.call_SendMessage model messages] in
        match GeminiClient.SendMessage g model messages with
        | inr err =>
            (Fail (Errorf ("failed to generate content: " +:+ error_Error err)), sent)
        | inl resp =>
            (Return
               (ChatCompletionResponse.mk ""
                  (map (fun ic => convertFromGeminiCandidate
                                    (GeminiClient.FinishReason_to_string g) (snd ic) (fst ic))
                       (indexed_from 0 (genai.GenerateContentResponse.Candidates resp)))
                  (match genai.GenerateContentResponse.UsageMetadata resp with
                   | Some (prompt, candidates, total) => Usage.mk prompt candidates total
                   | None => Usage.zero
                   end)),
             sent)
        end
    end.

(** [GeminiLLM.CreateChatCompletionStream] *)
Definition GeminiLLM_CreateChatCompletionStream (g : GeminiClient.t)
  (req : ChatCompletionRequest.t)
  : outcome geminiStreamWrapper.t * list GeminiClient.NetCall :=
  if negb (GeminiLLM.isSupported (ChatCompletionRequest.Model req)) then
    (Fail (Errorf ("model " +:+ ChatCompletionRequest.Model req +:+ " is not supported")), [])
  else
    let model := genai.GenerativeModel.new (ChatCompletionRequest.Model req) in
    let model := setModelConfig model req in
    match ChatCompletionRequest.Messages req with
    | [] => (Fail (Errorf "no messages provided"), [])
    | messages =>
        (Return (geminiStreamWrapper.new (GeminiClient.SendMessageStream g model messages)),
         [GeminiClient.call_SendMessageStream model messages])
    end.

(** ** Ollama *)

(** The part of the vendor SDK [ollama/api] the binding reads. *)
Module api.

Module Message.
Record t : Type := mk { Role : string; Content : string }.
Definition zero : t := mk "" "".
End Message.

Module ChatResponse.
Record t : Type := mk
  { Message : Message.t;
    Done : bool;
    DoneReason : string;
    PromptEvalCount : Z;
    EvalCount : Z }.
Definition zero : t := mk Message.zero false "" 0 0.
End ChatResponse.

(** [api.ChatRequest]: the model, the canonical messages (their translation
    by [convertToOllamaMessages] is left out) and the options. *)
Module ChatRequest.
Record t : Type := mk
  { Model : string;
    Messages : list InputMessage.t;
    Options_temperature : float32;
    Options_top_p : option float32;
    Options_system : option string }.
End ChatRequest.

(** [*api.Client]: the responses the server streams to the callback of
    [Chat] and the error [Chat] returns when the callback never fails. *)
Module Client.
Record t : Type := mk
  { Chat : ChatRequest.t -> list ChatResponse.t * option error }.
End Client.

End api.

(** [convertFromOllamaMessage] *)
Definition convertFromOllamaMessage (msg : api.Message.t) : OutputMessage.t :=
  OutputMessage.mk (api.Message.Role msg) (api.Message.Content msg) [].

Module OllamaLLM.

(** The request both entry points build. *)
Definition buildRequest (req : ChatCompletionRequest.t) : api.ChatRequest.t :=
  api.ChatRequest.mk
    (ChatCompletionRequest.Model req)
    (ChatCompletionRequest.Messages req)
    (ChatCompletionRequest.Temperature req)
    (ChatCompletionRequest.TopP req)
    (ChatCompletionRequest.SystemPrompt req).

(** The finish reason [CreateChatCompletion] derives from [DoneReason]. *)
Definition finishReasonOf (DoneReason : string) : FinishReason :=
  if streq DoneReason "stop" then FinishReasonStop
  else if streq DoneReason "length" then FinishReasonMaxTokens
  else FinishReasonStop.

(** [OllamaLLM.CreateChatCompletion] *)
Definition CreateChatCompletion (o : api.Client.t) (req : ChatCompletionRequest.t)
  : outcome ChatCompletionResponse.t * list api.ChatRequest.t :=
  let ollamaReq := buildRequest req in
  let '(responses, err) := api.Client.Chat o ollamaReq in
  (* the callback: accumulate the content, keep the last response *)
  let '(finalResponse, fullContent) :=
    fold_left
      (fun (acc : api.ChatResponse.t * string) response =>
         let '(_, fullContent) := acc in
         (response,
          if negb (streq (api.Message.Content (api.ChatResponse.Message response)) "")
          then fullContent +:+ api.Message.Content (api.ChatResponse.Message response)
          else fullContent))
      responses (api.ChatResponse.zero, "") in
  match err with
  | Some e => (Fail (Errorf_w "Ollama chat completion failed: " e), [ollamaReq])
  | None =>
      let message :=
        api.Message.mk (api.Message.Role (api.ChatResponse.Message finalResponse))
          fullContent in
      (Return
         (ChatCompletionResponse.mk ""
            [Choice.mk 0 (convertFromOllamaMessage message)
               (finishReasonOf (api.ChatResponse.DoneReason finalResponse))]
            (Usage.mk (api.ChatResponse.PromptEvalCount finalResponse)
               (api.ChatResponse.EvalCount finalResponse)
               (api.ChatResponse.PromptEvalCount finalResponse
                + api.ChatResponse.EvalCount finalResponse)%Z)),
       [ollamaReq])
  end.

End OllamaLLM.

Module ollamaStreamWrapper.

(** The fields of the wrapper that [Recv] and [Close] read and write;
    [err] is written by the goroutine that feeds the channel. *)
Record t : Type := mk { done : bool; err : option error }.

(** What the [select] of [Recv] finds: the context is done, a response is
    received from [w.stream], or [w.stream] is closed and empty. *)
Inductive selected : Type :=
| ctx_Done (ctxErr : error)
| stream_recv (resp : api.ChatResponse.t)
| stream_closed.

(** [ollamaStreamWrapper.Recv], given what its [select] finds. *)
Definition Recv (w : t) (sel : selected) : outcome ChatCompletionResponse.t * t :=
  if done w then (Fail io_EOF, w)
  else
    match sel with
    | ctx_Done ctxErr => (Fail ctxErr, w)
    | stream_closed =>
        let w := mk true (err w) in
        match err w with
        | Some e => (Fail e, w)
        | None => (Fail io_EOF, w)
        end
    | stream_recv resp =>
        if streq (api.Message.Content (api.ChatResponse.Message resp)) ""
        then (Return ChatCompletionResponse.zero, w)
        else
          let response :=
            ChatCompletionResponse.mk ""
              [Choice.mk 0
                 (OutputMessage.mk (api.Message.Role (api.ChatResponse.Message resp))
                    (api.Message.Content (api.ChatResponse.Message resp)) [])
                 (if api.ChatResponse.Done resp then FinishReasonStop else FinishReasonNull)]
              (Usage.mk (api.ChatResponse.PromptEvalCount resp)
                 (api.ChatResponse.EvalCount resp)
                 (api.ChatResponse.PromptEvalCount resp + api.ChatResponse.EvalCount resp)%Z) in
          (Return response, mk (if api.ChatResponse.Done resp then true else done w) (err w))
    end.

(** [ollamaStreamWrapper.Close] *)
Definition Close (w : t) : outcome unit * t := (Return tt, mk true (err w)).

End ollamaStreamWrapper.

(** [OllamaLLM.CreateChatCompletionStream]: no check of the model; the
    goroutine it starts sends the request. *)
Definition OllamaLLM_CreateChatCompletionStream (o : api.Client.t)
  (req : ChatCompletionRequest.t)
  : outcome ollamaStreamWrapper.t * list api.ChatRequest.t :=
  let ollamaReq := OllamaLLM.buildRequest req in
  (Return (ollamaStreamWrapper.mk false None), [ollamaReq]).

(** ** Claude *)

(** The part of the vendor SDK [go-anthropic] the binding reads. *)
Module anthropic.

Definition MessagesStopReason := string.
Definition MessagesStopReasonEndTurn : MessagesStopReason := "end_turn".
Definition MessagesStopReasonMaxTokens : MessagesStopReason := "max_tokens".
Definition MessagesStopReasonStopSequence : MessagesStopReason := "stop_sequence".
Definition MessagesStopReasonToolUse : MessagesStopReason := "tool_use".

(** [anthropic.MessageContentToolUse] *)
Module MessageContentToolUse.
Record t : Type := mk { ID : string; Name : string; Input : string }.
End MessageContentToolUse.

(** A content block of a response, by what the binding can read of it: a
    text block whose [Text] is set, a tool-use block whose
    [MessageContentToolUse] is set, or anything else. *)
Inductive MessageContent : Type :=
| TextBlock (Text : string)
| ToolUseBlock (use : MessageContentToolUse.t)
| OtherBlock.

Module MessagesResponse.
Record t : Type := mk
  { ID : string;
    Role : string;
    Content : list MessageContent;
    StopReason : MessagesStopReason;
    Usage_InputTokens : Z;
    Usage_OutputTokens : Z }.
End MessagesResponse.

(** [anthropic.MessagesRequest]: the canonical messages stand for their
    translation by [convertToClaudeMessages]. *)
Module MessagesRequest.
Record t : Type := mk
  { Model : string;
    Messages : list InputMessage.t;
    System : string;
    Temperature : float32;
    TopP : float32;
    Tools : list Function.t;
    Stream : bool;
    MaxTokens : Z;
    ToolChoice : option string }.
End MessagesRequest.

(** The events of a message stream, one per callback of
    [MessagesStreamRequest]. *)
Inductive StreamEvent : Type :=
| EvError (e : option error)               (* OnError, with [e.Error] *)
| EvPing
| EvMessageStart
| EvContentBlockStart
| EvTextDelta (Text : string)              (* OnContentBlockDelta, text_delta *)
| EvOtherDelta                             (* OnContentBlockDelta, anything else *)
| EvContentBlockStop (block : MessageContent)
| EvMessageDelta
| EvMessageStop.

(** A request sent over the network. *)
Inductive NetCall : Type :=
| call_CreateMessages (req : MessagesRequest.t)
| call_CreateMessagesStream (req : MessagesRequest.t).

(** [*anthropic.Client] *)
Module Client.
Record t : Type := mk
  { CreateMessages : MessagesRequest.t -> MessagesResponse.t + error }.
End Client.

End anthropic.

(** [convertFromClaudeToolCalls] *)
Definition convertFromClaudeToolCalls (toolCalls : list anthropic.MessageContentToolUse.t)
  : list ToolCall.t :=
  map (fun call =>
         ToolCall.mk (anthropic.MessageContentToolUse.ID call) "function"
           (ToolCallFunction.mk (anthropic.MessageContentToolUse.Name call)
              (anthropic.MessageContentToolUse.Input call)))
      toolCalls.

(** [convertFromClaudeMessage] *)
Definition convertFromClaudeMessage (msg : anthropic.MessagesResponse.t) : OutputMessage.t :=
  let '(textParts, toolCalls) :=
    fold_left
      (fun (acc : list string * list anthropic.MessageContentToolUse.t) part =>
         let '(textParts, toolCalls) := acc in
         match part with
         | anthropic.TextBlock text => ((textParts ++ [text])%list, toolCalls)
         | anthropic.ToolUseBlock use => (textParts, (toolCalls ++ [use])%list)
         | anthropic.OtherBlock => (textParts, toolCalls)
         end)
      (anthropic.MessagesResponse.Content msg) ([], []) in
  OutputMessage.mk (anthropic.MessagesResponse.Role msg)
    (strings_Join_empty textParts) (convertFromClaudeToolCalls toolCalls).

(** [convertToClaudeTools] *)
Definition convertToClaudeTools (tools : list Tool.t) : list Function.t :=
  map Tool.Function tools.

(** [convertFromClaudeFinishReason] *)
Definition convertFromClaudeFinishReason (reason : anthropic.MessagesStopReason)
  : FinishReason :=
  if streq reason anthropic.MessagesStopReasonEndTurn then FinishReasonStop
  else if streq reason anthropic.MessagesStopReasonToolUse then FinishReasonToolCalls
  else if streq reason anthropic.MessagesStopReasonMaxTokens then FinishReasonMaxTokens
  else if streq reason anthropic.MessagesStopReasonStopSequence then FinishReasonStop
  else reason.

Module ClaudeLLM.

(** [ClaudeLLM.isSupported] *)
Definition isSupported (model : Model) : bool :=
  streq model ModelClaude2Dot0 || streq model ModelClaude2Dot1
  || streq model ModelClaude3Opus20240229 || streq model ModelClaude3Sonnet20240229
  || streq model ModelClaude3Dot5Sonnet20240620
  || streq model ModelClaude3Dot5Sonnet20241022
  || streq model ModelClaude3Dot5SonnetLatest || streq model ModelClaude3Haiku20240307
  || streq model ModelClaude3Dot5HaikuLatest || streq model ModelClaude3Dot5Haiku20241022.

Definition buildRequest (req : ChatCompletionRequest.t) (stream : bool)
  : anthropic.MessagesRequest.t :=
  let tools := convertToClaudeTools (ChatCompletionRequest.Tools req) in
  anthropic.MessagesRequest.mk
    (ChatCompletionRequest.Model req)
    (ChatCompletionRequest.Messages req)
    (match ChatCompletionRequest.SystemPrompt req with Some p => p | None => "" end)
    (ChatCompletionRequest.Temperature req)
    (match ChatCompletionRequest.TopP req with
     | Some p => p
     | None => OpenAILLM.float32_one
     end)
    tools stream
    (ChatCompletionRequest.MaxTokens req)
    (if negb stream && Nat.ltb 0 (List.length tools) then Some "auto" else None).

(** [ClaudeLLM.CreateChatCompletion] *)
Definition CreateChatCompletion (c : anthropic.Client.t) (req : ChatCompletionRequest.t)
  : outcome ChatCompletionResponse.t * list anthropic.NetCall :=
  if negb (isSupported (ChatCompletionRequest.Model req)) then
    (Fail (Errorf ("model " +:+ ChatCompletionRequest.Model req +:+ " is not available")), [])
  else
    let claudeReq := buildRequest req false in
    let sent := [anthropic.call_CreateMessages claudeReq] in
    match anthropic.Client.CreateMessages c claudeReq with
    | inr err => (Fail err, sent)
    | inl resp =>
        (Return
           (ChatCompletionResponse.mk (anthropic.MessagesResponse.ID resp)
              [Choice.mk 0 (convertFromClaudeMessage resp)
                 (convertFromClaudeFinishReason (anthropic.MessagesResponse.StopReason resp))]
              (Usage.mk (anthropic.MessagesResponse.Usage_InputTokens resp)
                 (anthropic.MessagesResponse.Usage_OutputTokens resp)
                 (anthropic.MessagesResponse.Usage_InputTokens resp
                  + anthropic.MessagesResponse.Usage_OutputTokens resp)%Z)),
         sent)
    end.

End ClaudeLLM.

(** A buffered Go channel. *)
Module chan.

Record t (A : Type) : Type := mk { buf : list A; cap : nat; closed : bool }.
Arguments mk {A} buf cap closed.
Arguments buf {A} _.
Arguments cap {A} _.
Arguments closed {A} _.

(** [make(chan A, n)] *)
Definition make {A : Type} (n : nat) : t A := mk [] n false.

(** What an operation on a channel does: it completes, it blocks, or it
    panics. *)
Inductive op (R : Type) : Type :=
| Done (r : R)
| Blocks
| Panics (p : panic_value).
Arguments Done {R} r.
Arguments Blocks {R}.
Arguments Panics {R} p.

(** [c <- v] *)
Definition send {A : Type} (c : t A) (v : A) : op (t A) :=
  if closed c then Panics panic_send_on_closed_channel
  else if Nat.ltb (List.length (buf c)) (cap c)
       then Done (mk (buf c ++ [v])%list (cap c) false)
       else Blocks.

(** [v, ok := <-c]: [None] stands for [ok == false]. *)
Definition recv {A : Type} (c : t A) : op (option A * t A) :=
  match buf c with
  | v :: rest => Done (Some v, mk rest (cap c) (closed c))
  | [] => if closed c then Done (None, c) else Blocks
  end.

(** [close(c)]: [None] when the channel is already closed, which panics. *)
Definition close {A : Type} (c : t A) : option (t A) :=
  if closed c then None else Some (mk (buf c) (cap c) true).

End chan.

Module claudeStreamWrapper.

(** The wrapper, and the variables [partialTextBuilder] and [toolCalls]
    that the callbacks of its stream request share. *)
Record t : Type := mk
  { eventsChan : chan.t ChatCompletionResponse.t;
    errChan : chan.t (option error);
    cancelled : bool;          (* cancelFunc has been called *)
    done : bool;
    partialTextBuilder : string;
    toolCalls : list ToolCall.t }.

(** The wrapper [CreateChatCompletionStream] builds. *)
Definition new : t := mk (chan.make 10) (chan.make 1) false false "" [].

(** [claudeStreamWrapper.Recv] *)
Definition Recv (w : t) : chan.op (outcome ChatCompletionResponse.t * t) :=
  match chan.recv (eventsChan w) with
  | chan.Blocks => chan.Blocks
  | chan.Panics p => chan.Panics p
  | chan.Done (Some resp, events) =>
      chan.Done (Return resp,
                 mk events (errChan w) (cancelled w) (done w)
                    (partialTextBuilder w) (toolCalls w))
  | chan.Done (None, _) =>
      (* channel closed: a select with a default on the error channel *)
      match chan.recv (errChan w) with
      | chan.Done (Some (Some err), errs) =>
          chan.Done (Fail err,
                     mk (eventsChan w) errs (cancelled w) (done w)
                        (partialTextBuilder w) (toolCalls w))
      | chan.Done (Some None, errs) =>
          chan.Done (Fail io_EOF,
                     mk (eventsChan w) errs (cancelled w) (done w)
                        (partialTextBuilder w) (toolCalls w))
      | chan.Done (None, _) => chan.Done (Fail io_EOF, w)
      | chan.Blocks => chan.Done (Fail io_EOF, w)
      | chan.Panics p => chan.Panics p
      end
  end.

(** [claudeStreamWrapper.Close] *)
Definition Close (w : t) : outcome unit * t :=
  if done w then (Return tt, w)
  else
    let w := mk (eventsChan w) (errChan w) true true
               (partialTextBuilder w) (toolCalls w) in
    match chan.close (eventsChan w) with
    | Some events =>
        let w := mk events (errChan w) (cancelled w) (done w)
                   (partialTextBuilder w) (toolCalls w) in
        match chan.close (errChan w) with
        | Some errs =>
            (Return tt,
             mk (eventsChan w) errs (cancelled w) (done w)
                (partialTextBuilder w) (toolCalls w))
        | None => (Panic panic_close_of_closed_channel, w)
        end
    | None => (Panic panic_close_of_closed_channel, w)
    end.

(** [select { case errChan <- e: default: }] *)
Definition trySendErr (w : t) (e : option error) : chan.op t :=
  match chan.send (errChan w) e with
  | chan.Done errs =>
      chan.Done (mk (eventsChan w) errs (cancelled w) (done w)
                   (partialTextBuilder w) (toolCalls w))
  | chan.Blocks => chan.Done w
  | chan.Panics p => chan.Panics p
  end.

(** [eventsChan <- resp] *)
Definition sendEvent (w : t) (resp : ChatCompletionResponse.t) : chan.op t :=
  match chan.send (eventsChan w) resp with
  | chan.Done events =>
      chan.Done (mk events (errChan w) (cancelled w) (done w)
                   (partialTextBuilder w) (toolCalls w))
  | chan.Blocks => chan.Blocks
  | chan.Panics p => chan.Panics p
  end.

(** The callback of the stream request for one event of the vendor. *)
Definition onEvent (w : t) (ev : anthropic.StreamEvent) : chan.op t :=
  match ev with
  | anthropic.EvError e => trySendErr w e
  | anthropic.EvPing => chan.Done w
  | anthropic.EvMessageStart =>
      chan.Done (mk (eventsChan w) (errChan w) (cancelled w) (done w) "" [])
  | anthropic.EvContentBlockStart => chan.Done w
  | anthropic.EvTextDelta text =>
      let w := mk (eventsChan w) (errChan w) (cancelled w) (done w)
                 (partialTextBuilder w +:+ text) (toolCalls w) in
      sendEvent w
        (ChatCompletionResponse.mk ""
           [Choice.mk 0 (OutputMessage.mk RoleAssistant text (toolCalls w)) FinishReasonNull]
           Usage.zero)
  | anthropic.EvOtherDelta => chan.Done w
  | anthropic.EvContentBlockStop (anthropic.ToolUseBlock use) =>
      let tc := ToolCall.mk (anthropic.MessageContentToolUse.ID use) "function"
                  (ToolCallFunction.mk (anthropic.MessageContentToolUse.Name use)
                     (anthropic.MessageContentToolUse.Input use)) in
      let w := mk (eventsChan w) (errChan w) (cancelled w) (done w)
                 (partialTextBuilder w) (toolCalls w ++ [tc])%list in
      sendEvent w
        (ChatCompletionResponse.mk ""
           [Choice.mk 0
              (OutputMessage.mk RoleAssistant (partialTextBuilder w) (toolCalls w))
              FinishReasonNull]
           Usage.zero)
  | anthropic.EvContentBlockStop _ => chan.Done w
  | anthropic.EvMessageDelta => chan.Done w
  | anthropic.EvMessageStop =>
      match Close w with
      | (Return _, w) => chan.Done w
      | (Fail _, w) => chan.Done w
      | (Panic p, _) => chan.Panics p
      end
  end.

(** The end of the goroutine: [CreateMessagesStream] has returned [err];
    the error is offered to [errChan] and the deferred [Close] runs. *)
Definition goroutineEnd (w : t) (err : option error) : chan.op t :=
  let afterSend :=
    match err with
    | Some e => if errors_Is_EOF e then chan.Done w else trySendErr w (Some e)
    | None => chan.Done w
    end in
  match afterSend with
  | chan.Done w =>
      match Close w with
      | (Panic p, _) => chan.Panics p
      | (_, w) => chan.Done w
      end
  | other => other
  end.

End claudeStreamWrapper.

(** [ClaudeLLM.CreateChatCompletionStream]: the goroutine it starts sends the
    request. *)
Definition ClaudeLLM_CreateChatCompletionStream (req : ChatCompletionRequest.t)
  : outcome claudeStreamWrapper.t * list anthropic.NetCall :=
  if negb (ClaudeLLM.isSupported (ChatCompletionRequest.Model req)) then
    (Fail (Errorf ("model " +:+ ChatCompletionRequest.Model req +:+ " is not available")), [])
  else
    (Return claudeStreamWrapper.new,
     [anthropic.call_CreateMessagesStream (ClaudeLLM.buildRequest req true)]).

(** ** The generic consumer *)

(** What [StreamChatCompletion] does that can be seen from outside: the
    calls of the [StreamHandler] and the calls of the stream. *)
Inductive action : Type :=
| OnStart
| OnToken (token : string)
| OnToolCall (toolCall : ToolCall.t)
| OnComplete (message : OutputMessage.t)
| OnError (err : error)
| stream_Recv
| stream_Close.

(** How a run of [StreamChatCompletion] ends: it returns an error or [nil],
    it panics, or it is still in its loop when the fuel is used up. *)
Inductive run_result : Type :=
| Returned (err : option error)
| Panicked (p : panic_value)
| StillPumping.

(** How the loop over [chunk.Choices] ends. *)
Inductive choices_result : Type :=
| NextChunk (fullContent : string) (toolCalls : list ToolCall.t)
| Completed
| ChoicesPanicked (p : panic_value).

(** [toolCalls[len(toolCalls)-1]]: [None] when the index is out of range. *)
Definition lastToolCall (toolCalls : list ToolCall.t) : option ToolCall.t :=
  List.last (map Some toolCalls) None.

(** The loop over [chunk.Choices] of [StreamChatCompletion]. *)
Fixpoint handleChoices (cs : list Choice.t) (fullContent : string)
  (toolCalls : list ToolCall.t) : list action * choices_result :=
  match cs with
  | [] => ([], NextChunk fullContent toolCalls)
  | c :: rest =>
      let content := OutputMessage.Content (Choice.Message c) in
      let hasContent := Nat.ltb 0 (String.length content) in
      let tokenActs := if hasContent then [OnToken content] else [] in
      let fullContent := if hasContent then fullContent +:+ content else fullContent in
      let toolCalls :=
        if Nat.ltb 0 (List.length (OutputMessage.ToolCalls (Choice.Message c)))
        then (toolCalls ++ OutputMessage.ToolCalls (Choice.Message c))%list
        else toolCalls in
      let afterToolCall : option (list action) :=
        if streq (Choice.FinishReason c) FinishReasonToolCalls then
          match lastToolCall toolCalls with
          | Some tc => Some (tokenActs ++ [OnToolCall tc])%list
          | None => None
          end
        else Some tokenActs in
      match afterToolCall with
      | None =>
          (tokenActs,
           ChoicesPanicked (panic_index_out_of_range (-1) (Z.of_nat (List.length toolCalls))))
      | Some acts =>
          if negb (streq (Choice.FinishReason c) FinishReasonNull) then
            ((acts ++ [OnComplete (OutputMessage.mk "assistant" fullContent toolCalls)])%list,
             Completed)
          else
            let '(acts', r) := handleChoices rest fullContent toolCalls in
            ((acts ++ acts')%list, r)
      end
  end.

Section StreamChatCompletion.

(** The stream: any implementation of [ChatCompletionStream]. *)
Context {Stream : Type}.
Variable Recv : Stream -> outcome ChatCompletionResponse.t * Stream.
Variable Close : Stream -> outcome unit * Stream.

(** The [for] loop of [StreamChatCompletion]; [fuel] bounds the number of
    [Recv] calls. *)
Fixpoint pump (fuel : nat) (stream : Stream) (fullContent : string)
  (toolCalls : list ToolCall.t) : list action * run_result * Stream :=
  match fuel with
  | O => ([], StillPumping, stream)
  | S fuel' =>
      let '(r, stream) := Recv stream in
      match r with
      | Fail err =>
          if isEOF err then ([stream_Recv], Returned None, stream)
          else ([stream_Recv; OnError err], Returned (Some err), stream)
      | Panic p => ([stream_Recv], Panicked p, stream)
      | Return chunk =>
          match handleChoices (ChatCompletionResponse.Choices chunk) fullContent toolCalls with
          | (acts, NextChunk fullContent toolCalls) =>
              let '(acts', res, stream) := pump fuel' stream fullContent toolCalls in
              ((stream_Recv :: acts ++ acts')%list, res, stream)
          | (acts, Completed) => ((stream_Recv :: acts)%list, Returned None, stream)
          | (acts, ChoicesPanicked p) => ((stream_Recv :: acts)%list, Panicked p, stream)
          end
      end
  end.

(** [StreamChatCompletion], given what [model.CreateChatCompletionStream]
    returned.  The deferred [Close] runs when the function returns and when
    it panics. *)
Definition StreamChatCompletion (fuel : nat) (created : outcome Stream)
  : list action * run_result * option Stream :=
  match created with
  | Fail err => ([OnError err], Returned (Some err), None)
  | Panic p => ([], Panicked p, None)
  | Return stream =>
      let '(acts, res, stream) := pump fuel stream "" [] in
      match res with
      | StillPumping => ((OnStart :: acts)%list, StillPumping, Some stream)
      | _ =>
          let '(c, stream) := Close stream in
          ((OnStart :: acts ++ [stream_Close])%list,
           match c with Panic p => Panicked p | _ => res end,
           Some stream)
      end
  end.

End StreamChatCompletion.

(** ** Drivers: successive calls on one wrapper *)

(** [n] successive calls of [geminiStreamWrapper.Recv]: their outcomes, in
    order, and the wrapper they leave. *)
Fixpoint gemini_recvs (n : nat) (w : geminiStreamWrapper.t)
  : list (outcome ChatCompletionResponse.t) * geminiStreamWrapper.t :=
  match n with
  | O => ([], w)
  | S n' =>
      let '(o, w1) := geminiStreamWrapper.Recv w in
      let '(os, w2) := gemini_recvs n' w1 in
      (o :: os, w2)
  end.







(** [n] successive calls of [openAIStreamWrapper.Recv]. *)
Fixpoint openai_recvs (n : nat) (w : openAIStreamWrapper.t)
  : list (outcome ChatCompletionResponse.t) * openAIStreamWrapper.t :=
  match n with
  | O => ([], w)
  | S n' =>
      let '(o, w1) := openAIStreamWrapper.Recv w in
      let '(os, w2) := openai_recvs n' w1 in
      (o :: os, w2)
  end.

(** A vendor chunk that carries one tool-call fragment and nothing else. *)
Definition fragment_chunk (tc : openai.ToolCall.t)
  : openai.ChatCompletionStreamResponse.t + error :=
  inl (openai.ChatCompletionStreamResponse.mk ""
         [openai.ChatCompletionStreamChoice.mk 0
            (openai.ChatCompletionStreamChoiceDelta.mk "" "" [tc]) ""]).

(** The delta [Recv] returns for such a chunk, with the calls it completes. *)
Definition fragment_delta (completed : list ToolCall.t) : ChatCompletionResponse.t :=
  ChatCompletionResponse.mk ""
    [Choice.mk 0 (OutputMessage.mk "" "" completed) FinishReasonNull] Usage.zero.

(** The buffer of a call after one more fragment: the arguments of the
    fragment are appended; its name, when it has one, replaces the name,
    unless the fragment comes without ID (a continuation fragment, which
    only brings arguments). *)
Definition absorb (buffered : ToolCall.t) (tc : openai.ToolCall.t) : ToolCall.t :=
  let name := openai.FunctionCall.Name (openai.ToolCall.Function tc) in
  let named := if negb (streq (openai.ToolCall.ID tc) "") && negb (streq name "")
               then openAIStreamWrapper.setName buffered name
               else buffered in
  if negb (streq (openai.FunctionCall.Arguments (openai.ToolCall.Function tc)) "")
  then openAIStreamWrapper.appendArguments named
         (openai.FunctionCall.Arguments (openai.ToolCall.Function tc))
  else named.

(** The buffer a fragment with a new ID opens. *)
Definition opened (tc : openai.ToolCall.t) : ToolCall.t :=
  ToolCall.mk (openai.ToolCall.ID tc) (openai.ToolCall.Type_ tc)
    (ToolCallFunction.mk (openai.FunctionCall.Name (openai.ToolCall.Function tc)) "").

(** Does the fragment complete the call?  It does when it appends something
    and the arguments accumulated with it parse. *)
Definition completes (buffered : ToolCall.t) (tc : openai.ToolCall.t) : bool :=
  negb (streq (openai.FunctionCall.Arguments (openai.ToolCall.Function tc)) "")
  && isValidJSON (ToolCallFunction.Arguments (ToolCall.Function (absorb buffered tc))).

(** No fragment of the list completes the call buffered in [buffered]. *)
Fixpoint none_completes (buffered : ToolCall.t) (tcs : list openai.ToolCall.t) : bool :=
  match tcs with
  | [] => true
  | tc :: rest => negb (completes buffered tc) && none_completes (absorb buffered tc) rest
  end.

(** The double quote, and the fragments of the specification's example. *)
Definition dquote : string := String "034"%char "".
Definition paris_fragment_1 : string := "{" +:+ dquote +:+ "location" +:+ dquote.
Definition paris_fragment_2 : string := ": " +:+ dquote +:+ "Paris" +:+ dquote +:+ "}".
Definition paris_arguments : string :=
  "{" +:+ dquote +:+ "location" +:+ dquote +:+ ": " +:+ dquote +:+ "Paris" +:+ dquote +:+ "}".
Definition paris_call_1 : openai.ToolCall.t :=
  openai.ToolCall.mk "call_1" "function" (openai.FunctionCall.mk "get_weather" paris_fragment_1).
Definition paris_call_2 : openai.ToolCall.t :=
  openai.ToolCall.mk "call_1" "" (openai.FunctionCall.mk "" paris_fragment_2).

(** The fragments of a call as the vendor streams them: the ID and the name
    come with the first fragment only. *)
Definition weather_fragments : list openai.ToolCall.t :=
  [openai.ToolCall.mk "call_7" "function" (openai.FunctionCall.mk "get_weather" "");
   openai.ToolCall.mk "" "" (openai.FunctionCall.mk "" ("{" +:+ dquote +:+ "location"));
   openai.ToolCall.mk "" "" (openai.FunctionCall.mk "" (dquote +:+ ": " +:+ dquote +:+ "Paris,"));
   openai.ToolCall.mk "" "" (openai.FunctionCall.mk "" (" France" +:+ dquote +:+ "}"))].
Definition weather_arguments : string :=
  "{" +:+ dquote +:+ "location" +:+ dquote +:+ ": " +:+ dquote +:+ "Paris, France"
  +:+ dquote +:+ "}".

(** Of the fragments of the list, fed in order to the call buffered in
    [buffered], the last one completes the call and no earlier one does. *)
Fixpoint completes_at_last (buffered : ToolCall.t) (tcs : list openai.ToolCall.t) : bool :=
  match tcs with
  | [] => false
  | [tc] => completes buffered tc
  | tc :: rest => negb (completes buffered tc) && completes_at_last (absorb buffered tc) rest
  end.

(** The argument fragments of a list of tool-call deltas, put end to end. *)
Definition fragments_text (tcs : list openai.ToolCall.t) : string :=
  fold_right
    (fun tc acc => openai.FunctionCall.Arguments (openai.ToolCall.Function tc) +:+ acc)
    "" tcs.

(** Does a response hold a choice whose finish reason is not null? *)
Definition terminating (r : ChatCompletionResponse.t) : bool :=
  existsb (fun c => negb (streq (Choice.FinishReason c) FinishReasonNull))
    (ChatCompletionResponse.Choices r).

(** A vendor event of Gemini with one candidate holding one function call. *)
Definition gemini_call_event (name args : string) (reason : genai.FinishReason)
  : genai.GenerateContentResponse.t + error :=
  inl (genai.GenerateContentResponse.mk
         [genai.Candidate.mk [genai.FunctionCall name (Some args)] reason] None).

(** An OpenAI chunk with one choice: its tool-call deltas and its vendor
    finish reason. *)
Definition openai_chunk (tcs : list openai.ToolCall.t) (reason : openai.FinishReason)
  : openai.ChatCompletionStreamResponse.t + error :=
  inl (openai.ChatCompletionStreamResponse.mk ""
         [openai.ChatCompletionStreamChoice.mk 0
            (openai.ChatCompletionStreamChoiceDelta.mk "" "" tcs) reason]).

(** The vendor values [convertFromOpenAIFinishReason] has a case for. *)
Definition openai_known_finish (reason : openai.FinishReason) : bool :=
  streq reason openai.FinishReasonToolCalls || streq reason openai.FinishReasonStop
  || streq reason openai.FinishReasonLength || streq reason openai.FinishReasonFunctionCall
  || streq reason openai.FinishReasonContentFilter || streq reason openai.FinishReasonNull
  || streq reason "".


(** An Ollama server that streams the given responses and reports no error. *)
Definition ollama_server (responses : list api.ChatResponse.t) : api.Client.t :=
  api.Client.mk (fun _ => (responses, None)).

(** A request for [model] with the one user message "hi". *)
Definition simple_request (model : Model) : ChatCompletionRequest.t :=
  ChatCompletionRequest.mk model
    [InputMessage.mk RoleUser [ContentPart.mk ContentTypeText "hi" "" ""] [] []]
    None [] float32_zero None 0 false.

(** The callbacks of the Claude stream request run on a list of vendor
    events, in order, as long as none blocks or panics. *)
Fixpoint claude_feed (events : list anthropic.StreamEvent) (w : claudeStreamWrapper.t)
  : chan.op claudeStreamWrapper.t :=
  match events with
  | [] => chan.Done w
  | ev :: rest =>
      match claudeStreamWrapper.onEvent w ev with
      | chan.Done w' => claude_feed rest w'
      | other => other
      end
  end.

(** One step of the life of a Claude stream wrapper: a callback of the
    goroutine, the end of the goroutine, a [Recv] or a [Close] of the
    consumer, each one completed. *)
Inductive claude_step : claudeStreamWrapper.t -> claudeStreamWrapper.t -> Prop :=
| step_onEvent (w w' : claudeStreamWrapper.t) (ev : anthropic.StreamEvent) :
    claudeStreamWrapper.onEvent w ev = chan.Done w' -> claude_step w w'
| step_goroutineEnd (w w' : claudeStreamWrapper.t) (err : option error) :
    claudeStreamWrapper.goroutineEnd w err = chan.Done w' -> claude_step w w'
| step_Recv (w w' : claudeStreamWrapper.t) (o : outcome ChatCompletionResponse.t) :
    claudeStreamWrapper.Recv w = chan.Done (o, w') -> claude_step w w'
| step_Close (w w' : claudeStreamWrapper.t) (o : outcome unit) :
    claudeStreamWrapper.Close w = (o, w') -> claude_step w w'.

(** The states a Claude stream wrapper can be in. *)
Inductive claude_reachable : claudeStreamWrapper.t -> Prop :=
| reach_new : claude_reachable claudeStreamWrapper.new
| reach_step (w w' : claudeStreamWrapper.t) :
    claude_reachable w -> claude_step w w' -> claude_reachable w'.

(** What holds of every such state: the responses waiting in [eventsChan]
    carry no finish reason other than null, and the two channels are closed
    exactly when [done] is set. *)
Definition claude_invariant (w : claudeStreamWrapper.t) : Prop :=
  Forall (fun r => terminating r = false) (chan.buf (claudeStreamWrapper.eventsChan w))
  /\ chan.closed (claudeStreamWrapper.eventsChan w) = claudeStreamWrapper.done w
  /\ chan.closed (claudeStreamWrapper.errChan w) = claudeStreamWrapper.done w.

(** [n] successive calls of [claudeStreamWrapper.Recv], up to the first one
    that blocks or panics. *)
Fixpoint claude_recvs (n : nat) (w : claudeStreamWrapper.t)
  : list (outcome ChatCompletionResponse.t) :=
  match n with
  | O => []
  | S n' =>
      match claudeStreamWrapper.Recv w with
      | chan.Done (o, w') => o :: claude_recvs n' w'
      | _ => []
      end
  end.

(** The outcomes of the [Recv] calls of a consumer that starts reading once
    the goroutine has run the callbacks on the events and has ended with
    [err]. *)
Definition claude_turn (events : list anthropic.StreamEvent) (err : option error) (n : nat)
  : list (outcome ChatCompletionResponse.t) :=
  match claude_feed events claudeStreamWrapper.new with
  | chan.Done w =>
      match claudeStreamWrapper.goroutineEnd w err with
      | chan.Done w' => claude_recvs n w'
      | _ => []
      end
  | _ => []
  end.

(** A stream that replays a list of outcomes of [Recv] and then gives
    [io.EOF]; its [Close] returns [nil]. *)
Definition scripted_Recv (s : list (outcome ChatCompletionResponse.t))
  : outcome ChatCompletionResponse.t * list (outcome ChatCompletionResponse.t) :=
  match s with
  | [] => (Fail io_EOF, [])
  | o :: rest => (o, rest)
  end.

Definition scripted_Close (s : list (outcome ChatCompletionResponse.t))
  : outcome unit * list (outcome ChatCompletionResponse.t) :=
  (Return tt, s).

(** A delta with one choice. *)
Definition delta (content : string) (calls : list ToolCall.t) (reason : FinishReason)
  : ChatCompletionResponse.t :=
  ChatCompletionResponse.mk "" [Choice.mk 0 (OutputMessage.mk RoleAssistant content calls) reason]
    Usage.zero.

(** The actions of a list that are not calls of the stream. *)
Definition is_OnStart (a : action) : bool :=
  match a with OnStart => true | _ => false end.
Definition is_stream_Close (a : action) : bool :=
  match a with stream_Close => true | _ => false end.

(** *** The consumer as the specification words it

    For a stream of single-choice deltas [cs], none of which terminates the
    turn, followed by an [ending]: a last delta, or an error of [Recv]. *)
Inductive ending : Type :=
| EndsWithDelta (c : Choice.t)
| EndsWithError (e : error).

(** "if its text is non-empty invoke onToken" *)
Definition spec_tokens (c : Choice.t) : list action :=
  if streq (OutputMessage.Content (Choice.Message c)) "" then []
  else [OnToken (OutputMessage.Content (Choice.Message c))].

(** "append to a local full-text accumulator" *)
Definition spec_text (cs : list Choice.t) : string :=
  fold_right (fun c acc => OutputMessage.Content (Choice.Message c) +:+ acc) "" cs.

(** "if it carries tool calls append each to a local list" *)
Definition spec_calls (cs : list Choice.t) : list ToolCall.t :=
  flat_map (fun c => OutputMessage.ToolCalls (Choice.Message c)) cs.

(** What the consumer does at the end of the stream. *)
Definition spec_ending (cs : list Choice.t) (e : ending) : list action :=
  match e with
  | EndsWithDelta c =>
      (spec_tokens c
       ++ (if streq (Choice.FinishReason c) FinishReasonToolCalls
           then match lastToolCall (spec_calls (cs ++ [c])) with
                | Some tc => [OnToolCall tc]
                | None => []
                end
           else [])
       ++ [OnComplete (OutputMessage.mk "assistant" (spec_text (cs ++ [c]))
                         (spec_calls (cs ++ [c])))])%list
  | EndsWithError err => if isEOF err then [] else [OnError err]
  end.

(** The whole sequence of calls: [OnStart], then for each delta a [Recv]
    and its token, then the last [Recv] and the ending, then [Close]. *)
Definition spec_trace (cs : list Choice.t) (e : ending) : list action :=
  (OnStart :: flat_map (fun c => stream_Recv :: spec_tokens c) cs
     ++ stream_Recv :: spec_ending cs e ++ [stream_Close])%list.

(** The error [StreamChatCompletion] returns. *)
Definition spec_result (e : ending) : run_result :=
  match e with
  | EndsWithDelta _ => Returned None
  | EndsWithError err => if isEOF err then Returned None else Returned (Some err)
  end.

(** The outcome of [Recv] that carries the ending. *)
Definition ending_outcome (e : ending) : outcome ChatCompletionResponse.t :=
  match e with
  | EndsWithDelta c => Return (ChatCompletionResponse.mk "" [c] Usage.zero)
  | EndsWithError err => Fail err
  end.

(** The ending is one the consumer handles: a last delta has a finish
    reason other than null, and when that reason is tool_calls some tool call
    has been appended. *)
Definition ending_ok (cs : list Choice.t) (e : ending) : Prop :=
  match e with
  | EndsWithDelta c =>
      Choice.FinishReason c <> FinishReasonNull
      /\ (Choice.FinishReason c = FinishReasonToolCalls -> spec_calls (cs ++ [c]) <> [])
  | EndsWithError _ => True
  end.

(** An OpenAI server that answers every request with an error. *)
Definition openai_server_down : openai.Client.t :=
  openai.Client.mk (fun _ => inr (vendor_error "connection refused"))
                   (fun _ => inr (vendor_error "connection refused")).

(** A value of type [float32]: a binary32 datum in canonical form. *)
Definition is_float32 (x : float32) : bool := valid_binary float32_prec float32_emax x.

(** [x <= y] on [float32]. *)
Definition float32_le (x y : float32) : bool := SFleb x y.

(** A tool-role message that carries no tool result. *)
Definition tool_message_without_result (msg : InputMessage.t) : bool :=
  streq (InputMessage.Role msg) RoleTool
  && match InputMessage.ToolResults msg with [] => true | _ => false end.

(** A request for GPT-4o whose only message is a tool message without any
    result, and one whose tool message carries a result. *)
Definition tool_request (results : list ToolResult.t) : ChatCompletionRequest.t :=
  ChatCompletionRequest.mk ModelGPT4o
    [InputMessage.mk RoleUser [ContentPart.mk ContentTypeText "weather?" "" ""] [] [];
     InputMessage.mk RoleTool [] [] results]
    None [] float32_zero None 0 false.

(** Goals about [claude_invariant]: split, read the fields, conclude. *)
Ltac claude_inv :=
  repeat split;
  cbn [claudeStreamWrapper.eventsChan claudeStreamWrapper.errChan
       claudeStreamWrapper.done chan.buf chan.closed];
  auto; try congruence.


(** ** Further predicates and drivers *)

(** The arguments of a tool call parse as a JSON object (or [null]). *)
Definition parses (tc : ToolCall.t) : bool :=
  isValidJSON (ToolCallFunction.Arguments (ToolCall.Function tc)).

(** The tool calls of all the choices of a response. *)
Definition response_calls (r : ChatCompletionResponse.t) : list ToolCall.t :=
  flat_map (fun c => OutputMessage.ToolCalls (Choice.Message c))
    (ChatCompletionResponse.Choices r).

(** A tool call with its type set to "function". *)
Definition as_function_call (tc : ToolCall.t) : ToolCall.t :=
  ToolCall.mk (ToolCall.ID tc) "function" (ToolCall.Function tc).

(** The text parts of a message, put end to end. *)
Definition text_of (content : list ContentPart.t) : string :=
  strings_Join_empty
    (map ContentPart.Text
       (List.filter (fun part => streq (ContentPart.Type_ part) ContentTypeText) content)).

(** The part of the vendor's format one canonical part becomes. *)
Definition openai_part (part : ContentPart.t) : list openai.ChatMessagePart.t :=
  if streq (ContentPart.Type_ part) ContentTypeText then
    [openai.ChatMessagePart.mk openai.ChatMessagePartTypeText (ContentPart.Text part) None]
  else if streq (ContentPart.Type_ part) ContentTypeImage then
    [openai.ChatMessagePart.mk openai.ChatMessagePartTypeImageURL ""
       (Some (openai.ChatMessageImageURL.mk
                ("data:" +:+ ContentPart.MediaType part +:+ ";base64," +:+ ContentPart.Data part)
                "high"))]
  else [].

(** An OpenAI request turned into the one the streaming entry point sends. *)
Definition as_stream_request (r : openai.ChatCompletionRequest.t)
  : openai.ChatCompletionRequest.t :=
  openai.ChatCompletionRequest.mk
    (openai.ChatCompletionRequest.Model r) (openai.ChatCompletionRequest.Messages r)
    (openai.ChatCompletionRequest.Temperature r) (openai.ChatCompletionRequest.N r)
    (openai.ChatCompletionRequest.TopP r) (openai.ChatCompletionRequest.Stop r)
    (openai.ChatCompletionRequest.Tools r) true
    (openai.ChatCompletionRequest.MaxCompletionTokens r)
    (openai.ChatCompletionRequest.ResponseFormat r) "".

(** The first finish reason of a vendor response that
    [convertFromOpenAIFinishReason] has no case for. *)
Definition first_unknown_finish (cs : list openai.ChatCompletionChoice.t)
  : option openai.FinishReason :=
  match List.find (fun c => negb (openai_known_finish (openai.ChatCompletionChoice.FinishReason c)))
          cs with
  | Some c => Some (openai.ChatCompletionChoice.FinishReason c)
  | None => None
  end.

(** The canonical finish reason of a vendor value that has a case. *)
Definition openai_finish_reason (reason : openai.FinishReason) : FinishReason :=
  match convertFromOpenAIFinishReason reason with
  | Return r => r
  | _ => ""
  end.

(** The canonical choice of a vendor choice. *)
Definition openai_choice (c : openai.ChatCompletionChoice.t) : Choice.t :=
  Choice.mk (openai.ChatCompletionChoice.Index c)
    (convertFromOpenAIMessage (openai.ChatCompletionChoice.Message c))
    (openai_finish_reason (openai.ChatCompletionChoice.FinishReason c)).

(** The tokens handed to [OnToken] in a list of actions, put end to end. *)
Fixpoint tokens_text (acts : list action) : string :=
  match acts with
  | [] => ""
  | OnToken token :: rest => token +:+ tokens_text rest
  | _ :: rest => tokens_text rest
  end.

(** An action of the loop of [StreamChatCompletion] before it ends. *)
Definition is_Recv_or_token (a : action) : bool :=
  match a with
  | stream_Recv | OnToken _ => true
  | _ => false
  end.

(** The handler calls a run of [StreamChatCompletion] may end with, [text]
    being the tokens handed out before: none, [OnError] with an error that
    is not [io.EOF], or [OnComplete], possibly after one [OnToolCall], with
    the assistant message that holds [text]. *)
Definition run_ending (text : string) (final : list action) : Prop :=
  match final with
  | [] => True
  | [OnError err] => isEOF err = false
  | [OnComplete m] =>
      OutputMessage.Role m = "assistant" /\ OutputMessage.Content m = text
  | [OnToolCall tc; OnComplete m] =>
      OutputMessage.Role m = "assistant" /\ OutputMessage.Content m = text
      /\ lastToolCall (OutputMessage.ToolCalls m) = Some tc
  | _ => False
  end.

(** The store of tool calls of the OpenAI wrapper is consistent: every entry
    of the buffer has a key that is not empty and designates an object of
    the heap whose ID is that key, and the current tool call, when there is
    one, is the object the buffer holds under its ID. *)
Definition openai_buffer_ok (h : list ToolCall.t) (current : option nat)
  (buffer : gmap string nat) : Prop :=
  (forall (id : string) (p : nat), buffer !! id = Some p ->
     id <> "" /\ (p < List.length h)%nat
     /\ ToolCall.ID (openAIStreamWrapper.deref h p) = id)
  /\ (forall p : nat, current = Some p ->
        buffer !! ToolCall.ID (openAIStreamWrapper.deref h p) = Some p).

Definition openai_wrapper_ok (w : openAIStreamWrapper.t) : Prop :=
  openai_buffer_ok (openAIStreamWrapper.heap w) (openAIStreamWrapper.currentToolCall w)
    (openAIStreamWrapper.toolCallBuffer w).

Definition openai_loop_ok (st : openAIStreamWrapper.loopState) : Prop :=
  openai_buffer_ok (openAIStreamWrapper.l_heap st) (openAIStreamWrapper.l_current st)
    (openAIStreamWrapper.l_buffer st).

Section recvs.

Context {Stream : Type}.
Variable Recv : Stream -> outcome ChatCompletionResponse.t * Stream.

(** [n] successive calls of [Recv] on any implementation of
    [ChatCompletionStream]: their outcomes, in order, and the stream they
    leave. *)
Fixpoint recvs (n : nat) (stream : Stream)
  : list (outcome ChatCompletionResponse.t) * Stream :=
  match n with
  | O => ([], stream)
  | S n' =>
      let '(o, stream1) := Recv stream in
      let '(os, stream2) := recvs n' stream1 in
      (o :: os, stream2)
  end.

End recvs.

(** *** The scanner of encoding/json on a text that starts an object *)

(** The scanner after the bytes of [data]. *)
Definition json_scan (s : json.scanner) (data : list ascii) : json.scanner :=
  fold_left json.stepByte data s.

(** A string of white space (space, tab, carriage return, line feed), the
    empty string included. *)
Definition all_space (s : string) : bool :=
  forallb json.isSpace (list_ascii_of_string s).

(** The scanner is inside an object or an array. *)
Definition json_inside (s : json.scanner) : bool :=
  match json.parseState s with
  | [] => false
  | _ :: _ => negb (json.endTop s) && negb (json.err s)
  end.

(** The scanner is inside a top-level [null]. *)
Definition json_in_null (s : json.scanner) : bool :=
  match json.parseState s with
  | [] =>
      negb (json.endTop s) && negb (json.err s)
      && match json.step s with
         | json.stateN | json.stateNu | json.stateNul => true
         | _ => false
         end
  | _ :: _ => false
  end.

(** The scanner has read a whole top-level object, array or literal. *)
Definition json_closed (s : json.scanner) : bool :=
  match json.parseState s with
  | [] =>
      negb (json.err s)
      && match json.step s with
         | json.stateEndTop => json.endTop s
         | json.stateEndValue => negb (json.endTop s)
         | _ => false
         end
  | _ :: _ => false
  end.

(** The states of the scanner once it has read the first byte of a text
    whose top-level value is an object or [null]. *)
Definition json_started (s : json.scanner) : bool :=
  json_inside s || json_in_null s || json_closed s || json.err s.

(** ** Gemini: the translation of the messages *)

(** [genai.Content] as the binding builds it: the four kinds of [genai.Part]
    a request holds.  The bytes of a [Blob] are a string; the maps of a
    [FunctionCall] and of a [FunctionResponse] are association lists. *)
Module genaiContent.

Inductive Part : Type :=
| Text (s : string)
| Blob (Data : string) (MIMEType : string)
| FunctionCall (Name : string) (Args : list (string * any))
| FunctionResponse (Name : string) (Response : list (string * any)).

Record t : Type := mk { Role : string; Parts : list Part }.

End genaiContent.

(** [*genai.ChatSession]: the field the binding writes. *)
Module ChatSession.
Record t : Type := mk { History : list genaiContent.t }.
End ChatSession.

(** [model.StartChat()] *)
Definition StartChat : ChatSession.t := ChatSession.mk [].

Section convertToGeminiMessages.

(** [base64.StdEncoding.DecodeString]: the bytes, or [None] for an error. *)
Variable base64_DecodeString : string -> option string.

(** The map [json.Unmarshal([]byte(s), &argsJSON)] leaves in [argsJSON];
    the binding ignores its error. *)
Variable json_Unmarshal_map : string -> list (string * any).

(** [convertToGeminiParts] *)
Definition convertToGeminiParts (content : list ContentPart.t) : list genaiContent.Part :=
  fold_left
    (fun multiContent part =>
       if streq (ContentPart.Type_ part) ContentTypeText then
         (multiContent ++ [genaiContent.Text (ContentPart.Text part)])%list
       else if streq (ContentPart.Type_ part) ContentTypeImage then
         match base64_DecodeString (ContentPart.Data part) with
         | Some imageBytes =>
             (multiContent ++ [genaiContent.Blob imageBytes (ContentPart.MediaType part)])%list
         | None => multiContent
         end
       else multiContent)
    content [].

(** The body of the loop of [convertToGeminiMessages] for one message. *)
Definition convertToGeminiMessage (msg : InputMessage.t) : genaiContent.t :=
  let parts := convertToGeminiParts (InputMessage.MultiContent msg) in
  let '(parts, role) :=
    if streq (InputMessage.Role msg) RoleTool then
      (match InputMessage.ToolResults msg with
       | tr :: _ =>
           (parts ++
              [genaiContent.FunctionResponse (ToolResult.ToolCallID tr)
                 [("response",
                    any_map [("name", any_string (ToolResult.FunctionName tr));
                             ("content", any_string (ToolResult.Result tr))])]])%list
       | [] => parts
       end, "user")
    else if streq (InputMessage.Role msg) RoleAssistant then (parts, "model")
    else if streq (InputMessage.Role msg) RoleUser then (parts, "user")
    else (parts, "") in
  let parts :=
    if streq (InputMessage.Role msg) RoleAssistant
       && Nat.ltb 0 (List.length (InputMessage.ToolCalls msg))
    then
      fold_left
        (fun parts tc =>
           (parts ++
              [genaiContent.FunctionCall
                 (ToolCallFunction.Name (ToolCall.Function tc))
                 (json_Unmarshal_map (ToolCallFunction.Arguments (ToolCall.Function tc)))])%list)
        (InputMessage.ToolCalls msg) parts
    else parts in
  genaiContent.mk role parts.

(** [convertToGeminiMessages] *)
Definition convertToGeminiMessages (messages : list InputMessage.t) : list genaiContent.t :=
  fold_left (fun contents msg => (contents ++ [convertToGeminiMessage msg])%list) messages [].

(** [loadChatSession] *)
Definition loadChatSession (chatSession : ChatSession.t) (geminiMessages : list genaiContent.t)
  : ChatSession.t :=
  if Nat.ltb 1 (List.length geminiMessages)
  then ChatSession.mk geminiMessages
  else chatSession.

(** What both entry points of the Gemini binding do with the messages of a
    request: the chat session they load with all the messages but the last,
    and the parts of the last message, which they send; [None] when they
    fail with "no messages provided". *)
Definition GeminiLLM_chatSession (messages : list InputMessage.t)
  : option (ChatSession.t * list genaiContent.Part) :=
  let geminiMessages := convertToGeminiMessages messages in
  match geminiMessages with
  | [] => None
  | _ :: _ =>
      let chatSession := loadChatSession StartChat (removelast geminiMessages) in
      let newMessage := List.last geminiMessages (genaiContent.mk "" []) in
      Some (chatSession, genaiContent.Parts newMessage)
  end.

End convertToGeminiMessages.

(** The tool message that answers a tool call: it echoes the ID and the
    function name of the call. *)
Definition tool_answer (tc : ToolCall.t) (result : string) : InputMessage.t :=
  InputMessage.mk RoleTool [] []
    [ToolResult.mk (ToolCall.ID tc) (ToolCallFunction.Name (ToolCall.Function tc)) result false].

(** What the Gemini wrapper compares two tool calls by. *)
Definition call_key (tc : ToolCall.t) : string * string :=
  (ToolCallFunction.Name (ToolCall.Function tc),
   ToolCallFunction.Arguments (ToolCall.Function tc)).

(** The tool calls a call of [Recv] hands to its caller. *)
Definition outcome_calls (o : outcome ChatCompletionResponse.t) : list ToolCall.t :=
  match o with
  | Return r => response_calls r
  | _ => []
  end.

(** The tool calls of the responses among a list of outcomes. *)
Definition outcomes_calls (os : list (outcome ChatCompletionResponse.t)) : list ToolCall.t :=
  flat_map outcome_calls os.

(** A model configuration without its system instruction. *)
Definition without_system (model : genai.GenerativeModel.t) : genai.GenerativeModel.t :=
  genai.GenerativeModel.mk
    (genai.GenerativeModel.Name model) None
    (genai.GenerativeModel.Temperature model) (genai.GenerativeModel.TopP model)
    (genai.GenerativeModel.MaxOutputTokens model)
    (genai.GenerativeModel.ResponseMIMEType model) (genai.GenerativeModel.Tools model).


(** ** Claude: the translation of the messages *)

(** [anthropic.Message] as the binding builds it: the four kinds of content
    block a request holds. *)
Module anthropicMessage.

Inductive MessageContent : Type :=
| Text (text : string)                          (* NewTextMessageContent *)
| Image (MediaType : string) (Data : string)    (* a base64 source *)
| ToolResult (ToolUseID : string) (Content : list MessageContent) (IsError : bool)
| ToolUse (ID : string) (Name : string) (Input : string).

Record t : Type := mk { Role : string; Content : list MessageContent }.

Definition RoleUser : string := "user".
Definition RoleAssistant : string := "assistant".

End anthropicMessage.

(** [convertToClaudeMessageContent] *)
Definition convertToClaudeMessageContent (content : list ContentPart.t)
  : list anthropicMessage.MessageContent :=
  fold_left
    (fun multiContent part =>
       if streq (ContentPart.Type_ part) ContentTypeText then
         (multiContent ++ [anthropicMessage.Text (ContentPart.Text part)])%list
       else if streq (ContentPart.Type_ part) ContentTypeImage then
         (multiContent ++
            [anthropicMessage.Image (ContentPart.MediaType part) (ContentPart.Data part)])%list
       else multiContent)
    content [].

(** [convertToClaudeMessageContentToolResult], as the content block it is
    put in. *)
Definition convertToClaudeMessageContentToolResult (toolResult : ToolResult.t)
  : anthropicMessage.MessageContent :=
  anthropicMessage.ToolResult (ToolResult.ToolCallID toolResult)
    [anthropicMessage.Text (ToolResult.Result toolResult)]
    (ToolResult.IsError toolResult).

(** The body of the loop of [convertToClaudeMessages] for one message:
    [None] when the message is skipped. *)
Definition convertToClaudeMessage (msg : InputMessage.t) : option anthropicMessage.t :=
  let role :=
    if streq (InputMessage.Role msg) RoleUser then Some anthropicMessage.RoleUser
    else if streq (InputMessage.Role msg) RoleAssistant then Some anthropicMessage.RoleAssistant
    else if streq (InputMessage.Role msg) RoleTool then Some anthropicMessage.RoleUser
    else None in
  match role with
  | None => None
  | Some role =>
      let content := convertToClaudeMessageContent (InputMessage.MultiContent msg) in
      let content :=
        if streq (InputMessage.Role msg) RoleTool then
          match InputMessage.ToolResults msg with
          | toolResult :: _ => [convertToClaudeMessageContentToolResult toolResult]
          | [] => content
          end
        else content in
      let content :=
        if streq (InputMessage.Role msg) RoleAssistant then
          match InputMessage.ToolCalls msg with
          | toolCall :: _ =>
              [anthropicMessage.ToolUse (ToolCall.ID toolCall)
                 (ToolCallFunction.Name (ToolCall.Function toolCall))
                 (ToolCallFunction.Arguments (ToolCall.Function toolCall))]
          | [] => content
          end
        else content in
      Some (anthropicMessage.mk role content)
  end.

(** [convertToClaudeMessages] *)
Definition convertToClaudeMessages (messages : list InputMessage.t)
  : list anthropicMessage.t :=
  fold_left
    (fun claudeMessages msg =>
       match convertToClaudeMessage msg with
       | Some claudeMessage => (claudeMessages ++ [claudeMessage])%list
       | None => claudeMessages
       end)
    messages [].

(** A role the package has a constant for. *)
Definition known_role (role : Role) : bool :=
  streq role RoleUser || streq role RoleAssistant || streq role RoleTool.

(** The message a caller appends to the conversation for a message it
    received: the same role, the content as one text part, the same tool
    calls. *)
Definition echo_message (m : OutputMessage.t) : InputMessage.t :=
  InputMessage.mk (OutputMessage.Role m)
    [ContentPart.mk ContentTypeText (OutputMessage.Content m) "" ""]
    (OutputMessage.ToolCalls m) [].

(** The tool-use blocks and the text blocks of a response of Claude. *)
Definition tool_uses (blocks : list anthropic.MessageContent)
  : list anthropic.MessageContentToolUse.t :=
  flat_map (fun block => match block with
                         | anthropic.ToolUseBlock use => [use]
                         | _ => []
                         end) blocks.

Definition text_blocks (blocks : list anthropic.MessageContent) : list string :=
  flat_map (fun block => match block with
                         | anthropic.TextBlock text => [text]
                         | _ => []
                         end) blocks.

(** ** Claude: the states of the stream wrapper *)

(** A Claude wrapper whose channels are open, with the responses and the
    errors that wait in them and the text and the tool calls the callbacks
    have accumulated. *)
Definition claude_open (waiting : list ChatCompletionResponse.t)
  (errors : list (option error)) (text : string) (calls : list ToolCall.t)
  : claudeStreamWrapper.t :=
  claudeStreamWrapper.mk (chan.mk waiting 10 false) (chan.mk errors 1 false)
    false false text calls.

(** The same after [Close]. *)
Definition claude_closed (waiting : list ChatCompletionResponse.t)
  (errors : list (option error)) (text : string) (calls : list ToolCall.t)
  : claudeStreamWrapper.t :=
  claudeStreamWrapper.mk (chan.mk waiting 10 true) (chan.mk errors 1 true)
    true true text calls.

(** The delta the callback of a text delta sends. *)
Definition text_delta (calls : list ToolCall.t) (text : string) : ChatCompletionResponse.t :=
  delta text calls FinishReasonNull.

(** The callbacks of the vendor for a list of errors. *)
Definition error_events (errs : list error) : list anthropic.StreamEvent :=
  map (fun e => anthropic.EvError (Some e)) errs.

(** The error a Claude stream reports: the first one its [OnError] callback
    was given or, when it was given none, the error of
    [CreateMessagesStream] unless that is [io.EOF]. *)
Definition claude_reported_error (errs : list error) (err : option error) : option error :=
  match errs with
  | e :: _ => Some e
  | [] =>
      match err with
      | Some e => if errors_Is_EOF e then None else Some e
      | None => None
      end
  end.

(** The tool call the callback of a tool-use block makes. *)
Definition claude_tool_call (use : anthropic.MessageContentToolUse.t) : ToolCall.t :=
  ToolCall.mk (anthropic.MessageContentToolUse.ID use) "function"
    (ToolCallFunction.mk (anthropic.MessageContentToolUse.Name use)
       (anthropic.MessageContentToolUse.Input use)).

(** ** Ollama: drivers and the translation of the messages *)

(** Successive calls of [ollamaStreamWrapper.Recv], given what the select
    of each one finds. *)
Fixpoint ollama_recvs (sels : list ollamaStreamWrapper.selected) (w : ollamaStreamWrapper.t)
  : list (outcome ChatCompletionResponse.t) * ollamaStreamWrapper.t :=
  match sels with
  | [] => ([], w)
  | sel :: rest =>
      let '(o, w1) := ollamaStreamWrapper.Recv w sel in
      let '(os, w2) := ollama_recvs rest w1 in
      (o :: os, w2)
  end.

(** The contents of the responses of an Ollama server, put end to end. *)
Definition ollama_contents (responses : list api.ChatResponse.t) : string :=
  strings_Join_empty
    (map (fun response => api.Message.Content (api.ChatResponse.Message response)) responses).

(** [api.Message] as the binding builds it for a request. *)
Module apiMessage.
Record t : Type := mk { Role : string; Content : string; Images : list string }.
End apiMessage.

Section convertToOllamaMessages.

(** [strings.ToLower] *)
Variable strings_ToLower : string -> string.

(** [base64.StdEncoding.DecodeString]: the bytes, or [None] for an error. *)
Variable base64_DecodeString : string -> option string.

(** [convertToOllamaMessages] *)
Definition convertToOllamaMessages (messages : list InputMessage.t) : list apiMessage.t :=
  fold_left
    (fun ollamaMessages msg =>
       let role := strings_ToLower (InputMessage.Role msg) in
       let '(textParts, images) :=
         fold_left
           (fun (acc : list string * list string) part =>
              let '(textParts, images) := acc in
              if streq (ContentPart.Type_ part) ContentTypeText then
                ((textParts ++ [ContentPart.Text part])%list, images)
              else if streq (ContentPart.Type_ part) ContentTypeImage then
                match base64_DecodeString (ContentPart.Data part) with
                | Some imageBytes => (textParts, (images ++ [imageBytes])%list)
                | None => (textParts, images)
                end
              else (textParts, images))
           (InputMessage.MultiContent msg) ([], []) in
       let content := strings_Join_empty textParts in
       (ollamaMessages ++ [apiMessage.mk role content images])%list)
    messages [].

End convertToOllamaMessages.

(** A message without its tool calls and its tool results. *)
Definition without_tools (msg : InputMessage.t) : InputMessage.t :=
  InputMessage.mk (InputMessage.Role msg) (InputMessage.MultiContent msg) [] [].

(** ** The models *)

(** The model constants the package declares. *)
Definition declared_models : list Model :=
  [ModelChatGPT4oLatest; ModelGPT4o; ModelGPT4oMini; ModelGPT4o2024_08_06;
   ModelGPT4oMini2024_07_18; ModelO1; ModelO1_2024_12_17; ModelO1Preview2024_09_12;
   ModelO1Preview; ModelO1Mini; ModelO1Mini2024_09_12; ModelO3Mini; ModelO3Mini2025_01_31;
   ModelClaude2Dot0; ModelClaude2Dot1; ModelClaude3Opus20240229; ModelClaude3Sonnet20240229;
   ModelClaude3Dot5Sonnet20240620; ModelClaude3Dot5Sonnet20241022;
   ModelClaude3Dot5SonnetLatest; ModelClaude3Haiku20240307; ModelClaude3Dot5HaikuLatest;
   ModelClaude3Dot5Haiku20241022;
   ModelGemini2Flash; ModelGemini2FlashLite001; ModelGemini15Flash; ModelGemini15Flash8B;
   ModelGemini15Pro].

(** Some binding with an allow-list accepts the model. *)
Definition supported_somewhere (model : Model) : bool :=
  OpenAILLM.isSupported model || GeminiLLM.isSupported model || ClaudeLLM.isSupported model.

(** ** OpenAI: a chunk that carries whole tool calls *)

(** A tool-call delta that carries a whole call: an ID, and arguments that
    parse. *)
Definition whole_call (tc : openai.ToolCall.t) : bool :=
  negb (streq (openai.ToolCall.ID tc) "")
  && isValidJSON (openai.FunctionCall.Arguments (openai.ToolCall.Function tc)).

(** The choice of a response that holds what a choice of a chunk holds. *)
Definition as_completion_choice (c : openai.ChatCompletionStreamChoice.t)
  : openai.ChatCompletionChoice.t :=
  openai.ChatCompletionChoice.mk (openai.ChatCompletionStreamChoice.Index c)
    (openai.ChatCompletionMessage.mk
       (openai.ChatCompletionStreamChoiceDelta.Role (openai.ChatCompletionStreamChoice.Delta c))
       (openai.ChatCompletionStreamChoiceDelta.Content (openai.ChatCompletionStreamChoice.Delta c))
       []
       (openai.ChatCompletionStreamChoiceDelta.ToolCalls
          (openai.ChatCompletionStreamChoice.Delta c))
       "")
    (openai.ChatCompletionStreamChoice.FinishReason c).
(** * Properties *)

Open Scope list_scope.

(** ** Strings *)

Lemma string_app_cons (c : ascii) (s t : string) :
  String c s +:+ t = String c (s +:+ t).
Proof. reflexivity. Qed.

Lemma string_app_nil_r (s : string) : s +:+ "" = s.
Proof.
  induction s as [|c s IH]; [reflexivity|].
  now rewrite string_app_cons, IH.
Qed.

Lemma string_app_assoc (a b c : string) : (a +:+ b) +:+ c = a +:+ (b +:+ c).
Proof.
  induction a as [|x a IH]; [reflexivity|].
  now rewrite !string_app_cons, IH.
Qed.





Lemma streq_true (a b : string) : streq a b = true <-> a = b.
Proof. unfold streq. apply String.eqb_eq. Qed.

Lemma streq_false (a b : string) : streq a b = false <-> a <> b.
Proof. unfold streq. apply String.eqb_neq. Qed.

Lemma streq_refl (a : string) : streq a a = true.
Proof. apply streq_true. reflexivity. Qed.

(** ** The Gemini stream wrapper: text *)








(** ** The OpenAI stream wrapper: reassembly of a tool call *)

Lemma deref_last (h : list ToolCall.t) (obj : ToolCall.t) :
  openAIStreamWrapper.deref (h ++ [obj]) (List.length h) = obj.
Proof. unfold openAIStreamWrapper.deref. apply nth_middle. Qed.

Lemma insert_last (h : list ToolCall.t) (obj obj' : ToolCall.t) :
  <[List.length h := obj']> (h ++ [obj]) = (h ++ [obj'])%list.
Proof. induction h as [|x h IH]; simpl; [reflexivity | now rewrite IH]. Qed.

Lemma absorb_ID (buffered : ToolCall.t) (tc : openai.ToolCall.t) :
  ToolCall.ID (absorb buffered tc) = ToolCall.ID buffered.
Proof.
  unfold absorb.
  destruct (negb (streq (openai.ToolCall.ID tc) "") && negb (streq (openai.FunctionCall.Name _) ""));
    destruct (negb (streq (openai.FunctionCall.Arguments _) "")); reflexivity.
Qed.

(** The end of the loop body on a fragment that names the call whose buffer
    is open at the end of the heap and is the current one: the buffer absorbs
    the fragment; when that completes the call, the call is emitted, its
    entry is deleted and the current pointer is cleared. *)
Lemma accumulate_open (emitted h : list ToolCall.t) (buffer : gmap string nat)
  (buffered : ToolCall.t) (tc : openai.ToolCall.t) :
  openai.ToolCall.ID tc <> "" ->
  ToolCall.ID buffered = openai.ToolCall.ID tc ->
  openAIStreamWrapper.accumulate
    (openAIStreamWrapper.mkLoop emitted (h ++ [buffered]) (Some (List.length h)) buffer)
    (List.length h) tc
  = if completes buffered tc
    then openAIStreamWrapper.mkLoop (emitted ++ [absorb buffered tc])
           (h ++ [absorb buffered tc]) None (delete (openai.ToolCall.ID tc) buffer)
    else openAIStreamWrapper.mkLoop emitted (h ++ [absorb buffered tc])
           (Some (List.length h)) buffer.
Proof.
  intros Hid HID. unfold openAIStreamWrapper.accumulate, completes, absorb.
  apply streq_false in Hid. rewrite Hid. cbn [negb andb].
  cbn [openAIStreamWrapper.l_heap openAIStreamWrapper.toolCalls
       openAIStreamWrapper.l_current openAIStreamWrapper.l_buffer].
  destruct (negb (streq (openai.FunctionCall.Name (openai.ToolCall.Function tc)) ""));
    destruct (negb (streq (openai.FunctionCall.Arguments (openai.ToolCall.Function tc)) ""));
    cbn [andb]; rewrite ?deref_last, ?insert_last, ?deref_last; try reflexivity.
  - destruct (isValidJSON _); [|reflexivity].
    cbn [ToolCall.ID openAIStreamWrapper.appendArguments openAIStreamWrapper.setName].
    rewrite HID, streq_refl. reflexivity.
  - destruct (isValidJSON _); [|reflexivity].
    cbn [ToolCall.ID openAIStreamWrapper.appendArguments].
    rewrite HID, streq_refl. reflexivity.
Qed.

(** One [Recv] on a chunk that carries one tool-call fragment runs the loop
    body once, from an empty list of completed calls. *)
Lemma openai_Recv_fragment (w : openAIStreamWrapper.t) (tc : openai.ToolCall.t)
  (rest : list (openai.ChatCompletionStreamResponse.t + error)) :
  openai.ChatCompletionStream.recvs (openAIStreamWrapper.stream w) = fragment_chunk tc :: rest ->
  openAIStreamWrapper.Recv w
  = let st := openAIStreamWrapper.handleToolCallDelta
                (openAIStreamWrapper.mkLoop [] (openAIStreamWrapper.heap w)
                   (openAIStreamWrapper.currentToolCall w)
                   (openAIStreamWrapper.toolCallBuffer w)) tc in
    (Return (fragment_delta (openAIStreamWrapper.toolCalls st)),
     openAIStreamWrapper.mk
       (openai.ChatCompletionStream.mk rest
          (openai.ChatCompletionStream.closes (openAIStreamWrapper.stream w)))
       (openAIStreamWrapper.l_heap st) (openAIStreamWrapper.l_current st)
       (openAIStreamWrapper.l_buffer st)).
Proof.
  intros Hrecvs.
  unfold openAIStreamWrapper.Recv, openai.ChatCompletionStream.Recv.
  rewrite Hrecvs. reflexivity.
Qed.

(** The loop body on the first fragment of a new call. *)
Lemma handleToolCallDelta_first (emitted h : list ToolCall.t) (current : option nat)
  (buffer : gmap string nat) (tc : openai.ToolCall.t) :
  openai.ToolCall.ID tc <> "" ->
  buffer !! openai.ToolCall.ID tc = None ->
  openAIStreamWrapper.handleToolCallDelta
    (openAIStreamWrapper.mkLoop emitted h current buffer) tc
  = if completes (opened tc) tc
    then openAIStreamWrapper.mkLoop (emitted ++ [absorb (opened tc) tc])
           (h ++ [absorb (opened tc) tc]) None buffer
    else openAIStreamWrapper.mkLoop emitted (h ++ [absorb (opened tc) tc])
           (Some (List.length h)) (<[openai.ToolCall.ID tc := List.length h]> buffer).
Proof.
  intros Hid Hfresh.
  unfold openAIStreamWrapper.handleToolCallDelta.
  cbn [openAIStreamWrapper.l_buffer openAIStreamWrapper.l_heap
       openAIStreamWrapper.toolCalls openAIStreamWrapper.l_current].
  rewrite Hfresh.
  pose proof Hid as Hid'. apply streq_false in Hid'. rewrite Hid'.
  fold (opened tc).
  rewrite (accumulate_open emitted h _ (opened tc) tc Hid eq_refl).
  destruct (completes (opened tc) tc); [|reflexivity].
  rewrite delete_insert_id by exact Hfresh. reflexivity.
Qed.

(** The loop body on a later fragment of the call whose buffer is open and
    current: the fragment names the call, or it comes without ID and goes to
    the current call. *)
Lemma handleToolCallDelta_next (id : string) (emitted h : list ToolCall.t)
  (buffer : gmap string nat) (buffered : ToolCall.t) (tc : openai.ToolCall.t) :
  id <> "" ->
  ToolCall.ID buffered = id ->
  buffer !! id = None ->
  buffer !! "" = None ->
  openai.ToolCall.ID tc = id \/ openai.ToolCall.ID tc = "" ->
  openAIStreamWrapper.handleToolCallDelta
    (openAIStreamWrapper.mkLoop emitted (h ++ [buffered]) (Some (List.length h))
       (<[id := List.length h]> buffer)) tc
  = if completes buffered tc
    then openAIStreamWrapper.mkLoop (emitted ++ [absorb buffered tc])
           (h ++ [absorb buffered tc]) None buffer
    else openAIStreamWrapper.mkLoop emitted (h ++ [absorb buffered tc])
           (Some (List.length h)) (<[id := List.length h]> buffer).
Proof.
  intros Hid HID Hfresh Hempty [Htc|Htc].
  - (* the fragment names the call *)
    rewrite <- Htc in Hid, HID, Hfresh |- *. clear Htc.
    unfold openAIStreamWrapper.handleToolCallDelta.
    cbn [openAIStreamWrapper.l_buffer openAIStreamWrapper.l_heap
         openAIStreamWrapper.toolCalls openAIStreamWrapper.l_current].
    rewrite lookup_insert_eq.
    rewrite (accumulate_open emitted h _ buffered tc Hid HID).
    destruct (completes buffered tc); [|reflexivity].
    rewrite delete_insert_id by exact Hfresh. reflexivity.
  - (* the fragment comes without ID *)
    unfold openAIStreamWrapper.handleToolCallDelta, completes, absorb.
    cbn [openAIStreamWrapper.l_buffer openAIStreamWrapper.l_heap
         openAIStreamWrapper.toolCalls openAIStreamWrapper.l_current].
    rewrite Htc, lookup_insert_ne by exact Hid. rewrite Hempty.
    rewrite streq_refl. cbn [negb andb].
    destruct (negb (streq (openai.FunctionCall.Arguments (openai.ToolCall.Function tc)) ""));
      cbn [andb]; [|reflexivity].
    rewrite deref_last, insert_last, deref_last.
    destruct (isValidJSON _); [|reflexivity].
    cbn [ToolCall.ID openAIStreamWrapper.appendArguments].
    rewrite HID, delete_insert_id by exact Hfresh. reflexivity.
Qed.

Lemma absorb_Arguments (buffered : ToolCall.t) (tc : openai.ToolCall.t) :
  ToolCallFunction.Arguments (ToolCall.Function (absorb buffered tc))
  = ToolCallFunction.Arguments (ToolCall.Function buffered)
    +:+ openai.FunctionCall.Arguments (openai.ToolCall.Function tc).
Proof.
  unfold absorb.
  destruct (streq (openai.FunctionCall.Arguments (openai.ToolCall.Function tc)) "") eqn:Ha;
    destruct (negb (streq (openai.ToolCall.ID tc) "")
              && negb (streq (openai.FunctionCall.Name (openai.ToolCall.Function tc)) ""));
    cbn [negb]; try reflexivity;
    apply streq_true in Ha; rewrite Ha, string_app_nil_r; reflexivity.
Qed.

Lemma fold_absorb_Arguments (tcs : list openai.ToolCall.t) :
  forall buffered : ToolCall.t,
  ToolCallFunction.Arguments (ToolCall.Function (fold_left absorb tcs buffered))
  = ToolCallFunction.Arguments (ToolCall.Function buffered) +:+ fragments_text tcs.
Proof.
  induction tcs as [|tc tcs IH]; intros buffered; cbn [fold_left fragments_text fold_right].
  - now rewrite string_app_nil_r.
  - rewrite IH, absorb_Arguments, string_app_assoc. reflexivity.
Qed.

Lemma fold_absorb_ID (tcs : list openai.ToolCall.t) :
  forall buffered : ToolCall.t,
  ToolCall.ID (fold_left absorb tcs buffered) = ToolCall.ID buffered.
Proof.
  induction tcs as [|tc tcs IH]; intros buffered; cbn [fold_left]; [reflexivity|].
  now rewrite IH, absorb_ID.
Qed.

Lemma completes_at_last_valid (tcs : list openai.ToolCall.t) :
  forall buffered : ToolCall.t,
  completes_at_last buffered tcs = true ->
  isValidJSON (ToolCallFunction.Arguments
                 (ToolCall.Function (fold_left absorb tcs buffered))) = true.
Proof.
  induction tcs as [|tc tcs IH]; intros buffered H; [discriminate H|].
  destruct tcs as [|tc' tcs'].
  - cbn [completes_at_last] in H. apply andb_prop in H as [_ H]. exact H.
  - cbn [completes_at_last] in H. apply andb_prop in H as [_ H].
    cbn [fold_left]. apply (IH (absorb buffered tc)). exact H.
Qed.

(** The calls that follow the opening of a buffer: as long as the fragments
    do not complete the call nothing is emitted and the buffer stays open;
    the fragment that completes it emits it and clears the buffer. *)
Lemma openai_recvs_open (id : string) (more : list openai.ToolCall.t) :
  forall (recvs rest : list (openai.ChatCompletionStreamResponse.t + error))
         (closes : list (option error)) (h : list ToolCall.t)
         (buffer : gmap string nat) (buffered : ToolCall.t),
  id <> "" ->
  ToolCall.ID buffered = id ->
  buffer !! id = None ->
  buffer !! "" = None ->
  Forall (fun tc => openai.ToolCall.ID tc = id \/ openai.ToolCall.ID tc = "") more ->
  recvs = map fragment_chunk more ++ rest ->
  completes_at_last buffered more = true ->
  openai_recvs (List.length more)
    (openAIStreamWrapper.mk (openai.ChatCompletionStream.mk recvs closes)
       (h ++ [buffered]) (Some (List.length h)) (<[id := List.length h]> buffer))
  = (repeat (Return (fragment_delta [])) (List.length more - 1)
       ++ [Return (fragment_delta [fold_left absorb more buffered])],
     openAIStreamWrapper.mk (openai.ChatCompletionStream.mk rest closes)
       (h ++ [fold_left absorb more buffered]) None buffer).
Proof.
  induction more as [|tc more IH];
    intros recvs rest closes h buffer buffered Hid HID Hfresh Hempty Hall Hrecvs Hlast.
  - discriminate Hlast.
  - apply Forall_cons_iff in Hall as [Htc Hall]. subst recvs.
    cbn [List.length openai_recvs].
    rewrite (openai_Recv_fragment _ tc (map fragment_chunk more ++ rest)) by reflexivity.
    cbn [openAIStreamWrapper.heap openAIStreamWrapper.currentToolCall
         openAIStreamWrapper.toolCallBuffer openAIStreamWrapper.stream
         openai.ChatCompletionStream.closes].
    cbv zeta.
    rewrite (handleToolCallDelta_next id [] h buffer buffered tc Hid HID Hfresh Hempty Htc).
    destruct more as [|tc' more'].
    + cbn [completes_at_last] in Hlast. rewrite Hlast.
      cbn [openAIStreamWrapper.toolCalls openAIStreamWrapper.l_heap
           openAIStreamWrapper.l_current openAIStreamWrapper.l_buffer
           openai_recvs List.length map fold_left repeat Nat.sub app].
      reflexivity.
    + cbn [completes_at_last] in Hlast. apply andb_prop in Hlast as [Hnot Hlast].
      apply negb_true_iff in Hnot. rewrite Hnot.
      cbn [openAIStreamWrapper.toolCalls openAIStreamWrapper.l_heap
           openAIStreamWrapper.l_current openAIStreamWrapper.l_buffer].
      rewrite (IH (map fragment_chunk (tc' :: more') ++ rest) rest closes h buffer
                 (absorb buffered tc)); auto.
      * cbn [List.length Nat.sub repeat app fold_left]. rewrite Nat.sub_0_r. reflexivity.
      * rewrite absorb_ID. exact HID.
Qed.

(** C2.  The OpenAI stream wrapper receives, one chunk each, the fragments
    [first :: more] of a single tool call: [first] names an ID that is not
    empty and has no buffer yet, the others carry the same ID or, as
    continuation fragments, none.  Each fragment is appended to the buffer
    and the accumulated arguments are then tested with [isValidJSON].  If the
    last fragment is the first whose append makes them parse
    ([completes_at_last]), then every earlier [Recv] returns a delta without
    any tool call, the last [Recv] returns a delta whose [ToolCalls] holds
    exactly one call, with the ID of the first fragment and with the
    fragments put end to end as its arguments, and after it the wrapper has
    no buffer for that ID and no current tool call. *)
Theorem openai_tool_call_reassembly
  (w : openAIStreamWrapper.t) (first : openai.ToolCall.t)
  (more : list openai.ToolCall.t)
  (rest : list (openai.ChatCompletionStreamResponse.t + error)) :
  openai.ToolCall.ID first <> "" ->
  openAIStreamWrapper.toolCallBuffer w !! openai.ToolCall.ID first = None ->
  openAIStreamWrapper.toolCallBuffer w !! "" = None ->
  Forall (fun tc => openai.ToolCall.ID tc = openai.ToolCall.ID first
                    \/ openai.ToolCall.ID tc = "") more ->
  openai.ChatCompletionStream.recvs (openAIStreamWrapper.stream w)
  = map fragment_chunk (first :: more) ++ rest ->
  completes_at_last (opened first) (first :: more) = true ->
  exists call : ToolCall.t,
    fst (openai_recvs (S (List.length more)) w)
    = repeat (Return (fragment_delta [])) (List.length more)
        ++ [Return (fragment_delta [call])]
    /\ ToolCall.ID call = openai.ToolCall.ID first
    /\ ToolCallFunction.Arguments (ToolCall.Function call) = fragments_text (first :: more)
    /\ isValidJSON (ToolCallFunction.Arguments (ToolCall.Function call)) = true
    /\ openAIStreamWrapper.toolCallBuffer (snd (openai_recvs (S (List.length more)) w))
       !! openai.ToolCall.ID first = None
    /\ openAIStreamWrapper.currentToolCall (snd (openai_recvs (S (List.length more)) w))
       = None.
Proof.
  intros Hid Hfresh Hempty Hall Hrecvs Hlast.
  exists (fold_left absorb (first :: more) (opened first)).
  pose proof (completes_at_last_valid (first :: more) (opened first) Hlast) as Hvalid.
  assert (Hargs : ToolCallFunction.Arguments
                    (ToolCall.Function (fold_left absorb (first :: more) (opened first)))
                  = fragments_text (first :: more)).
  { rewrite fold_absorb_Arguments. reflexivity. }
  assert (HID : ToolCall.ID (fold_left absorb (first :: more) (opened first))
                = openai.ToolCall.ID first).
  { rewrite fold_absorb_ID. reflexivity. }
  cbn [openai_recvs].
  rewrite (openai_Recv_fragment w first (map fragment_chunk more ++ rest)) by exact Hrecvs.
  cbv zeta.
  rewrite (handleToolCallDelta_first [] _ _ _ first Hid Hfresh).
  destruct more as [|tc more'].
  - cbn [completes_at_last] in Hlast. rewrite Hlast.
    cbn [openAIStreamWrapper.toolCalls openAIStreamWrapper.l_heap
         openAIStreamWrapper.l_current openAIStreamWrapper.l_buffer
         openai_recvs List.length repeat app fst snd fold_left
         openAIStreamWrapper.toolCallBuffer openAIStreamWrapper.currentToolCall].
    repeat split; auto.
  - cbn [completes_at_last] in Hlast. apply andb_prop in Hlast as [Hnot Hlast].
    apply negb_true_iff in Hnot. rewrite Hnot.
    cbn [openAIStreamWrapper.toolCalls openAIStreamWrapper.l_heap
         openAIStreamWrapper.l_current openAIStreamWrapper.l_buffer].
    rewrite (openai_recvs_open (openai.ToolCall.ID first) (tc :: more')
               (map fragment_chunk (tc :: more') ++ rest) rest _
               (openAIStreamWrapper.heap w) (openAIStreamWrapper.toolCallBuffer w)
               (absorb (opened first) first)); auto.
    + cbn [fst snd List.length Nat.sub repeat app fold_left
           openAIStreamWrapper.toolCallBuffer openAIStreamWrapper.currentToolCall].
      rewrite Nat.sub_0_r.
      repeat split; auto.
    + rewrite absorb_ID. reflexivity.
Qed.

(** C2, on the example of the specification: the fragments
    [{"location"] and [: "Paris"}] of the call [call_1], fed to a fresh
    wrapper.  The first [Recv] completes no call, the second one exactly one
    call, whose arguments are [{"location": "Paris"}]. *)
Lemma openai_tool_call_reassembly_witness :
  let w := openAIStreamWrapper.newOpenAIStreamWrapper
             (openai.ChatCompletionStream.mk
                [fragment_chunk paris_call_1; fragment_chunk paris_call_2] []) in
  isValidJSON paris_fragment_1 = false
  /\ isValidJSON paris_arguments = true
  /\ exists call : ToolCall.t,
       fst (openai_recvs 2 w)
       = [Return (fragment_delta []); Return (fragment_delta [call])]
       /\ ToolCall.ID call = "call_1"
       /\ ToolCallFunction.Arguments (ToolCall.Function call) = paris_arguments
       /\ isValidJSON (ToolCallFunction.Arguments (ToolCall.Function call)) = true
       /\ openAIStreamWrapper.toolCallBuffer (snd (openai_recvs 2 w)) !! "call_1" = None
       /\ openAIStreamWrapper.currentToolCall (snd (openai_recvs 2 w)) = None.
Proof.
  intros w.
  split; [vm_compute; reflexivity|].
  split; [vm_compute; reflexivity|].
  apply (openai_tool_call_reassembly w paris_call_1 [paris_call_2] []).
  - discriminate.
  - reflexivity.
  - reflexivity.
  - repeat constructor.
  - reflexivity.
  - vm_compute. reflexivity.
Defined.

(** The same reassembly by evaluation, for a call streamed in four
    fragments of which only the first carries the ID and the name: the
    fourth [Recv] emits the call, the earlier ones emit nothing. *)
Lemma openai_reassembles_continuation_fragments :
  fst (openai_recvs 4
         (openAIStreamWrapper.newOpenAIStreamWrapper
            (openai.ChatCompletionStream.mk (map fragment_chunk weather_fragments) [])))
  = [Return (fragment_delta []); Return (fragment_delta []); Return (fragment_delta []);
     Return (fragment_delta
               [ToolCall.mk "call_7" "function"
                  (ToolCallFunction.mk "get_weather" weather_arguments)])].
Proof. vm_compute. reflexivity. Qed.

(** ** Finish reasons *)













(** ** The Claude stream wrapper *)

Lemma claude_invariant_new : claude_invariant claudeStreamWrapper.new.
Proof. repeat split. constructor. Qed.

(** Under the invariant [Close] returns [nil], never panics, and leaves a
    state on which a second [Close] changes nothing. *)
Lemma claude_Close_ok (w : claudeStreamWrapper.t) :
  claude_invariant w ->
  exists w1 : claudeStreamWrapper.t,
    claudeStreamWrapper.Close w = (Return tt, w1)
    /\ claudeStreamWrapper.Close w1 = (Return tt, w1)
    /\ claudeStreamWrapper.done w1 = true
    /\ claude_invariant w1.
Proof.
  intros (Hbuf & Hev & Herr).
  unfold claudeStreamWrapper.Close.
  destruct (claudeStreamWrapper.done w) eqn:Hdone.
  - exists w. repeat split; auto; try congruence; rewrite Hdone; reflexivity.
  - cbn [claudeStreamWrapper.eventsChan claudeStreamWrapper.errChan
         claudeStreamWrapper.done claudeStreamWrapper.cancelled
         claudeStreamWrapper.partialTextBuilder claudeStreamWrapper.toolCalls].
    unfold chan.close. rewrite Hev, Herr.
    cbn [claudeStreamWrapper.eventsChan claudeStreamWrapper.errChan
         claudeStreamWrapper.done claudeStreamWrapper.cancelled
         claudeStreamWrapper.partialTextBuilder claudeStreamWrapper.toolCalls].
    eexists. split; [reflexivity|].
    cbn [claudeStreamWrapper.done]. repeat split; auto.
Qed.

Lemma claude_invariant_Close (w w' : claudeStreamWrapper.t) (o : outcome unit) :
  claude_invariant w -> claudeStreamWrapper.Close w = (o, w') -> claude_invariant w'.
Proof.
  intros Hinv Hclose.
  destruct (claude_Close_ok w Hinv) as (w1 & H1 & _ & _ & Hinv1).
  rewrite H1 in Hclose. injection Hclose as _ <-. exact Hinv1.
Qed.

Lemma claude_invariant_trySendErr (w w' : claudeStreamWrapper.t) (e : option error) :
  claude_invariant w -> claudeStreamWrapper.trySendErr w e = chan.Done w' ->
  claude_invariant w'.
Proof.
  intros (Hbuf & Hev & Herr). unfold claudeStreamWrapper.trySendErr, chan.send.
  destruct (chan.closed (claudeStreamWrapper.errChan w)) eqn:Hc; [discriminate|].
  destruct (Nat.ltb _ _); intros [= <-]; claude_inv.
Qed.

Lemma claude_invariant_sendEvent (w w' : claudeStreamWrapper.t)
  (r : ChatCompletionResponse.t) :
  claude_invariant w -> terminating r = false ->
  claudeStreamWrapper.sendEvent w r = chan.Done w' -> claude_invariant w'.
Proof.
  intros (Hbuf & Hev & Herr) Hr. unfold claudeStreamWrapper.sendEvent, chan.send.
  destruct (chan.closed (claudeStreamWrapper.eventsChan w)) eqn:Hc; [discriminate|].
  destruct (Nat.ltb _ _); [|discriminate].
  intros [= <-]. claude_inv.
  apply Forall_app. split; [exact Hbuf | repeat constructor; exact Hr].
Qed.

Lemma claude_invariant_onEvent (w w' : claudeStreamWrapper.t) (ev : anthropic.StreamEvent) :
  claude_invariant w -> claudeStreamWrapper.onEvent w ev = chan.Done w' ->
  claude_invariant w'.
Proof.
  intros Hinv. pose proof Hinv as (Hbuf & Hev & Herr).
  destruct ev as [e| | | |text| |block| |]; cbn [claudeStreamWrapper.onEvent].
  - apply claude_invariant_trySendErr. exact Hinv.
  - intros [= <-]. exact Hinv.
  - intros [= <-]. repeat split; auto.
  - intros [= <-]. exact Hinv.
  - apply claude_invariant_sendEvent; [repeat split; auto | reflexivity].
  - intros [= <-]. exact Hinv.
  - destruct block as [text|use|].
    + intros [= <-]. exact Hinv.
    + apply claude_invariant_sendEvent; [repeat split; auto | reflexivity].
    + intros [= <-]. exact Hinv.
  - intros [= <-]. exact Hinv.
  - destruct (claude_Close_ok w Hinv) as (w1 & H1 & _ & _ & Hinv1).
    rewrite H1. intros [= <-]. exact Hinv1.
Qed.

Lemma claude_invariant_goroutineEnd (w w' : claudeStreamWrapper.t) (err : option error) :
  claude_invariant w -> claudeStreamWrapper.goroutineEnd w err = chan.Done w' ->
  claude_invariant w'.
Proof.
  intros Hinv. unfold claudeStreamWrapper.goroutineEnd.
  assert (Hafter : forall w0 : claudeStreamWrapper.t, claude_invariant w0 ->
            match claudeStreamWrapper.Close w0 with
            | (Panic p, _) => chan.Panics p
            | (_, w1) => chan.Done w1
            end = chan.Done w' -> claude_invariant w').
  { intros w0 Hinv0. destruct (claude_Close_ok w0 Hinv0) as (w1 & H1 & _ & _ & Hinv1).
    rewrite H1. intros [= <-]. exact Hinv1. }
  destruct err as [e|]; [|apply Hafter; exact Hinv].
  destruct (errors_Is_EOF e); [apply Hafter; exact Hinv|].
  destruct (claudeStreamWrapper.trySendErr w (Some e)) as [w0| |p] eqn:Hsend;
    try discriminate.
  apply Hafter. eapply claude_invariant_trySendErr; eauto.
Qed.

(** What a completed [Recv] gives under the invariant: a delta whose finish
    reasons are all null, or an error, in which case the wrapper is done. *)
Lemma claude_Recv_ok (w w' : claudeStreamWrapper.t) (o : outcome ChatCompletionResponse.t) :
  claude_invariant w -> claudeStreamWrapper.Recv w = chan.Done (o, w') ->
  claude_invariant w'
  /\ match o with
     | Return r => terminating r = false
     | Fail _ => claudeStreamWrapper.done w' = true
     | Panic _ => False
     end.
Proof.
  intros (Hbuf & Hev & Herr). unfold claudeStreamWrapper.Recv, chan.recv.
  destruct (chan.buf (claudeStreamWrapper.eventsChan w)) as [|r events] eqn:Hevents.
  - destruct (chan.closed (claudeStreamWrapper.eventsChan w)) eqn:Hclosed; [|discriminate].
    destruct (chan.buf (claudeStreamWrapper.errChan w)) as [|e errs] eqn:Herrs.
    + intros H.
      assert (Hout : o = Fail io_EOF /\ w' = w).
      { destruct (chan.closed (claudeStreamWrapper.errChan w)); split; congruence. }
      clear H. destruct Hout as [-> ->].
      split; [|congruence]. claude_inv.
    + destruct e as [e|]; intros [= <- <-];
        (split; [|cbn [claudeStreamWrapper.done]; congruence]);
        claude_inv; try (rewrite Hevents; constructor).
  - intros [= <- <-]. apply Forall_cons_iff in Hbuf as [Hr Hbuf].
    split; [|exact Hr]. claude_inv.
Qed.

Lemma claude_reachable_invariant (w : claudeStreamWrapper.t) :
  claude_reachable w -> claude_invariant w.
Proof.
  induction 1 as [|w w' Hreach IH Hstep]; [exact claude_invariant_new|].
  destruct Hstep as [w w' ev H|w w' err H|w w' o H|w w' o H].
  - eapply claude_invariant_onEvent; eauto.
  - eapply claude_invariant_goroutineEnd; eauto.
  - eapply claude_Recv_ok; eauto.
  - eapply claude_invariant_Close; eauto.
Qed.

(** ** Termination of a stream *)

Lemma gemini_Recv_done (w : geminiStreamWrapper.t) :
  geminiStreamWrapper.done w = true -> geminiStreamWrapper.Recv w = (Fail io_EOF, w).
Proof. intros H. unfold geminiStreamWrapper.Recv. rewrite H. reflexivity. Qed.

Lemma gemini_recvs_done (n : nat) (w : geminiStreamWrapper.t) :
  geminiStreamWrapper.done w = true ->
  gemini_recvs n w = (repeat (Fail io_EOF) n, w).
Proof.
  intros H. induction n as [|n IH]; [reflexivity|].
  cbn [gemini_recvs]. rewrite (gemini_Recv_done w H), IH. reflexivity.
Qed.







(** ** The generic consumer *)

(** C6: the case the consumer misses.  A delta with finish reason
    tool_calls arrives while no tool call has been appended: the index
    [len(toolCalls)-1] is out of range, [StreamChatCompletion] panics, and
    neither [OnToolCall] nor [OnComplete] is invoked; only the deferred
    [Close] runs.  First on a stream that yields that single delta, then
    through the OpenAI wrapper, for a server that sends a tool call with
    empty arguments and then the finish reason "tool_calls". *)
Lemma consumer_panics_on_tool_calls_without_call :
  fst (StreamChatCompletion scripted_Recv scripted_Close 5
         (Return [Return (delta "" [] FinishReasonToolCalls)]))
  = ([OnStart; stream_Recv; stream_Close], Panicked (panic_index_out_of_range (-1) 0))
  /\ fst (StreamChatCompletion openAIStreamWrapper.Recv openAIStreamWrapper.Close 5
            (Return (openAIStreamWrapper.newOpenAIStreamWrapper
                       (openai.ChatCompletionStream.mk
                          [openai_chunk
                             [openai.ToolCall.mk "call_1" "function"
                                (openai.FunctionCall.mk "get_time" "")] "";
                           openai_chunk [] openai.FinishReasonToolCalls] []))))
     = ([OnStart; stream_Recv; stream_Recv; stream_Close],
        Panicked (panic_index_out_of_range (-1) 0)).
Proof. split; vm_compute; reflexivity. Qed.

Lemma ltb_length_streq (s : string) :
  Nat.ltb 0 (String.length s) = negb (streq s "").
Proof. destruct s; reflexivity. Qed.

(** The loop over the choices of a chunk with one choice that does not end
    the turn: the token, and the two accumulators extended. *)
Lemma handleChoices_null (c : Choice.t) (fullContent : string) (toolCalls : list ToolCall.t) :
  Choice.FinishReason c = FinishReasonNull ->
  handleChoices [c] fullContent toolCalls
  = (spec_tokens c,
     NextChunk (fullContent +:+ OutputMessage.Content (Choice.Message c))
       (toolCalls ++ OutputMessage.ToolCalls (Choice.Message c))).
Proof.
  intros Hnull. cbn [handleChoices]. rewrite Hnull.
  change (streq FinishReasonNull FinishReasonToolCalls) with false.
  change (negb (streq FinishReasonNull FinishReasonNull)) with false.
  cbv iota. unfold spec_tokens.
  rewrite ltb_length_streq.
  destruct (streq (OutputMessage.Content (Choice.Message c)) "") eqn:Hc; cbn [negb].
  - apply streq_true in Hc. rewrite Hc, string_app_nil_r.
    destruct (OutputMessage.ToolCalls (Choice.Message c)); cbn;
      rewrite ?app_nil_r; reflexivity.
  - destruct (OutputMessage.ToolCalls (Choice.Message c)); cbn;
      rewrite ?app_nil_r; reflexivity.
Qed.

(** The loop over the choices of a chunk with one choice that ends the
    turn. *)
Lemma handleChoices_last (c : Choice.t) (fullContent : string) (toolCalls : list ToolCall.t) :
  Choice.FinishReason c <> FinishReasonNull ->
  (Choice.FinishReason c = FinishReasonToolCalls ->
   toolCalls ++ OutputMessage.ToolCalls (Choice.Message c) <> []) ->
  handleChoices [c] fullContent toolCalls
  = (spec_tokens c
     ++ (if streq (Choice.FinishReason c) FinishReasonToolCalls
         then match lastToolCall (toolCalls ++ OutputMessage.ToolCalls (Choice.Message c)) with
              | Some tc => [OnToolCall tc]
              | None => []
              end
         else [])
     ++ [OnComplete (OutputMessage.mk "assistant"
                       (fullContent +:+ OutputMessage.Content (Choice.Message c))
                       (toolCalls ++ OutputMessage.ToolCalls (Choice.Message c)))],
     Completed).
Proof.
  intros Hfr Hcalls. cbn [handleChoices].
  apply streq_false in Hfr. rewrite Hfr. cbn [negb].
  assert (Htext : (if Nat.ltb 0 (String.length (OutputMessage.Content (Choice.Message c)))
                   then fullContent +:+ OutputMessage.Content (Choice.Message c)
                   else fullContent)
                  = fullContent +:+ OutputMessage.Content (Choice.Message c)).
  { destruct (OutputMessage.Content (Choice.Message c)); cbn;
      [now rewrite string_app_nil_r | reflexivity]. }
  assert (Hlist : (if Nat.ltb 0 (List.length (OutputMessage.ToolCalls (Choice.Message c)))
                   then toolCalls ++ OutputMessage.ToolCalls (Choice.Message c)
                   else toolCalls)
                  = toolCalls ++ OutputMessage.ToolCalls (Choice.Message c)).
  { destruct (OutputMessage.ToolCalls (Choice.Message c)); cbn;
      [now rewrite app_nil_r | reflexivity]. }
  rewrite Htext, Hlist.
  assert (Htok : (if Nat.ltb 0 (String.length (OutputMessage.Content (Choice.Message c)))
                  then [OnToken (OutputMessage.Content (Choice.Message c))] else [])
                 = spec_tokens c).
  { unfold spec_tokens. rewrite ltb_length_streq.
    destruct (streq (OutputMessage.Content (Choice.Message c)) ""); reflexivity. }
  rewrite Htok.
  destruct (streq (Choice.FinishReason c) FinishReasonToolCalls) eqn:Htc.
  - apply streq_true in Htc. specialize (Hcalls Htc).
    unfold lastToolCall in *.
    destruct (toolCalls ++ OutputMessage.ToolCalls (Choice.Message c)) as [|x l] eqn:Hl;
      [congruence|].
    assert (Hsome : exists tc, List.last (map Some (x :: l)) None = Some tc).
    { clear. revert x. induction l as [|y l IH]; intros x; [now exists x|].
      destruct (IH y) as [tc Htc]. exists tc. exact Htc. }
    destruct Hsome as [tc Hsome]. rewrite Hsome.
    rewrite <- app_assoc. reflexivity.
  - reflexivity.
Qed.

(** The loop of the consumer over a scripted stream, from any value of its
    two accumulators. *)
Lemma pump_scripted (cs : list Choice.t) :
  forall (fullContent : string) (toolCalls : list ToolCall.t) (fuel : nat)
         (e : ending) (rest : list (outcome ChatCompletionResponse.t)),
  Forall (fun c => Choice.FinishReason c = FinishReasonNull) cs ->
  match e with
  | EndsWithDelta c =>
      Choice.FinishReason c <> FinishReasonNull
      /\ (Choice.FinishReason c = FinishReasonToolCalls ->
          toolCalls ++ spec_calls (cs ++ [c]) <> [])
  | EndsWithError _ => True
  end ->
  (List.length cs < fuel)%nat ->
  pump scripted_Recv fuel
    (map (fun c => Return (ChatCompletionResponse.mk "" [c] Usage.zero)) cs
       ++ ending_outcome e :: rest)
    fullContent toolCalls
  = (flat_map (fun c => stream_Recv :: spec_tokens c) cs
       ++ stream_Recv
          :: match e with
             | EndsWithDelta c =>
                 spec_tokens c
                 ++ (if streq (Choice.FinishReason c) FinishReasonToolCalls
                     then match lastToolCall (toolCalls ++ spec_calls (cs ++ [c])) with
                          | Some tc => [OnToolCall tc]
                          | None => []
                          end
                     else [])
                 ++ [OnComplete (OutputMessage.mk "assistant"
                                   (fullContent +:+ spec_text (cs ++ [c]))
                                   (toolCalls ++ spec_calls (cs ++ [c])))]
             | EndsWithError err => if isEOF err then [] else [OnError err]
             end,
     spec_result e, rest).
Proof.
  induction cs as [|c0 cs IH]; intros fullContent toolCalls fuel e rest Hnull He Hfuel.
  - destruct fuel as [|fuel]; [simpl in Hfuel; lia|].
    cbn [map app flat_map pump scripted_Recv].
    destruct e as [c|err]; cbn [ending_outcome spec_result].
    + destruct He as [Hfr Hcalls].
      cbn [ChatCompletionResponse.Choices].
      cbn [app spec_calls flat_map spec_text fold_right] in *.
      rewrite app_nil_r in *. rewrite string_app_nil_r.
      rewrite (handleChoices_last c fullContent toolCalls Hfr Hcalls). reflexivity.
    + destruct (isEOF err); reflexivity.
  - destruct fuel as [|fuel]; [simpl in Hfuel; lia|].
    apply Forall_cons_iff in Hnull as [Hc0 Hnull].
    cbn [map app flat_map pump scripted_Recv ChatCompletionResponse.Choices].
    rewrite (handleChoices_null c0 fullContent toolCalls Hc0).
    rewrite (IH (fullContent +:+ OutputMessage.Content (Choice.Message c0))
                (toolCalls ++ OutputMessage.ToolCalls (Choice.Message c0))
                fuel e rest Hnull).
    + destruct e as [c|err].
      * cbn [app spec_calls flat_map spec_text fold_right].
        rewrite <- !app_assoc, string_app_assoc. reflexivity.
      * rewrite <- !app_assoc. reflexivity.
    + destruct e as [c|err]; [|exact I].
      destruct He as [Hfr Hcalls]. split; [exact Hfr|].
      intros Htc. specialize (Hcalls Htc).
      cbn [app spec_calls flat_map] in Hcalls. rewrite <- app_assoc. exact Hcalls.
    + simpl in Hfuel. lia.
Qed.

(** The generic consumer on a stream of single-choice deltas.  Given
    deltas [cs] that do not end the turn, followed by a delta that does, or
    by an error of [Recv], and enough fuel, [StreamChatCompletion] performs
    exactly the calls the specification lists: [OnStart] once, before the
    first [Recv]; for each delta with text, [OnToken] with that text; at a
    last delta, [OnToolCall] with the latest tool call when its finish reason
    is tool_calls, then [OnComplete] with all the text and all the tool calls
    accumulated; at an error other than [io.EOF], [OnError]; and last of all
    [Close].  It needs a tool call to have been appended when the finish
    reason is tool_calls ([ending_ok]). *)
Theorem StreamChatCompletion_follows_spec (cs : list Choice.t) (e : ending)
  (rest : list (outcome ChatCompletionResponse.t)) (fuel : nat) :
  Forall (fun c => Choice.FinishReason c = FinishReasonNull) cs ->
  ending_ok cs e ->
  (List.length cs < fuel)%nat ->
  StreamChatCompletion scripted_Recv scripted_Close fuel
    (Return (map (fun c => Return (ChatCompletionResponse.mk "" [c] Usage.zero)) cs
               ++ ending_outcome e :: rest))
  = (spec_trace cs e, spec_result e, Some rest).
Proof.
  intros Hnull He Hfuel. unfold StreamChatCompletion.
  rewrite (pump_scripted cs "" [] fuel e rest Hnull); [| |exact Hfuel].
  - unfold spec_trace, spec_ending, scripted_Close.
    destruct e as [c|err]; cbn [spec_result app].
    + rewrite <- !app_assoc. cbn [app]. rewrite <- !app_assoc. reflexivity.
    + destruct (isEOF err); rewrite <- !app_assoc; reflexivity.
  - destruct e as [c|err]; [|exact I]. exact He.
Qed.

(** The consumer on the end-to-end scenario of the specification: one
    delta without text, then a delta that carries the reassembled tool call
    and the finish reason tool_calls. *)
Lemma StreamChatCompletion_follows_spec_witness :
  let call := ToolCall.mk "call_1" "function"
                (ToolCallFunction.mk "get_weather" paris_arguments) in
  let cs := [Choice.mk 0 (OutputMessage.mk RoleAssistant "" []) FinishReasonNull] in
  let e := EndsWithDelta
             (Choice.mk 0 (OutputMessage.mk RoleAssistant "" [call]) FinishReasonToolCalls) in
  StreamChatCompletion scripted_Recv scripted_Close 3
    (Return (map (fun c => Return (ChatCompletionResponse.mk "" [c] Usage.zero)) cs
               ++ ending_outcome e :: []))
  = ([OnStart; stream_Recv; stream_Recv; OnToolCall call;
      OnComplete (OutputMessage.mk "assistant" "" [call]); stream_Close],
     Returned None, Some []).
Proof.
  intros call cs e.
  rewrite (StreamChatCompletion_follows_spec cs e [] 3).
  - reflexivity.
  - repeat constructor.
  - split; [discriminate|]. intros _. discriminate.
  - simpl. lia.
Defined.

(** ** The model allow-lists *)

(** C7, as stated, fails for the Ollama binding, which has no list of
    models: a request for the model "no-such-model" is sent to the server by
    both entry points, and the streaming one returns a stream handle. *)
Lemma ollama_has_no_model_allow_list :
  OllamaLLM_CreateChatCompletionStream (ollama_server []) (simple_request "no-such-model")
  = (Return (ollamaStreamWrapper.mk false None),
     [api.ChatRequest.mk "no-such-model"
        (ChatCompletionRequest.Messages (simple_request "no-such-model"))
        float32_zero None None])
  /\ snd (OllamaLLM.CreateChatCompletion (ollama_server []) (simple_request "no-such-model"))
     = [api.ChatRequest.mk "no-such-model"
          (ChatCompletionRequest.Messages (simple_request "no-such-model"))
          float32_zero None None].
Proof. split; reflexivity. Qed.

(** C7 (amended).  For the OpenAI, Gemini and Claude bindings and every
    request whose model the binding's [isSupported] rejects, both
    [CreateChatCompletion] and [CreateChatCompletionStream] return an error
    that names the model, send nothing over the network and return no stream
    handle.  (The Ollama binding has no allow-list.) *)
Theorem unsupported_model_rejected :
  (forall (o : openai.Client.t) (req : ChatCompletionRequest.t),
     OpenAILLM.isSupported (ChatCompletionRequest.Model req) = false ->
     OpenAILLM.CreateChatCompletion o req
     = (Fail (Errorf ("model " +:+ ChatCompletionRequest.Model req +:+ " is not available")),
        [])
     /\ OpenAILLM.CreateChatCompletionStream o req
        = (Fail (Errorf ("model " +:+ ChatCompletionRequest.Model req +:+ " is not available")),
           []))
  /\ (forall (g : GeminiClient.t) (req : ChatCompletionRequest.t),
        GeminiLLM.isSupported (ChatCompletionRequest.Model req) = false ->
        GeminiLLM_CreateChatCompletion g req
        = (Fail (Errorf ("model " +:+ ChatCompletionRequest.Model req +:+ " is not supported")),
           [])
        /\ GeminiLLM_CreateChatCompletionStream g req
           = (Fail (Errorf ("model " +:+ ChatCompletionRequest.Model req
                            +:+ " is not supported")), []))
  /\ (forall (c : anthropic.Client.t) (req : ChatCompletionRequest.t),
        ClaudeLLM.isSupported (ChatCompletionRequest.Model req) = false ->
        ClaudeLLM.CreateChatCompletion c req
        = (Fail (Errorf ("model " +:+ ChatCompletionRequest.Model req +:+ " is not available")),
           [])
        /\ ClaudeLLM_CreateChatCompletionStream req
           = (Fail (Errorf ("model " +:+ ChatCompletionRequest.Model req
                            +:+ " is not available")), [])).
Proof.
  split; [|split].
  - intros o req H.
    unfold OpenAILLM.CreateChatCompletion, OpenAILLM.CreateChatCompletionStream.
    rewrite H. split; reflexivity.
  - intros g req H.
    unfold GeminiLLM_CreateChatCompletion, GeminiLLM_CreateChatCompletionStream.
    rewrite H. split; reflexivity.
  - intros c req H.
    unfold ClaudeLLM.CreateChatCompletion, ClaudeLLM_CreateChatCompletionStream.
    rewrite H. split; reflexivity.
Qed.

(** C7, on an example: the OpenAI binding asked for a Claude model. *)
Lemma unsupported_model_rejected_witness :
  OpenAILLM.isSupported ModelClaude2Dot1 = false
  /\ OpenAILLM.CreateChatCompletion openai_server_down (simple_request ModelClaude2Dot1)
     = (Fail (Errorf "model claude-2.1 is not available"), [])
  /\ OpenAILLM.CreateChatCompletionStream openai_server_down (simple_request ModelClaude2Dot1)
     = (Fail (Errorf "model claude-2.1 is not available"), []).
Proof.
  split; [reflexivity|].
  exact (proj1 unsupported_model_rejected openai_server_down
           (simple_request ModelClaude2Dot1) eq_refl).
Defined.

(** ** Close *)




(** ** The temperature of the Gemini binding *)

Lemma setModelConfig_Temperature (model : genai.GenerativeModel.t)
  (req : ChatCompletionRequest.t) :
  genai.GenerativeModel.Temperature (setModelConfig model req)
  = Some (if float32_gt (ChatCompletionRequest.Temperature req) float32_zero
          then ChatCompletionRequest.Temperature req
          else SmallestNonzeroFloat32).
Proof.
  unfold setModelConfig.
  destruct model as [n s t p m r tl].
  destruct (float32_gt (ChatCompletionRequest.Temperature req) float32_zero);
    destruct (ChatCompletionRequest.TopP req) as [tp|];
    try destruct (float32_gt tp float32_zero);
    destruct (ChatCompletionRequest.JSONMode req); reflexivity.
Qed.

(** [math.SmallestNonzeroFloat32] is a [float32], it is positive, and no
    positive [float32] is below it. *)
Lemma SmallestNonzeroFloat32_least :
  is_float32 SmallestNonzeroFloat32 = true
  /\ float32_gt SmallestNonzeroFloat32 float32_zero = true
  /\ forall x : float32,
       is_float32 x = true -> float32_gt x float32_zero = true ->
       float32_le SmallestNonzeroFloat32 x = true.
Proof.
  split; [reflexivity|]. split; [reflexivity|].
  intros x Hvalid Hpos.
  unfold float32_gt, float32_zero, SFltb in Hpos.
  unfold float32_le, SmallestNonzeroFloat32, SFleb.
  destruct x as [s|s| |s m e]; cbn in Hpos; try discriminate Hpos.
  - destruct s; [discriminate Hpos | reflexivity].
  - destruct s; [discriminate Hpos|].
    unfold is_float32, valid_binary, bounded, canonical_mantissa, fexp, emin,
      float32_prec, float32_emax in Hvalid.
    apply andb_prop in Hvalid as [Hcanon _].
    apply Z.eqb_eq in Hcanon.
    assert (He : (-149 <= e)%Z) by lia.
    unfold SFcompare.
    destruct (Z.compare_spec (-149) e) as [Heq|Hlt|Hgt]; [|reflexivity|lia].
    destruct m; reflexivity.
Qed.

(** C9.  [setModelConfig] sets the temperature of the vendor model to the
    temperature of the request when that is strictly greater than zero, and
    to [math.SmallestNonzeroFloat32], the least positive [float32], when the
    temperature of the request is zero (of either sign). *)
Theorem gemini_temperature_sentinel (model : genai.GenerativeModel.t)
  (req : ChatCompletionRequest.t) :
  (float32_gt (ChatCompletionRequest.Temperature req) float32_zero = true ->
   genai.GenerativeModel.Temperature (setModelConfig model req)
   = Some (ChatCompletionRequest.Temperature req))
  /\ (forall sign : bool,
        ChatCompletionRequest.Temperature req = S754_zero sign ->
        genai.GenerativeModel.Temperature (setModelConfig model req)
        = Some SmallestNonzeroFloat32)
  /\ is_float32 SmallestNonzeroFloat32 = true
  /\ float32_gt SmallestNonzeroFloat32 float32_zero = true
  /\ (forall x : float32,
        is_float32 x = true -> float32_gt x float32_zero = true ->
        float32_le SmallestNonzeroFloat32 x = true).
Proof.
  rewrite setModelConfig_Temperature.
  split; [intros H; rewrite H; reflexivity|].
  split; [intros sign H; rewrite H; destruct sign; reflexivity|].
  exact SmallestNonzeroFloat32_least.
Qed.

(** C9, on examples: the temperatures 0.5 and 0. *)
Lemma gemini_temperature_sentinel_witness :
  let half : float32 := S754_finite false 8388608 (-24) in
  let with_temperature (t : float32) :=
    ChatCompletionRequest.mk ModelGemini2Flash [] None [] t None 0 false in
  let model := genai.GenerativeModel.new ModelGemini2Flash in
  is_float32 half = true
  /\ float32_gt half float32_zero = true
  /\ genai.GenerativeModel.Temperature (setModelConfig model (with_temperature half))
     = Some half
  /\ genai.GenerativeModel.Temperature (setModelConfig model (with_temperature float32_zero))
     = Some SmallestNonzeroFloat32.
Proof.
  intros half with_temperature model.
  split; [reflexivity|]. split; [reflexivity|]. split.
  - exact (proj1 (gemini_temperature_sentinel model (with_temperature half)) eq_refl).
  - exact (proj1 (proj2 (gemini_temperature_sentinel model (with_temperature float32_zero)))
             false eq_refl).
Defined.

(** ** The OpenAI message converter *)

Lemma convertToOpenAIMessage_cases (msg : InputMessage.t) :
  (tool_message_without_result msg = true
   /\ convertToOpenAIMessage msg = Panic (panic_index_out_of_range 0 0))
  \/ (tool_message_without_result msg = false
      /\ exists o : openai.ChatCompletionMessage.t,
           convertToOpenAIMessage msg = Return o
           /\ forall (r : ToolResult.t) (rs : list ToolResult.t),
                InputMessage.Role msg = RoleTool ->
                InputMessage.ToolResults msg = r :: rs ->
                openai.ChatCompletionMessage.Role o = openai.ChatMessageRoleTool
                /\ openai.ChatCompletionMessage.Content o = ToolResult.Result r
                /\ openai.ChatCompletionMessage.ToolCallID o = ToolResult.ToolCallID r).
Proof.
  unfold tool_message_without_result, convertToOpenAIMessage.
  destruct (streq (InputMessage.Role msg) RoleTool) eqn:Hrole.
  - apply streq_true in Hrole.
    destruct (InputMessage.ToolResults msg) as [|r0 rs0] eqn:Hres.
    + left. split; reflexivity.
    + right. split; [reflexivity|]. eexists. split; [reflexivity|].
      intros r rs _ [= <- <-]. rewrite Hrole. repeat split; reflexivity.
  - right. split; [reflexivity|]. eexists. split; [reflexivity|].
    intros r rs Hr. apply streq_false in Hrole. contradiction.
Qed.

(** The loop of [convertToOpenAIMessages] when no message is a tool message
    without result: one vendor message per message, in order. *)
Lemma convertToOpenAIMessages_from_ok (messages : list InputMessage.t) :
  forall acc : list openai.ChatCompletionMessage.t,
  forallb (fun m => negb (tool_message_without_result m)) messages = true ->
  exists outs : list openai.ChatCompletionMessage.t,
    convertToOpenAIMessages_from acc messages = Return (acc ++ outs)
    /\ Forall2 (fun m o => convertToOpenAIMessage m = Return o) messages outs.
Proof.
  induction messages as [|msg messages IH]; intros acc Hok.
  - exists []. rewrite app_nil_r. split; [reflexivity | constructor].
  - cbn [forallb] in Hok. apply andb_prop in Hok as [Hmsg Hok].
    apply negb_true_iff in Hmsg.
    destruct (convertToOpenAIMessage_cases msg) as [[Hbad _]|[_ (o & Ho & _)]];
      [congruence|].
    destruct (IH (acc ++ [o]) Hok) as (outs & Hfrom & Hall).
    exists (o :: outs). cbn [convertToOpenAIMessages_from]. rewrite Ho, Hfrom.
    rewrite <- app_assoc. split; [reflexivity | constructor; assumption].
Qed.

(** The loop panics as soon as it meets a tool message without result. *)
Lemma convertToOpenAIMessages_from_panic (messages : list InputMessage.t) :
  forall acc : list openai.ChatCompletionMessage.t,
  existsb tool_message_without_result messages = true ->
  convertToOpenAIMessages_from acc messages = Panic (panic_index_out_of_range 0 0).
Proof.
  induction messages as [|msg messages IH]; intros acc Hbad; [discriminate Hbad|].
  cbn [existsb] in Hbad. cbn [convertToOpenAIMessages_from].
  destruct (convertToOpenAIMessage_cases msg) as [[_ Hp]|[Hgood (o & Ho & _)]].
  - rewrite Hp. reflexivity.
  - rewrite Hgood in Hbad. cbn [orb] in Hbad. rewrite Ho. apply IH. exact Hbad.
Qed.

Lemma existsb_forallb_negb {A : Type} (f : A -> bool) (l : list A) :
  existsb f l = negb (forallb (fun a => negb (f a)) l).
Proof.
  induction l as [|a l IH]; [reflexivity|]. cbn [existsb forallb].
  rewrite IH. destruct (f a); reflexivity.
Qed.

(** C10.  [convertToOpenAIMessages] returns exactly when every tool-role
    message carries at least one tool result; it then gives one vendor
    message per message, and the vendor message of a tool-role message has
    the role "tool", the [Result] of the first tool result as its [Content]
    and its [ToolCallID] as [ToolCallID].  When some tool-role message has no
    tool result, the index [ToolResults[0]] is out of range and the converter
    panics; so do [CreateChatCompletion] and [CreateChatCompletionStream] of
    the OpenAI binding for a supported model, before anything is sent. *)
Theorem convertToOpenAIMessages_needs_tool_results :
  (forall messages : list InputMessage.t,
     (exists out, convertToOpenAIMessages messages = Return out)
     <-> existsb tool_message_without_result messages = false)
  /\ (forall (messages : list InputMessage.t) (out : list openai.ChatCompletionMessage.t)
        (i : nat) (msg : InputMessage.t) (r : ToolResult.t) (rs : list ToolResult.t),
        convertToOpenAIMessages messages = Return out ->
        messages !! i = Some msg ->
        InputMessage.Role msg = RoleTool ->
        InputMessage.ToolResults msg = r :: rs ->
        List.length out = List.length messages
        /\ exists o : openai.ChatCompletionMessage.t,
             out !! i = Some o
             /\ openai.ChatCompletionMessage.Role o = openai.ChatMessageRoleTool
             /\ openai.ChatCompletionMessage.Content o = ToolResult.Result r
             /\ openai.ChatCompletionMessage.ToolCallID o = ToolResult.ToolCallID r)
  /\ (forall messages : list InputMessage.t,
        existsb tool_message_without_result messages = true ->
        convertToOpenAIMessages messages = Panic (panic_index_out_of_range 0 0))
  /\ (forall (o : openai.Client.t) (req : ChatCompletionRequest.t),
        OpenAILLM.isSupported (ChatCompletionRequest.Model req) = true ->
        existsb tool_message_without_result (ChatCompletionRequest.Messages req) = true ->
        OpenAILLM.CreateChatCompletion o req = (Panic (panic_index_out_of_range 0 0), [])
        /\ OpenAILLM.CreateChatCompletionStream o req
           = (Panic (panic_index_out_of_range 0 0), [])).
Proof.
  split; [|split; [|split]].
  - intros messages. split.
    + intros [out Hout].
      destruct (existsb tool_message_without_result messages) eqn:Hbad; [|reflexivity].
      unfold convertToOpenAIMessages in Hout.
      rewrite (convertToOpenAIMessages_from_panic messages [] Hbad) in Hout.
      discriminate Hout.
    + intros Hgood. rewrite existsb_forallb_negb in Hgood.
      apply negb_false_iff in Hgood.
      destruct (convertToOpenAIMessages_from_ok messages [] Hgood) as (outs & Hfrom & _).
      exists outs. exact Hfrom.
  - intros messages out i msg r rs Hout Hi Hrole Hres.
    assert (Hgood : forallb (fun m => negb (tool_message_without_result m)) messages = true).
    { destruct (forallb _ messages) eqn:Hf; [reflexivity|].
      assert (Hbad : existsb tool_message_without_result messages = true)
        by (rewrite existsb_forallb_negb, Hf; reflexivity).
      unfold convertToOpenAIMessages in Hout.
      rewrite (convertToOpenAIMessages_from_panic messages [] Hbad) in Hout.
      discriminate Hout. }
    destruct (convertToOpenAIMessages_from_ok messages [] Hgood) as (outs & Hfrom & Hall).
    unfold convertToOpenAIMessages in Hout. rewrite Hfrom in Hout.
    injection Hout as <-. cbn [app].
    split; [symmetry; eapply Forall2_length; exact Hall|].
    destruct (Forall2_lookup_l _ _ _ _ _ Hall Hi) as (o & Ho & Hconv).
    exists o. split; [exact Ho|].
    destruct (convertToOpenAIMessage_cases msg) as [[_ Hp]|[_ (o' & Ho' & Hfields)]];
      [congruence|].
    rewrite Ho' in Hconv. injection Hconv as <-.
    exact (Hfields r rs Hrole Hres).
  - intros messages Hbad. apply convertToOpenAIMessages_from_panic. exact Hbad.
  - intros o req Hsup Hbad.
    unfold OpenAILLM.CreateChatCompletion, OpenAILLM.CreateChatCompletionStream,
      OpenAILLM.buildRequest, convertToOpenAIMessages.
    rewrite Hsup, (convertToOpenAIMessages_from_panic _ [] Hbad). split; reflexivity.
Qed.

(** C10, on examples: a request whose tool message carries one result is
    converted, with the result as content; the same request with no result
    makes both entry points panic. *)
Lemma convertToOpenAIMessages_needs_tool_results_witness :
  let result := ToolResult.mk "call_1" "get_weather" "sunny" false in
  (exists out o,
      convertToOpenAIMessages (ChatCompletionRequest.Messages (tool_request [result]))
      = Return out
      /\ out !! 1%nat = Some o
      /\ openai.ChatCompletionMessage.Content o = "sunny"
      /\ openai.ChatCompletionMessage.ToolCallID o = "call_1")
  /\ OpenAILLM.CreateChatCompletion openai_server_down (tool_request [])
     = (Panic (panic_index_out_of_range 0 0), [])
  /\ OpenAILLM.CreateChatCompletionStream openai_server_down (tool_request [])
     = (Panic (panic_index_out_of_range 0 0), []).
Proof.
  intros result. split.
  - destruct (proj2 (proj1 convertToOpenAIMessages_needs_tool_results
                       (ChatCompletionRequest.Messages (tool_request [result]))) eq_refl)
      as [out Hout].
    destruct (proj1 (proj2 convertToOpenAIMessages_needs_tool_results)
                (ChatCompletionRequest.Messages (tool_request [result])) out 1%nat
                (InputMessage.mk RoleTool [] [] [result]) result []
                Hout eq_refl eq_refl eq_refl) as (_ & o & Ho & _ & Hcontent & Hid).
    exists out, o. auto.
  - exact (proj2 (proj2 (proj2 convertToOpenAIMessages_needs_tool_results))
             openai_server_down (tool_request []) eq_refl eq_refl).
Defined.

(** ** Two more facts about the stream wrappers *)

(** The Ollama stream wrapper answers a vendor response without text with
    the zero response, which has no choice, and leaves its [done] flag as it
    is, whatever the [Done] flag of that response. *)
Theorem ollama_Recv_without_text (w : ollamaStreamWrapper.t) (resp : api.ChatResponse.t) :
  ollamaStreamWrapper.done w = false ->
  api.Message.Content (api.ChatResponse.Message resp) = "" ->
  ollamaStreamWrapper.Recv w (ollamaStreamWrapper.stream_recv resp)
  = (Return ChatCompletionResponse.zero, w).
Proof.
  intros Hdone Hcontent. unfold ollamaStreamWrapper.Recv.
  rewrite Hdone, Hcontent. reflexivity.
Qed.

Lemma ollama_Recv_without_text_witness :
  ollamaStreamWrapper.Recv (ollamaStreamWrapper.mk false None)
    (ollamaStreamWrapper.stream_recv
       (api.ChatResponse.mk (api.Message.mk "assistant" "") true "stop" 5 7))
  = (Return ChatCompletionResponse.zero, ollamaStreamWrapper.mk false None).
Proof.
  exact (ollama_Recv_without_text (ollamaStreamWrapper.mk false None)
           (api.ChatResponse.mk (api.Message.mk "assistant" "") true "stop" 5 7)
           eq_refl eq_refl).
Defined.

(** Once a Claude stream wrapper is done (after [Close], or after the
    message stop) its channels are closed: a callback that then has a delta
    to send panics with a send on a closed channel. *)
Theorem claude_send_after_Close_panics (w : claudeStreamWrapper.t) (text : string)
  (use : anthropic.MessageContentToolUse.t) :
  claude_reachable w ->
  claudeStreamWrapper.done w = true ->
  claudeStreamWrapper.onEvent w (anthropic.EvTextDelta text)
  = chan.Panics panic_send_on_closed_channel
  /\ claudeStreamWrapper.onEvent w (anthropic.EvContentBlockStop (anthropic.ToolUseBlock use))
     = chan.Panics panic_send_on_closed_channel.
Proof.
  intros Hreach Hdone.
  destruct (claude_reachable_invariant w Hreach) as (_ & Hev & _).
  rewrite Hdone in Hev.
  cbn [claudeStreamWrapper.onEvent].
  unfold claudeStreamWrapper.sendEvent, chan.send.
  cbn [claudeStreamWrapper.eventsChan]. rewrite Hev. split; reflexivity.
Qed.

Lemma claude_send_after_Close_panics_witness :
  let w := snd (claudeStreamWrapper.Close claudeStreamWrapper.new) in
  claudeStreamWrapper.done w = true
  /\ claudeStreamWrapper.onEvent w (anthropic.EvTextDelta "Hi")
     = chan.Panics panic_send_on_closed_channel.
Proof.
  intros w. split; [reflexivity|].
  refine (proj1 (claude_send_after_Close_panics w "Hi"
                   (anthropic.MessageContentToolUse.mk "" "" "") _ eq_refl)).
  eapply reach_step; [apply reach_new|].
  apply (step_Close _ _ (Return tt)). reflexivity.
Defined.

(** * Further properties of the bindings *)

(** ** OpenAI: the stream wrapper *)

Lemma accumulate_emitted_parse (st : openAIStreamWrapper.loopState) (p : nat)
  (tc : openai.ToolCall.t) :
  Forall (fun c => parses c = true) (openAIStreamWrapper.toolCalls st) ->
  Forall (fun c => parses c = true)
    (openAIStreamWrapper.toolCalls (openAIStreamWrapper.accumulate st p tc)).
Proof.
  intros H. unfold openAIStreamWrapper.accumulate. cbv zeta.
  destruct (negb (streq (openai.FunctionCall.Arguments _) "")); [|exact H].
  match goal with
  | |- context [if isValidJSON ?x then _ else _] => destruct (isValidJSON x) eqn:E
  end; [|exact H].
  cbn [openAIStreamWrapper.toolCalls]. apply Forall_app. split; [exact H|].
  constructor; [exact E | constructor].
Qed.

Lemma handleToolCallDelta_emitted_parse (st : openAIStreamWrapper.loopState)
  (tc : openai.ToolCall.t) :
  Forall (fun c => parses c = true) (openAIStreamWrapper.toolCalls st) ->
  Forall (fun c => parses c = true)
    (openAIStreamWrapper.toolCalls (openAIStreamWrapper.handleToolCallDelta st tc)).
Proof.
  intros H. unfold openAIStreamWrapper.handleToolCallDelta. cbv zeta.
  destruct (openAIStreamWrapper.l_buffer st !! openai.ToolCall.ID tc).
  - now apply accumulate_emitted_parse.
  - destruct (streq (openai.ToolCall.ID tc) "").
    + destruct (openAIStreamWrapper.l_current st); [|exact H].
      destruct (negb (streq (openai.FunctionCall.Arguments _) "")); [|exact H].
      match goal with
      | |- context [if isValidJSON ?x then _ else _] => destruct (isValidJSON x) eqn:E
      end; [|exact H].
      cbn [openAIStreamWrapper.toolCalls]. apply Forall_app. split; [exact H|].
      constructor; [exact E | constructor].
    + now apply accumulate_emitted_parse.
Qed.

Lemma handleToolCalls_emitted_parse (deltas : list openai.ToolCall.t) :
  forall st : openAIStreamWrapper.loopState,
  Forall (fun c => parses c = true) (openAIStreamWrapper.toolCalls st) ->
  Forall (fun c => parses c = true)
    (openAIStreamWrapper.toolCalls
       (fold_left openAIStreamWrapper.handleToolCallDelta deltas st)).
Proof.
  induction deltas as [|tc deltas IH]; intros st H; cbn [fold_left]; [exact H|].
  apply IH. now apply handleToolCallDelta_emitted_parse.
Qed.

Lemma openai_handleChoices_emitted_parse (cs : list openai.ChatCompletionStreamChoice.t) :
  forall (w w' : openAIStreamWrapper.t) (choices : list Choice.t),
  openAIStreamWrapper.handleChoices w cs = (Return choices, w') ->
  Forall (fun c => parses c = true)
    (flat_map (fun c => OutputMessage.ToolCalls (Choice.Message c)) choices).
Proof.
  induction cs as [|c cs IH]; intros w w' choices H; cbn [openAIStreamWrapper.handleChoices] in H.
  - injection H as <- _. constructor.
  - unfold openAIStreamWrapper.handleChoice in H. cbv zeta in H.
    destruct (convertFromOpenAIFinishReason _) as [reason|e|p]; try discriminate H.
    destruct (openAIStreamWrapper.handleChoices _ cs) as [[choices'|e|p] w1] eqn:Hrest;
      try discriminate H.
    injection H as <- _. cbn [flat_map Choice.Message OutputMessage.ToolCalls].
    apply Forall_app. split.
    + apply handleToolCalls_emitted_parse. constructor.
    + exact (IH _ _ _ Hrest).
Qed.

(** Whatever state the wrapper is in and whatever the chunk holds, the
    arguments of every tool call a delta of [openAIStreamWrapper.Recv]
    carries pass [isValidJSON]: a buffer that does not parse is never handed
    out. *)
Theorem openai_emitted_tool_calls_parse (w w' : openAIStreamWrapper.t)
  (r : ChatCompletionResponse.t) :
  openAIStreamWrapper.Recv w = (Return r, w') ->
  Forall (fun tc => parses tc = true) (response_calls r).
Proof.
  unfold openAIStreamWrapper.Recv.
  destruct (openai.ChatCompletionStream.Recv _) as [[resp|err] stream'].
  - destruct (openAIStreamWrapper.handleChoices _ _) as [[choices|e|p] w1] eqn:H;
      intros Heq; try discriminate Heq.
    injection Heq as <- _. unfold response_calls. cbn [ChatCompletionResponse.Choices].
    exact (openai_handleChoices_emitted_parse _ _ _ _ H).
  - destruct (isEOF err); [intros Heq; discriminate Heq|].
    destruct (errors_As_APIError err) as [[code message]|]; intros Heq; discriminate Heq.
Qed.

Lemma openai_emitted_tool_calls_parse_witness :
  let w := openAIStreamWrapper.newOpenAIStreamWrapper
             (openai.ChatCompletionStream.mk
                [openai_chunk [paris_call_1; paris_call_2] "tool_calls"] []) in
  Forall (fun tc => parses tc = true)
    (response_calls
       (ChatCompletionResponse.mk ""
          [Choice.mk 0
             (OutputMessage.mk "" ""
                [ToolCall.mk "call_1" "function"
                   (ToolCallFunction.mk "get_weather" paris_arguments)])
             FinishReasonToolCalls] Usage.zero)).
Proof.
  intros w.
  refine (openai_emitted_tool_calls_parse w (snd (openAIStreamWrapper.Recv w)) _ _).
  vm_compute. reflexivity.
Defined.

Lemma openai_handleChoices_Fail_not_EOF (cs : list openai.ChatCompletionStreamChoice.t) :
  forall (w w' : openAIStreamWrapper.t) (e : error),
  openAIStreamWrapper.handleChoices w cs = (Fail e, w') -> isEOF e = false.
Proof.
  induction cs as [|c cs IH]; intros w w' e H; cbn [openAIStreamWrapper.handleChoices] in H.
  - discriminate H.
  - unfold openAIStreamWrapper.handleChoice in H. cbv zeta in H.
    unfold convertFromOpenAIFinishReason in H.
    repeat match type of H with
           | context [if ?b then _ else _] => destruct b
           end;
      try (injection H as <- _; reflexivity);
      destruct (openAIStreamWrapper.handleChoices _ cs) as [[choices'|e'|p] w1] eqn:Hrest;
      try discriminate H; injection H as <- _; exact (IH _ _ _ Hrest).
Qed.

(** [openAIStreamWrapper.Recv] reports the end of the stream, an error that
    is [io.EOF] itself, exactly when the vendor's [Recv] returned [io.EOF]
    itself: no other error of the vendor and no failure of the translation
    is turned into it, and an [io.EOF] the vendor wrapped is not one. *)
Theorem openai_Recv_EOF_iff (w : openAIStreamWrapper.t) :
  (exists e, fst (openAIStreamWrapper.Recv w) = Fail e /\ isEOF e = true)
  <-> fst (openai.ChatCompletionStream.Recv (openAIStreamWrapper.stream w)) = inr io_EOF.
Proof.
  unfold openAIStreamWrapper.Recv.
  destruct (openai.ChatCompletionStream.Recv _) as [[resp|err] stream']; cbn [fst].
  - split; [|intros H; discriminate H].
    intros [e [H He]].
    destruct (openAIStreamWrapper.handleChoices _ _) as [[choices|e'|p] w1] eqn:Hc;
      cbn [fst] in H; try discriminate H.
    injection H as ->. rewrite (openai_handleChoices_Fail_not_EOF _ _ _ _ Hc) in He.
    discriminate He.
  - destruct (isEOF err) eqn:Herr.
    + destruct err; try discriminate Herr. split; [reflexivity|].
      intros _. exists io_EOF. split; reflexivity.
    + split.
      * intros [e [H He]].
        destruct (errors_As_APIError err) as [[code message]|]; cbn [fst] in H;
          injection H as <-; discriminate He.
      * intros H. injection H as ->. discriminate Herr.
Qed.

(** ** OpenAI: the converters *)

Lemma convertOpenAIMessageContent_parts (content : list ContentPart.t) :
  convertOpenAIMessageContent content = flat_map openai_part content.
Proof.
  unfold convertOpenAIMessageContent.
  enough (H : forall acc,
             fold_left
               (fun multiContent part =>
                  if streq (ContentPart.Type_ part) ContentTypeText then
                    multiContent ++
                      [openai.ChatMessagePart.mk openai.ChatMessagePartTypeText
                         (ContentPart.Text part) None]
                  else if streq (ContentPart.Type_ part) ContentTypeImage then
                    multiContent ++
                      [openai.ChatMessagePart.mk openai.ChatMessagePartTypeImageURL ""
                         (Some (openai.ChatMessageImageURL.mk
                                  ("data:" +:+ ContentPart.MediaType part +:+ ";base64,"
                                   +:+ ContentPart.Data part) "high"))]
                  else multiContent) content acc
             = acc ++ flat_map openai_part content) by exact (H []).
  induction content as [|part content IH]; intros acc; cbn [fold_left flat_map].
  - now rewrite app_nil_r.
  - rewrite IH. unfold openai_part at 2.
    destruct (streq (ContentPart.Type_ part) ContentTypeText);
      [now rewrite <- app_assoc|].
    destruct (streq (ContentPart.Type_ part) ContentTypeImage);
      [now rewrite <- app_assoc | reflexivity].
Qed.

Lemma text_of_openai_parts (content : list ContentPart.t) :
  strings_Join_empty
    (map openai.ChatMessagePart.Text
       (List.filter (fun part => streq (openai.ChatMessagePart.Type_ part)
                                   openai.ChatMessagePartTypeText)
          (flat_map openai_part content)))
  = text_of content.
Proof.
  unfold text_of.
  induction content as [|part content IH]; [reflexivity|].
  cbn [flat_map List.filter]. rewrite List.filter_app, map_app.
  unfold openai_part at 1.
  destruct (streq (ContentPart.Type_ part) ContentTypeText) eqn:Ht.
  - cbn [List.filter openai.ChatMessagePart.Type_ map app openai.ChatMessagePart.Text].
    change (streq openai.ChatMessagePartTypeText openai.ChatMessagePartTypeText) with true.
    cbn [map app strings_Join_empty fold_right openai.ChatMessagePart.Text].
    f_equal. exact IH.
  - destruct (streq (ContentPart.Type_ part) ContentTypeImage).
    + cbn [List.filter openai.ChatMessagePart.Type_].
      change (streq openai.ChatMessagePartTypeImageURL openai.ChatMessagePartTypeText)
        with false.
      cbn [map app]. exact IH.
    + cbn [List.filter map app]. exact IH.
Qed.

(** A user or assistant message translated for OpenAI by
    [convertToOpenAIMessages] and read back with [convertFromOpenAIMessage]
    keeps its role, has for content its text parts put end to end (the image
    parts, sent as [data:] URLs, are not text) and keeps its tool calls, IDs,
    names and arguments unchanged, their type being "function". *)
Theorem openai_message_round_trip (msg : InputMessage.t) :
  InputMessage.Role msg = RoleUser \/ InputMessage.Role msg = RoleAssistant ->
  exists m,
    convertToOpenAIMessages [msg] = Return [m]
    /\ convertFromOpenAIMessage m
       = OutputMessage.mk (InputMessage.Role msg) (text_of (InputMessage.MultiContent msg))
           (map as_function_call (InputMessage.ToolCalls msg)).
Proof.
  intros Hrole.
  unfold convertToOpenAIMessages. cbn [convertToOpenAIMessages_from].
  unfold convertToOpenAIMessage.
  assert (Hnot : streq (InputMessage.Role msg) RoleTool = false)
    by (destruct Hrole as [-> | ->]; reflexivity).
  rewrite Hnot. cbn [app]. eexists. split; [reflexivity|].
  unfold convertFromOpenAIMessage.
  cbn [openai.ChatCompletionMessage.Role openai.ChatCompletionMessage.MultiContent
       openai.ChatCompletionMessage.Content openai.ChatCompletionMessage.ToolCalls].
  f_equal.
  - destruct Hrole as [-> | ->]; reflexivity.
  - rewrite convertOpenAIMessageContent_parts.
    rewrite <- text_of_openai_parts.
    destruct (flat_map openai_part (InputMessage.MultiContent msg)); reflexivity.
  - unfold convertFromOpenAIToolCalls, convertToOpenAIToolsCalls.
    rewrite map_map. apply map_ext. intros [id ty [name args]]. reflexivity.
Qed.

Lemma openai_message_round_trip_witness :
  let msg := InputMessage.mk RoleAssistant
               [ContentPart.mk ContentTypeText "It is " "" "";
                ContentPart.mk ContentTypeImage "" "aGk=" "image/png";
                ContentPart.mk ContentTypeText "sunny." "" ""]
               [ToolCall.mk "call_1" "" (ToolCallFunction.mk "get_weather" "{}")] [] in
  exists m,
    convertToOpenAIMessages [msg] = Return [m]
    /\ convertFromOpenAIMessage m
       = OutputMessage.mk RoleAssistant "It is sunny."
           [ToolCall.mk "call_1" "function" (ToolCallFunction.mk "get_weather" "{}")].
Proof.
  intros msg. exact (openai_message_round_trip msg (or_intror eq_refl)).
Defined.

(** ** OpenAI: the entry points *)

(** The two entry points of the OpenAI binding send the same request, up to
    two fields.  When [CreateChatCompletion] sends a request [r], it is its
    only one, it asks for one completion ([N = 1]) without streaming, and its
    reasoning effort is "high" for o3-mini and unset for the other models;
    [CreateChatCompletionStream], whatever the server it talks to, then sends
    one request too, which is [r] with [Stream] set and no reasoning effort,
    o3-mini included. *)
Theorem openai_entry_points_send_same_request (o o' : openai.Client.t)
  (req : ChatCompletionRequest.t) (r : openai.ChatCompletionRequest.t) :
  In (openai.call_CreateChatCompletion r) (snd (OpenAILLM.CreateChatCompletion o req)) ->
  snd (OpenAILLM.CreateChatCompletion o req) = [openai.call_CreateChatCompletion r]
  /\ snd (OpenAILLM.CreateChatCompletionStream o' req)
     = [openai.call_CreateChatCompletionStream (as_stream_request r)]
  /\ openai.ChatCompletionRequest.N r = 1%Z
  /\ openai.ChatCompletionRequest.Stream r = false
  /\ openai.ChatCompletionRequest.Model r = ChatCompletionRequest.Model req
  /\ openai.ChatCompletionRequest.ReasoningEffort r
     = (if streq (ChatCompletionRequest.Model req) ModelO3Mini then "high" else "").
Proof.
  unfold OpenAILLM.CreateChatCompletion, OpenAILLM.CreateChatCompletionStream.
  destruct (negb (OpenAILLM.isSupported _)); [intros []|].
  unfold OpenAILLM.buildRequest.
  destruct (convertToOpenAIMessages _) as [inputMessages|e|p]; try (intros []).
  cbv zeta.
  set (r0 := openai.ChatCompletionRequest.mk _ _ _ _ _ _ _ false _ _ _).
  set (r1 := openai.ChatCompletionRequest.mk _ _ _ _ _ _ _ true _ _ _).
  assert (Hr1 : r1 = as_stream_request r0) by reflexivity.
  assert (HX : forall X : outcome ChatCompletionResponse.t * list openai.NetCall,
             X = match openai.Client.CreateChatCompletion o r0 with
                 | inl resp =>
                     match OpenAILLM.convertChoices (openai.ChatCompletionResponse.Choices resp) with
                     | Return choices =>
                         (Return (ChatCompletionResponse.mk (openai.ChatCompletionResponse.ID resp)
                                    choices (openai.ChatCompletionResponse.Usage resp)),
                          [openai.call_CreateChatCompletion r0])
                     | Fail err => (Fail err, [openai.call_CreateChatCompletion r0])
                     | Panic p => (Panic p, [openai.call_CreateChatCompletion r0])
                     end
                 | inr err => (Fail err, [openai.call_CreateChatCompletion r0])
                 end ->
             snd X = [openai.call_CreateChatCompletion r0]).
  { intros X ->. destruct (openai.Client.CreateChatCompletion o r0) as [resp|err];
      [destruct (OpenAILLM.convertChoices _)|]; reflexivity. }
  rewrite (HX _ eq_refl). clear HX.
  intros [H|[]]. injection H as <-. repeat split.
  rewrite <- Hr1.
  destruct (openai.Client.CreateChatCompletionStream o' r1) as [stream|err];
    [reflexivity|].
  destruct (errors_As_APIError err) as [[code message]|]; reflexivity.
Qed.

Lemma openai_entry_points_send_same_request_witness :
  let req := simple_request ModelO3Mini in
  exists r,
    snd (OpenAILLM.CreateChatCompletion openai_server_down req)
    = [openai.call_CreateChatCompletion r]
    /\ snd (OpenAILLM.CreateChatCompletionStream openai_server_down req)
       = [openai.call_CreateChatCompletionStream (as_stream_request r)]
    /\ openai.ChatCompletionRequest.ReasoningEffort r = "high"
    /\ openai.ChatCompletionRequest.ReasoningEffort (as_stream_request r) = "".
Proof.
  intros req.
  destruct (OpenAILLM.buildRequest req false) as [r| |] eqn:Hr; try discriminate Hr.
  exists r.
  destruct (openai_entry_points_send_same_request openai_server_down openai_server_down req r)
    as (H1 & H2 & _ & _ & _ & H6).
  - vm_compute in Hr. injection Hr as <-. vm_compute. left. reflexivity.
  - repeat split; [exact H1 | exact H2 | exact H6].
Defined.

Lemma openai_known_finish_Return (reason : openai.FinishReason) :
  openai_known_finish reason = true ->
  convertFromOpenAIFinishReason reason = Return (openai_finish_reason reason).
Proof.
  unfold openai_known_finish, openai_finish_reason, convertFromOpenAIFinishReason.
  repeat match goal with
         | |- context [streq reason ?x] => destruct (streq reason x)
         end; try reflexivity.
  intros H. discriminate H.
Qed.

Lemma openai_unknown_finish_Fail (reason : openai.FinishReason) :
  openai_known_finish reason = false ->
  convertFromOpenAIFinishReason reason = Fail (Errorf ("default case reason: " +:+ reason)).
Proof.
  unfold openai_known_finish, convertFromOpenAIFinishReason.
  repeat match goal with
         | |- context [streq reason ?x] => destruct (streq reason x)
         end; try reflexivity; intros H; discriminate H.
Qed.

Lemma convertChoices_all_or_nothing (cs : list openai.ChatCompletionChoice.t) :
  OpenAILLM.convertChoices cs
  = match first_unknown_finish cs with
    | Some reason => Fail (Errorf ("default case reason: " +:+ reason))
    | None => Return (map openai_choice cs)
    end.
Proof.
  unfold first_unknown_finish.
  induction cs as [|c cs IH]; [reflexivity|].
  cbn [OpenAILLM.convertChoices List.find map].
  destruct (openai_known_finish (openai.ChatCompletionChoice.FinishReason c)) eqn:Hk;
    cbn [negb].
  - rewrite (openai_known_finish_Return _ Hk), IH.
    destruct (List.find _ cs); reflexivity.
  - rewrite (openai_unknown_finish_Fail _ Hk). reflexivity.
Qed.

(** [OpenAILLM.CreateChatCompletion] translates the answer of the server all
    or nothing.  For a model of the allow-list and messages that translate,
    when the server answers with a response: if every choice has a finish
    reason the binding knows, the result has one choice per vendor choice,
    in order, with the index kept, and the ID and the usage of the response;
    if some choice has a finish reason it does not know, the call fails with
    an error that names the first such reason, and the other choices are
    lost with it. *)
Theorem openai_response_all_or_nothing (o : openai.Client.t) (req : ChatCompletionRequest.t)
  (r : openai.ChatCompletionRequest.t) (resp : openai.ChatCompletionResponse.t) :
  OpenAILLM.isSupported (ChatCompletionRequest.Model req) = true ->
  OpenAILLM.buildRequest req false = Return r ->
  openai.Client.CreateChatCompletion o r = inl resp ->
  fst (OpenAILLM.CreateChatCompletion o req)
  = match first_unknown_finish (openai.ChatCompletionResponse.Choices resp) with
    | Some reason => Fail (Errorf ("default case reason: " +:+ reason))
    | None =>
        Return (ChatCompletionResponse.mk (openai.ChatCompletionResponse.ID resp)
                  (map openai_choice (openai.ChatCompletionResponse.Choices resp))
                  (openai.ChatCompletionResponse.Usage resp))
    end.
Proof.
  intros Hs Hr Ho. unfold OpenAILLM.CreateChatCompletion.
  rewrite Hs, Hr. cbn [negb]. rewrite Ho, convertChoices_all_or_nothing.
  destruct (first_unknown_finish _); reflexivity.
Qed.

Lemma openai_response_all_or_nothing_witness :
  let resp := openai.ChatCompletionResponse.mk "chatcmpl-1"
                [openai.ChatCompletionChoice.mk 0
                   (openai.ChatCompletionMessage.mk "assistant" "Hello" [] [] "") "stop";
                 openai.ChatCompletionChoice.mk 1
                   (openai.ChatCompletionMessage.mk "assistant" "Hi" [] [] "") "refusal"]
                (Usage.mk 3 2 5) in
  let o := openai.Client.mk (fun _ => inl resp) (fun _ => inr io_EOF) in
  fst (OpenAILLM.CreateChatCompletion o (simple_request ModelGPT4o))
  = Fail (Errorf "default case reason: refusal").
Proof.
  intros resp o.
  destruct (OpenAILLM.buildRequest (simple_request ModelGPT4o) false) as [r| |] eqn:Hr;
    try discriminate Hr.
  exact (openai_response_all_or_nothing o (simple_request ModelGPT4o) r resp
           eq_refl Hr eq_refl).
Defined.

(** ** OpenAI: the store of the stream wrapper *)

Lemma deref_insert_ID (h : list ToolCall.t) (p q : nat) (x : ToolCall.t) :
  ToolCall.ID x = ToolCall.ID (openAIStreamWrapper.deref h p) ->
  ToolCall.ID (openAIStreamWrapper.deref (<[p := x]> h) q)
  = ToolCall.ID (openAIStreamWrapper.deref h q).
Proof.
  unfold openAIStreamWrapper.deref. rewrite !nth_lookup, list_lookup_insert.
  intros Hx.
  destruct (decide (p = q /\ p < length h)) as [[Hpq Hlt]|]; [|reflexivity].
  subst q. destruct (lookup_lt_is_Some_2 h p Hlt) as [y Hy].
  rewrite Hy in *. exact Hx.
Qed.

Lemma openai_buffer_ok_heap (h h' : list ToolCall.t) (current : option nat)
  (buffer : gmap string nat) :
  openai_buffer_ok h current buffer ->
  List.length h' = List.length h ->
  (forall q, ToolCall.ID (openAIStreamWrapper.deref h' q)
             = ToolCall.ID (openAIStreamWrapper.deref h q)) ->
  openai_buffer_ok h' current buffer.
Proof.
  intros [Hb Hc] Hlen Hids. split.
  - intros id p Hp. destruct (Hb id p Hp) as (H1 & H2 & H3).
    rewrite Hlen, Hids. auto.
  - intros p Hp. rewrite Hids. auto.
Qed.

Lemma openai_buffer_ok_delete (h : list ToolCall.t) (current : option nat)
  (buffer : gmap string nat) (id : string) :
  openai_buffer_ok h current buffer ->
  openai_buffer_ok h
    (match current with
     | Some cur =>
         if streq (ToolCall.ID (openAIStreamWrapper.deref h cur)) id then None else Some cur
     | None => None
     end)
    (delete id buffer).
Proof.
  intros [Hb Hc]. split.
  - intros id' p Hp. apply lookup_delete_Some in Hp as [_ Hp]. auto.
  - intros p Hp. destruct current as [cur|]; [|discriminate Hp].
    destruct (streq _ id) eqn:E; [discriminate Hp|].
    injection Hp as <-. apply streq_false in E.
    rewrite lookup_delete_ne by congruence. auto.
Qed.

Lemma accumulate_ok (st : openAIStreamWrapper.loopState) (p : nat) (tc : openai.ToolCall.t) :
  openai_loop_ok st -> openai_loop_ok (openAIStreamWrapper.accumulate st p tc).
Proof.
  unfold openai_loop_ok. intros Hok. unfold openAIStreamWrapper.accumulate.
  set (h1 := if negb (streq (openai.FunctionCall.Name (openai.ToolCall.Function tc)) "")
             then <[p := openAIStreamWrapper.setName
                           (openAIStreamWrapper.deref (openAIStreamWrapper.l_heap st) p)
                           (openai.FunctionCall.Name (openai.ToolCall.Function tc))]>
                    (openAIStreamWrapper.l_heap st)
             else openAIStreamWrapper.l_heap st).
  assert (H1 : openai_buffer_ok h1 (openAIStreamWrapper.l_current st)
                 (openAIStreamWrapper.l_buffer st)).
  { subst h1. destruct (negb _); [|exact Hok].
    apply (openai_buffer_ok_heap _ _ _ _ Hok); [apply length_insert|].
    intros q. apply deref_insert_ID. reflexivity. }
  cbv zeta.
  destruct (negb (streq (openai.FunctionCall.Arguments _) "")); [|exact H1].
  set (h2 := <[p := openAIStreamWrapper.appendArguments (openAIStreamWrapper.deref h1 p)
                      (openai.FunctionCall.Arguments (openai.ToolCall.Function tc))]> h1).
  assert (H2 : openai_buffer_ok h2 (openAIStreamWrapper.l_current st)
                 (openAIStreamWrapper.l_buffer st)).
  { apply (openai_buffer_ok_heap _ _ _ _ H1); [apply length_insert|].
    intros q. apply deref_insert_ID. reflexivity. }
  destruct (isValidJSON _); [|exact H2].
  cbn [openAIStreamWrapper.l_heap openAIStreamWrapper.l_current openAIStreamWrapper.l_buffer].
  apply openai_buffer_ok_delete. exact H2.
Qed.

Lemma deref_app_lt (h : list ToolCall.t) (obj : ToolCall.t) (q : nat) :
  (q < List.length h)%nat ->
  openAIStreamWrapper.deref (h ++ [obj]) q = openAIStreamWrapper.deref h q.
Proof. intros Hq. unfold openAIStreamWrapper.deref. now apply app_nth1. Qed.

Lemma handleToolCallDelta_ok (st : openAIStreamWrapper.loopState) (tc : openai.ToolCall.t) :
  openai_loop_ok st -> openai_loop_ok (openAIStreamWrapper.handleToolCallDelta st tc).
Proof.
  intros Hok. unfold openAIStreamWrapper.handleToolCallDelta. cbv zeta.
  destruct (openAIStreamWrapper.l_buffer st !! openai.ToolCall.ID tc) as [p|] eqn:Hlook.
  - now apply accumulate_ok.
  - destruct (streq (openai.ToolCall.ID tc) "") eqn:Hid.
    + destruct (openAIStreamWrapper.l_current st) as [cur|] eqn:Hcur; [|exact Hok].
      destruct (negb (streq (openai.FunctionCall.Arguments _) "")); [|exact Hok].
      set (h2 := <[cur := _]> (openAIStreamWrapper.l_heap st)).
      assert (H2 : openai_buffer_ok h2 (Some cur) (openAIStreamWrapper.l_buffer st)).
      { unfold openai_loop_ok in Hok. rewrite Hcur in Hok.
        apply (openai_buffer_ok_heap _ _ _ _ Hok); [apply length_insert|].
        intros q. apply deref_insert_ID. reflexivity. }
      destruct (isValidJSON _).
      * unfold openai_loop_ok.
        cbn [openAIStreamWrapper.l_heap openAIStreamWrapper.l_current
             openAIStreamWrapper.l_buffer].
        pose proof (openai_buffer_ok_delete _ _ _
                      (ToolCall.ID (openAIStreamWrapper.deref h2 cur)) H2) as H3.
        cbv beta iota in H3. rewrite streq_refl in H3. exact H3.
      * unfold openai_loop_ok.
        cbn [openAIStreamWrapper.l_heap openAIStreamWrapper.l_current
             openAIStreamWrapper.l_buffer].
        exact H2.
    + apply accumulate_ok. unfold openai_loop_ok.
      cbn [openAIStreamWrapper.l_heap openAIStreamWrapper.l_current
           openAIStreamWrapper.l_buffer].
      destruct Hok as [Hb Hc]. apply streq_false in Hid. split.
      * intros id q Hq. apply lookup_insert_Some in Hq as [[<- <-]|[Hne Hq]].
        -- split; [exact Hid|]. split; [rewrite length_app; simpl; lia|].
           rewrite deref_last. reflexivity.
        -- destruct (Hb id q Hq) as (H1 & H2 & H3).
           split; [exact H1|]. split; [rewrite length_app; simpl; lia|].
           rewrite deref_app_lt by exact H2. exact H3.
      * intros q Hq. injection Hq as <-. rewrite deref_last.
        cbn [ToolCall.ID]. apply lookup_insert_eq.
Qed.

Lemma handleToolCalls_ok (deltas : list openai.ToolCall.t) :
  forall st : openAIStreamWrapper.loopState,
  openai_loop_ok st ->
  openai_loop_ok (fold_left openAIStreamWrapper.handleToolCallDelta deltas st).
Proof.
  induction deltas as [|tc deltas IH]; intros st H; cbn [fold_left]; [exact H|].
  apply IH. now apply handleToolCallDelta_ok.
Qed.

Lemma openai_handleChoice_ok (w : openAIStreamWrapper.t)
  (c : openai.ChatCompletionStreamChoice.t) :
  openai_wrapper_ok w -> openai_wrapper_ok (snd (openAIStreamWrapper.handleChoice w c)).
Proof.
  intros Hok. unfold openAIStreamWrapper.handleChoice. cbv zeta.
  assert (H : openai_loop_ok
                (openAIStreamWrapper.handleToolCalls w
                   (openai.ChatCompletionStreamChoiceDelta.ToolCalls
                      (openai.ChatCompletionStreamChoice.Delta c))))
    by (apply handleToolCalls_ok; exact Hok).
  destruct (convertFromOpenAIFinishReason _); exact H.
Qed.

Lemma openai_handleChoices_ok (cs : list openai.ChatCompletionStreamChoice.t) :
  forall w : openAIStreamWrapper.t,
  openai_wrapper_ok w -> openai_wrapper_ok (snd (openAIStreamWrapper.handleChoices w cs)).
Proof.
  induction cs as [|c cs IH]; intros w Hok; cbn [openAIStreamWrapper.handleChoices];
    [exact Hok|].
  pose proof (openai_handleChoice_ok w c Hok) as H1.
  destruct (openAIStreamWrapper.handleChoice w c) as [[choice|e|p] w1]; cbn [snd] in H1;
    try exact H1.
  pose proof (IH w1 H1) as H2.
  destruct (openAIStreamWrapper.handleChoices w1 cs) as [[choices|e|p] w2]; exact H2.
Qed.

Lemma openai_Recv_ok (w : openAIStreamWrapper.t) :
  openai_wrapper_ok w -> openai_wrapper_ok (snd (openAIStreamWrapper.Recv w)).
Proof.
  intros Hok. unfold openAIStreamWrapper.Recv.
  destruct (openai.ChatCompletionStream.Recv _) as [[resp|err] stream'].
  - pose proof (openai_handleChoices_ok (openai.ChatCompletionStreamResponse.Choices resp)
                  (openAIStreamWrapper.mk stream' (openAIStreamWrapper.heap w)
                     (openAIStreamWrapper.currentToolCall w)
                     (openAIStreamWrapper.toolCallBuffer w)) Hok) as H.
    destruct (openAIStreamWrapper.handleChoices _ _) as [[choices|e|p] w1]; exact H.
  - destruct (isEOF err); [exact Hok|].
    destruct (errors_As_APIError err) as [[code message]|]; exact Hok.
Qed.

Lemma openai_recvs_ok (n : nat) :
  forall w : openAIStreamWrapper.t,
  openai_wrapper_ok w -> openai_wrapper_ok (snd (openai_recvs n w)).
Proof.
  induction n as [|n IH]; intros w Hok; cbn [openai_recvs]; [exact Hok|].
  pose proof (openai_Recv_ok w Hok) as H1.
  destruct (openAIStreamWrapper.Recv w) as [o w1]. cbn [snd] in H1.
  pose proof (IH w1 H1) as H2.
  destruct (openai_recvs n w1) as [os w2]. exact H2.
Qed.

(** The store of an OpenAI stream wrapper stays consistent however the
    stream goes, errors included: after any number of [Recv] calls on a
    wrapper made by [newOpenAIStreamWrapper], every key of [toolCallBuffer]
    is a non-empty ID and designates a tool call with that ID, and
    [currentToolCall], when it is set, is the call buffered under its own ID.
    So a fragment without ID is never filed under the empty key. *)
Theorem openai_buffer_invariant (n : nat) (stream : openai.ChatCompletionStream.t) :
  openai_wrapper_ok
    (snd (openai_recvs n (openAIStreamWrapper.newOpenAIStreamWrapper stream))).
Proof.
  apply openai_recvs_ok. split.
  - intros id p Hp. cbn in Hp. rewrite lookup_empty in Hp. discriminate Hp.
  - intros p Hp. discriminate Hp.
Qed.

(** ** The generic consumer on any stream *)

Lemma tokens_text_app (a b : list action) :
  tokens_text (a ++ b) = tokens_text a +:+ tokens_text b.
Proof.
  induction a as [|x a IH]; [reflexivity|].
  destruct x; cbn [app tokens_text]; try exact IH.
  rewrite IH, string_app_assoc. reflexivity.
Qed.

Lemma handleChoices_protocol (cs : list Choice.t) :
  forall (fullContent : string) (toolCalls : list ToolCall.t)
         (acts : list action) (r : choices_result),
  handleChoices cs fullContent toolCalls = (acts, r) ->
  match r with
  | NextChunk fullContent' _ =>
      forallb is_Recv_or_token acts = true
      /\ fullContent' = fullContent +:+ tokens_text acts
  | Completed =>
      exists pre final,
        acts = pre ++ final /\ forallb is_Recv_or_token pre = true
        /\ run_ending (fullContent +:+ tokens_text pre) final
  | ChoicesPanicked _ => forallb is_Recv_or_token acts = true
  end.
Proof.
  induction cs as [|c cs IH]; intros fc tcs acts r H.
  - injection H as <- <-. split; [reflexivity | now rewrite string_app_nil_r].
  - cbn [handleChoices] in H. cbv zeta in H.
    set (content := OutputMessage.Content (Choice.Message c)) in *.
    assert (Htok : exists tokenActs fc',
               (if Nat.ltb 0 (String.length content) then [OnToken content] else [])
               = tokenActs
               /\ (if Nat.ltb 0 (String.length content) then fc +:+ content else fc) = fc'
               /\ forallb is_Recv_or_token tokenActs = true
               /\ fc' = fc +:+ tokens_text tokenActs).
    { destruct (Nat.ltb 0 (String.length content)); eexists _, _;
        repeat split; cbn [tokens_text forallb is_Recv_or_token andb];
        rewrite ?string_app_nil_r; reflexivity. }
    destruct Htok as (tokenActs & fc' & E1 & E2 & Hall & Hfc).
    rewrite E1, E2 in H. clear E1 E2.
    set (tcs' := if Nat.ltb 0 (List.length (OutputMessage.ToolCalls (Choice.Message c)))
                 then tcs ++ OutputMessage.ToolCalls (Choice.Message c) else tcs) in *.
    destruct (streq (Choice.FinishReason c) FinishReasonToolCalls) eqn:Htc.
    + destruct (lastToolCall tcs') as [tc|] eqn:Hlast.
      * apply streq_true in Htc. rewrite Htc in H.
        change (negb (streq FinishReasonToolCalls FinishReasonNull)) with true in H.
        cbv iota in H. injection H as <- <-.
        exists tokenActs, [OnToolCall tc; OnComplete (OutputMessage.mk "assistant" fc' tcs')].
        split; [rewrite <- app_assoc; reflexivity|]. split; [exact Hall|].
        cbn [run_ending OutputMessage.Role OutputMessage.Content OutputMessage.ToolCalls].
        rewrite <- Hfc. auto.
      * injection H as <- <-. exact Hall.
    + destruct (negb (streq (Choice.FinishReason c) FinishReasonNull)).
      * injection H as <- <-.
        exists tokenActs, [OnComplete (OutputMessage.mk "assistant" fc' tcs')].
        split; [reflexivity|]. split; [exact Hall|].
        cbn [run_ending OutputMessage.Role OutputMessage.Content]. rewrite <- Hfc. auto.
      * destruct (handleChoices cs fc' tcs') as [acts' r'] eqn:Hrest.
        injection H as <- <-. specialize (IH _ _ _ _ Hrest). destruct r' as [fc2 tcs2| |p].
        -- destruct IH as [Hall' Hfc']. split; [now rewrite forallb_app, Hall, Hall'|].
           rewrite tokens_text_app, <- string_app_assoc, <- Hfc. exact Hfc'.
        -- destruct IH as (pre & final & -> & Hpre & Hend).
           exists (tokenActs ++ pre), final. split; [apply app_assoc|].
           split; [now rewrite forallb_app, Hall, Hpre|].
           rewrite tokens_text_app, <- string_app_assoc, <- Hfc. exact Hend.
        -- now rewrite forallb_app, Hall, IH.
Qed.

Lemma pump_protocol {Stream : Type}
  (Recv : Stream -> outcome ChatCompletionResponse.t * Stream) (fuel : nat) :
  forall (stream stream' : Stream) (fullContent : string) (toolCalls : list ToolCall.t)
         (acts : list action) (res : run_result),
  pump Recv fuel stream fullContent toolCalls = (acts, res, stream') ->
  res <> StillPumping ->
  exists pre final,
    acts = pre ++ final /\ forallb is_Recv_or_token pre = true
    /\ run_ending (fullContent +:+ tokens_text pre) final.
Proof.
  induction fuel as [|fuel IH]; intros s s' fc tcs acts res H Hres.
  - injection H as _ <- _. congruence.
  - cbn [pump] in H. destruct (Recv s) as [[chunk|err|p] s1].
    + destruct (handleChoices (ChatCompletionResponse.Choices chunk) fc tcs)
        as [acts0 r] eqn:Hc.
      pose proof (handleChoices_protocol _ _ _ _ _ Hc) as Hp.
      destruct r as [fc1 tcs1| |p].
      * destruct (pump Recv fuel s1 fc1 tcs1) as [[acts1 res1] s2] eqn:Hrest.
        injection H as <- <- <-. destruct Hp as [Hall Hfc].
        destruct (IH _ _ _ _ _ _ Hrest Hres) as (pre & final & -> & Hpre & Hend).
        exists (stream_Recv :: acts0 ++ pre), final.
        split; [cbn [app]; now rewrite app_assoc|].
        split; [cbn [forallb is_Recv_or_token andb]; now rewrite forallb_app, Hall, Hpre|].
        cbn [tokens_text]. rewrite tokens_text_app, <- string_app_assoc, <- Hfc. exact Hend.
      * injection H as <- <- <-. destruct Hp as (pre & final & -> & Hpre & Hend).
        exists (stream_Recv :: pre), final. repeat split; auto.
      * injection H as <- <- <-. exists (stream_Recv :: acts0), [].
        split; [now rewrite app_nil_r|]. split; [exact Hp | exact I].
    + destruct (isEOF err) eqn:He; injection H as <- <- <-.
      * exists [stream_Recv], []. repeat split.
      * exists [stream_Recv], [OnError err]. repeat split. exact He.
    + injection H as <- <- <-. exists [stream_Recv], []. repeat split.
Qed.

(** What a handler sees of [StreamChatCompletion], on any implementation of
    the stream and whatever its deltas hold (several choices, errors,
    panics).  Once the stream is created and the function has left its loop,
    the calls it made are: [OnStart]; then only calls of [Recv] and of
    [OnToken]; then nothing more, or [OnError] with an error that is not
    [io.EOF], or [OnComplete], preceded or not by one [OnToolCall]; and last
    [Close].  The message of [OnComplete] has the role "assistant", its
    content is exactly the tokens handed to [OnToken], in order, and the call
    handed to [OnToolCall] is the last one of its tool calls.  So
    [OnComplete] and [OnError] exclude each other and nothing but [Close]
    follows them. *)
Theorem StreamChatCompletion_handler_protocol {Stream : Type}
  (Recv : Stream -> outcome ChatCompletionResponse.t * Stream)
  (Close : Stream -> outcome unit * Stream) (fuel : nat) (stream : Stream)
  (acts : list action) (res : run_result) (stream' : option Stream) :
  StreamChatCompletion Recv Close fuel (Return stream) = (acts, res, stream') ->
  res <> StillPumping ->
  exists pre final,
    acts = OnStart :: pre ++ final ++ [stream_Close]
    /\ forallb is_Recv_or_token pre = true
    /\ run_ending (tokens_text pre) final.
Proof.
  unfold StreamChatCompletion.
  destruct (pump Recv fuel stream "" []) as [[acts0 res0] s1] eqn:Hp.
  intros H Hres.
  assert (Hres0 : res0 <> StillPumping).
  { intros ->. injection H as _ <- _. congruence. }
  destruct (pump_protocol Recv fuel _ _ _ _ _ _ Hp Hres0) as (pre & final & -> & Hpre & Hend).
  exists pre, final. split; [|split; [exact Hpre | exact Hend]].
  destruct (Close s1) as [c s2].
  destruct res0; try congruence; injection H as <- _ _; now rewrite <- app_assoc.
Qed.

Lemma StreamChatCompletion_handler_protocol_witness :
  let script := [Return (ChatCompletionResponse.mk ""
                           [Choice.mk 0 (OutputMessage.mk RoleAssistant "Hel" []) FinishReasonNull;
                            Choice.mk 1 (OutputMessage.mk RoleAssistant "lo" []) FinishReasonStop;
                            Choice.mk 2 (OutputMessage.mk RoleAssistant "!" []) FinishReasonStop]
                           Usage.zero)] in
  exists pre final,
    [OnStart; stream_Recv; OnToken "Hel"; OnToken "lo";
     OnComplete (OutputMessage.mk "assistant" "Hello" []); stream_Close]
    = OnStart :: pre ++ final ++ [stream_Close]
    /\ forallb is_Recv_or_token pre = true
    /\ run_ending (tokens_text pre) final.
Proof.
  intros script.
  refine (StreamChatCompletion_handler_protocol scripted_Recv scripted_Close 3 script
            _ (Returned None) (Some []) _ _).
  - vm_compute. reflexivity.
  - discriminate.
Defined.

(** The loop of the consumer sees a stream only through the outcomes of its
    [Recv] calls. *)
Lemma pump_recvs {Stream : Type}
  (Recv : Stream -> outcome ChatCompletionResponse.t * Stream) (fuel : nat) :
  forall (stream : Stream) (fullContent : string) (toolCalls : list ToolCall.t),
  fst (pump Recv fuel stream fullContent toolCalls)
  = fst (pump scripted_Recv fuel (fst (recvs Recv fuel stream)) fullContent toolCalls).
Proof.
  induction fuel as [|fuel IH]; intros s fc tcs; [reflexivity|].
  cbn [pump recvs]. destruct (Recv s) as [o s1].
  specialize (IH s1). destruct (recvs Recv fuel s1) as [os s2]. cbn [fst] in *.
  cbn [scripted_Recv].
  destruct o as [chunk|err|p].
  - destruct (handleChoices _ fc tcs) as [acts0 [fc1 tcs1| |p]]; try reflexivity.
    specialize (IH fc1 tcs1).
    destruct (pump Recv fuel s1 fc1 tcs1) as [[acts1 res1] s3].
    destruct (pump scripted_Recv fuel os fc1 tcs1) as [[acts2 res2] s4].
    cbn [fst] in *. now injection IH as <- <-.
  - destruct (isEOF err); reflexivity.
  - reflexivity.
Qed.

(** Fuel beyond what the loop needs changes nothing. *)
Lemma pump_more_fuel {Stream : Type}
  (Recv : Stream -> outcome ChatCompletionResponse.t * Stream) (fuel k : nat) :
  forall (stream : Stream) (fullContent : string) (toolCalls : list ToolCall.t),
  snd (fst (pump Recv fuel stream fullContent toolCalls)) <> StillPumping ->
  pump Recv (fuel + k) stream fullContent toolCalls
  = pump Recv fuel stream fullContent toolCalls.
Proof.
  induction fuel as [|fuel IH]; intros s fc tcs H; [now contradiction H|].
  cbn [pump Nat.add] in *. destruct (Recv s) as [[chunk|err|p] s1]; try reflexivity.
  destruct (handleChoices _ fc tcs) as [acts0 [fc1 tcs1| |p]]; try reflexivity.
  specialize (IH s1 fc1 tcs1).
  destruct (pump Recv fuel s1 fc1 tcs1) as [[acts1 res1] s3].
  rewrite IH by exact H. reflexivity.
Qed.

Lemma openai_recvs_recvs (n : nat) :
  forall w : openAIStreamWrapper.t,
  recvs openAIStreamWrapper.Recv n w = openai_recvs n w.
Proof.
  induction n as [|n IH]; intros w; [reflexivity|].
  cbn [recvs openai_recvs]. destruct (openAIStreamWrapper.Recv w) as [o w1].
  now rewrite IH.
Qed.

Lemma openai_recvs_add (n m : nat) :
  forall w : openAIStreamWrapper.t,
  openai_recvs (n + m) w
  = let '(os, w1) := openai_recvs n w in
    let '(os', w2) := openai_recvs m w1 in
    (os ++ os', w2).
Proof.
  induction n as [|n IH]; intros w; cbn [Nat.add openai_recvs].
  - destruct (openai_recvs m w); reflexivity.
  - destruct (openAIStreamWrapper.Recv w) as [o w1]. rewrite IH.
    destruct (openai_recvs n w1) as [os w2].
    destruct (openai_recvs m w2) as [os' w3]. reflexivity.
Qed.

(** The [Recv] calls over the fragments of one tool call, from the fragment
    that opens its buffer to the one that completes it. *)
Lemma openai_recvs_call (w : openAIStreamWrapper.t) (first : openai.ToolCall.t)
  (more : list openai.ToolCall.t)
  (rest : list (openai.ChatCompletionStreamResponse.t + error)) :
  openai.ToolCall.ID first <> "" ->
  openAIStreamWrapper.toolCallBuffer w !! openai.ToolCall.ID first = None ->
  openAIStreamWrapper.toolCallBuffer w !! "" = None ->
  Forall (fun tc => openai.ToolCall.ID tc = openai.ToolCall.ID first
                    \/ openai.ToolCall.ID tc = "") more ->
  openai.ChatCompletionStream.recvs (openAIStreamWrapper.stream w)
  = map fragment_chunk (first :: more) ++ rest ->
  completes_at_last (opened first) (first :: more) = true ->
  openai_recvs (S (List.length more)) w
  = (repeat (Return (fragment_delta [])) (List.length more)
       ++ [Return (fragment_delta [fold_left absorb (first :: more) (opened first)])],
     openAIStreamWrapper.mk
       (openai.ChatCompletionStream.mk rest
          (openai.ChatCompletionStream.closes (openAIStreamWrapper.stream w)))
       (openAIStreamWrapper.heap w ++ [fold_left absorb (first :: more) (opened first)])
       None (openAIStreamWrapper.toolCallBuffer w)).
Proof.
  intros Hid Hfresh Hempty Hall Hrecvs Hlast.
  cbn [openai_recvs].
  rewrite (openai_Recv_fragment w first (map fragment_chunk more ++ rest)) by exact Hrecvs.
  cbv zeta.
  rewrite (handleToolCallDelta_first [] _ _ _ first Hid Hfresh).
  destruct more as [|tc more'].
  - cbn [completes_at_last] in Hlast. rewrite Hlast. reflexivity.
  - cbn [completes_at_last] in Hlast. apply andb_prop in Hlast as [Hnot Hlast].
    apply negb_true_iff in Hnot. rewrite Hnot.
    cbn [openAIStreamWrapper.toolCalls openAIStreamWrapper.l_heap
         openAIStreamWrapper.l_current openAIStreamWrapper.l_buffer].
    rewrite (openai_recvs_open (openai.ToolCall.ID first) (tc :: more')
               (map fragment_chunk (tc :: more') ++ rest) rest _
               (openAIStreamWrapper.heap w) (openAIStreamWrapper.toolCallBuffer w)
               (absorb (opened first) first)); auto.
    + cbn [List.length Nat.sub repeat app fold_left]. rewrite Nat.sub_0_r. reflexivity.
    + rewrite absorb_ID. reflexivity.
Qed.

(** [Recv] on a chunk that only carries the finish reason tool_calls. *)
Lemma openai_Recv_tool_calls_chunk (w : openAIStreamWrapper.t)
  (rest : list (openai.ChatCompletionStreamResponse.t + error)) :
  openai.ChatCompletionStream.recvs (openAIStreamWrapper.stream w)
  = openai_chunk [] openai.FinishReasonToolCalls :: rest ->
  openAIStreamWrapper.Recv w
  = (Return (ChatCompletionResponse.mk ""
               [Choice.mk 0 (OutputMessage.mk "" "" []) FinishReasonToolCalls] Usage.zero),
     openAIStreamWrapper.mk
       (openai.ChatCompletionStream.mk rest
          (openai.ChatCompletionStream.closes (openAIStreamWrapper.stream w)))
       (openAIStreamWrapper.heap w) (openAIStreamWrapper.currentToolCall w)
       (openAIStreamWrapper.toolCallBuffer w)).
Proof.
  intros Hrecvs.
  unfold openAIStreamWrapper.Recv, openai.ChatCompletionStream.Recv.
  rewrite Hrecvs. reflexivity.
Qed.

Lemma flat_map_repeat_Recv (c : Choice.t) (n : nat) :
  spec_tokens c = [] ->
  flat_map (fun c => stream_Recv :: spec_tokens c) (repeat c n) = repeat stream_Recv n.
Proof.
  intros Hc. induction n as [|n IH]; [reflexivity|].
  cbn [repeat flat_map]. rewrite Hc, IH. reflexivity.
Qed.

Lemma spec_calls_repeat_nil (c : Choice.t) (n : nat) (l : list Choice.t) :
  OutputMessage.ToolCalls (Choice.Message c) = [] ->
  spec_calls (repeat c n ++ l) = spec_calls l.
Proof.
  intros Hc. induction n as [|n IH]; [reflexivity|].
  cbn [repeat app]. unfold spec_calls in *. cbn [flat_map]. rewrite Hc, IH. reflexivity.
Qed.

Lemma spec_text_repeat_nil (c : Choice.t) (n : nat) (l : list Choice.t) :
  OutputMessage.Content (Choice.Message c) = "" ->
  spec_text (repeat c n ++ l) = spec_text l.
Proof.
  intros Hc. induction n as [|n IH]; [reflexivity|].
  cbn [repeat app]. unfold spec_text in *. cbn [fold_right]. rewrite Hc, IH. reflexivity.
Qed.

(** From the vendor's chunks to the handler.  An OpenAI stream brings the
    fragments [first :: more] of one tool call, one chunk each, the last
    fragment being the first that makes the arguments parse, and then a
    chunk whose finish reason is tool_calls.  [StreamChatCompletion], run on
    the wrapper of that stream, calls [Recv] once per chunk, hands no token
    out, and then calls [OnToolCall] once, with the whole call (the ID of the
    first fragment, the fragments put end to end as arguments), [OnComplete]
    with the assistant message that holds this call and no text, and
    [Close]; it returns [nil]. *)
Theorem openai_fragments_reach_handler (first : openai.ToolCall.t)
  (more : list openai.ToolCall.t)
  (rest : list (openai.ChatCompletionStreamResponse.t + error))
  (closes : list (option error)) (fuel : nat) :
  openai.ToolCall.ID first <> "" ->
  Forall (fun tc => openai.ToolCall.ID tc = openai.ToolCall.ID first
                    \/ openai.ToolCall.ID tc = "") more ->
  completes_at_last (opened first) (first :: more) = true ->
  (List.length more + 2 <= fuel)%nat ->
  exists call : ToolCall.t,
    ToolCall.ID call = openai.ToolCall.ID first
    /\ ToolCallFunction.Arguments (ToolCall.Function call) = fragments_text (first :: more)
    /\ fst (StreamChatCompletion openAIStreamWrapper.Recv openAIStreamWrapper.Close fuel
              (Return (openAIStreamWrapper.newOpenAIStreamWrapper
                         (openai.ChatCompletionStream.mk
                            (map fragment_chunk (first :: more)
                               ++ openai_chunk [] openai.FinishReasonToolCalls :: rest)
                            closes))))
       = (OnStart :: repeat stream_Recv (List.length more + 2)
            ++ [OnToolCall call; OnComplete (OutputMessage.mk "assistant" "" [call]);
                stream_Close],
          Returned None).
Proof.
  intros Hid Hall Hlast Hfuel.
  set (call := fold_left absorb (first :: more) (opened first)).
  exists call.
  split; [unfold call; now rewrite fold_absorb_ID|].
  split; [unfold call; now rewrite fold_absorb_Arguments|].
  set (w := openAIStreamWrapper.newOpenAIStreamWrapper _).
  set (n := List.length more).
  set (c0 := Choice.mk 0 (OutputMessage.mk "" "" []) FinishReasonNull).
  set (c1 := Choice.mk 0 (OutputMessage.mk "" "" [call]) FinishReasonNull).
  set (c2 := Choice.mk 0 (OutputMessage.mk "" "" []) FinishReasonToolCalls).
  assert (Hrecvs : fst (recvs openAIStreamWrapper.Recv (n + 2) w)
                   = map (fun c => Return (ChatCompletionResponse.mk "" [c] Usage.zero))
                       (repeat c0 n ++ [c1])
                     ++ ending_outcome (EndsWithDelta c2) :: []).
  { rewrite openai_recvs_recvs. replace (n + 2) with (S n + 1) by lia.
    rewrite openai_recvs_add. unfold n.
    rewrite (openai_recvs_call w first more
               (openai_chunk [] openai.FinishReasonToolCalls :: rest) Hid);
      [|reflexivity|reflexivity|exact Hall|reflexivity|exact Hlast].
    cbn [openai_recvs].
    rewrite (openai_Recv_tool_calls_chunk _ rest) by reflexivity.
    cbn [fst]. rewrite map_app, map_repeat. cbn [map ending_outcome].
    rewrite <- !app_assoc. reflexivity. }
  assert (Hpump : fst (pump openAIStreamWrapper.Recv (n + 2) w "" [])
                  = (repeat stream_Recv (n + 2)
                       ++ [OnToolCall call; OnComplete (OutputMessage.mk "assistant" "" [call])],
                     Returned None)).
  { rewrite pump_recvs, Hrecvs.
    rewrite (pump_scripted (repeat c0 n ++ [c1]) "" [] (n + 2) (EndsWithDelta c2) []).
    - cbn [fst spec_result]. f_equal.
      rewrite flat_map_app, (flat_map_repeat_Recv c0 n eq_refl).
      rewrite <- (app_assoc (repeat c0 n) [c1] [c2]).
      rewrite !spec_calls_repeat_nil, !spec_text_repeat_nil by reflexivity.
      replace (n + 2) with (n + (1 + 1)) by lia. rewrite !repeat_app, <- !app_assoc.
      reflexivity.
    - apply Forall_app. split; [apply Forall_forall; intros x Hx;
                                 apply list_elem_of_In, repeat_spec in Hx; now subst x|].
      repeat constructor.
    - split; [discriminate|]. intros _.
      rewrite <- (app_assoc (repeat c0 n) [c1] [c2]).
      rewrite spec_calls_repeat_nil by reflexivity. discriminate.
    - rewrite length_app, repeat_length. simpl. lia. }
  unfold StreamChatCompletion.
  replace fuel with ((n + 2) + (fuel - (n + 2))) by (unfold n; lia).
  rewrite pump_more_fuel by (rewrite Hpump; discriminate).
  destruct (pump openAIStreamWrapper.Recv (n + 2) w "" []) as [[acts res] w1].
  cbn [fst] in Hpump. injection Hpump as -> ->.
  unfold openAIStreamWrapper.Close.
  destruct (openai.ChatCompletionStream.Close _) as [[err|] s1]; cbn [fst];
    rewrite <- app_assoc; reflexivity.
Qed.

Lemma openai_fragments_reach_handler_witness :
  exists call : ToolCall.t,
    ToolCall.ID call = "call_1"
    /\ ToolCallFunction.Arguments (ToolCall.Function call)
       = fragments_text [paris_call_1; paris_call_2]
    /\ fst (StreamChatCompletion openAIStreamWrapper.Recv openAIStreamWrapper.Close 5
              (Return (openAIStreamWrapper.newOpenAIStreamWrapper
                         (openai.ChatCompletionStream.mk
                            (map fragment_chunk [paris_call_1; paris_call_2]
                               ++ openai_chunk [] openai.FinishReasonToolCalls :: [])
                            []))))
       = (OnStart :: repeat stream_Recv (1 + 2)
            ++ [OnToolCall call; OnComplete (OutputMessage.mk "assistant" "" [call]);
                stream_Close],
          Returned None).
Proof.
  apply (openai_fragments_reach_handler paris_call_1 [paris_call_2] [] [] 5).
  - discriminate.
  - repeat constructor.
  - vm_compute. reflexivity.
  - simpl. lia.
Defined.

(** ** encoding/json: a complete object is not the start of another one *)

Ltac json_unfold :=
  unfold json.stepByte, json.doBeginValue, json.doBeginString, json.expect, json.do0,
    json.doESign, json.doEndValue, json.doEndTop, json.popParseState, json.pushParseState,
    json.setTop, json.setStep, json.error_;
  cbn [json.step json.endTop json.parseState json.err].

Ltac json_cases :=
  repeat match goal with
         | |- context [if ?b then _ else _] => destruct b
         end.

Lemma json_stepByte_err (s : json.scanner) (c : ascii) :
  json.err s = true -> json.err (json.stepByte s c) = true.
Proof.
  destruct s as [st et ps er]. cbn [json.err]. intros ->.
  destruct st; json_unfold; destruct ps as [|[] [|k ps]];
    cbn [json.step json.endTop json.parseState json.err]; json_cases; reflexivity.
Qed.

Lemma json_scan_err (data : list ascii) :
  forall s : json.scanner, json.err s = true -> json.err (json_scan s data) = true.
Proof.
  induction data as [|c data IH]; intros s H; [exact H|].
  apply IH. now apply json_stepByte_err.
Qed.

Lemma json_inside_step (s : json.scanner) (c : ascii) :
  json_inside s = true -> json_started (json.stepByte s c) = true.
Proof.
  destruct s as [st et ps er]. unfold json_inside. cbn [json.parseState json.endTop json.err].
  destruct ps as [|k ps]; [discriminate|]. destruct et; [discriminate|].
  destruct er; [discriminate|]. intros _.
  destruct st; json_unfold; destruct k; destruct ps as [|k' ps];
    cbn [json.step json.endTop json.parseState json.err]; json_cases; reflexivity.
Qed.

Lemma json_in_null_step (s : json.scanner) (c : ascii) :
  json_in_null s = true -> json_started (json.stepByte s c) = true.
Proof.
  destruct s as [st et ps er]. unfold json_in_null.
  cbn [json.parseState json.endTop json.err json.step].
  destruct ps as [|k ps]; [|discriminate]. destruct et; [discriminate|].
  destruct er; [discriminate|].
  destruct st; try discriminate; intros _; json_unfold; json_cases; reflexivity.
Qed.

Lemma json_closed_step (s : json.scanner) (c : ascii) :
  json_closed s = true ->
  if json.isSpace c then json_closed (json.stepByte s c) = true
  else json.err (json.stepByte s c) = true.
Proof.
  destruct s as [st et ps er]. unfold json_closed.
  cbn [json.parseState json.endTop json.err json.step].
  destruct ps as [|k ps]; [|discriminate]. destruct er; [discriminate|].
  destruct st; try discriminate; destruct et; try discriminate; intros _;
    json_unfold; destruct (json.isSpace c); reflexivity.
Qed.

Lemma json_started_step (s : json.scanner) (c : ascii) :
  json_started s = true -> json_started (json.stepByte s c) = true.
Proof.
  unfold json_started at 1. intros H.
  apply orb_prop in H as [H|H]; [apply orb_prop in H as [H|H];
                                 [apply orb_prop in H as [H|H]|]|].
  - now apply json_inside_step.
  - now apply json_in_null_step.
  - pose proof (json_closed_step s c H) as H1. unfold json_started.
    destruct (json.isSpace c); rewrite H1; rewrite ?orb_true_r; reflexivity.
  - unfold json_started. rewrite (json_stepByte_err s c H). now rewrite orb_true_r.
Qed.

Lemma json_started_scan (data : list ascii) :
  forall s : json.scanner, json_started s = true -> json_started (json_scan s data) = true.
Proof.
  induction data as [|c data IH]; intros s H; [exact H|].
  apply IH. now apply json_started_step.
Qed.

(** Of the states a text that starts an object can lead to, the scanner
    accepts the end of the input in the closed ones only. *)
Lemma json_started_eof (s : json.scanner) :
  json_started s = true -> json.eof s = true -> json_closed s = true.
Proof.
  destruct s as [st et ps er]. unfold json_started, json_inside, json_in_null, json_closed, json.eof.
  cbn [json.parseState json.endTop json.err json.step].
  destruct er; [discriminate 2|]. destruct et.
  - destruct ps as [|k ps]; cbn [negb andb orb]; [|discriminate 1].
    destruct st; cbn; try discriminate 1; reflexivity.
  - destruct ps as [|k ps]; cbn [negb andb orb].
    + destruct st; cbn; try discriminate 1; try discriminate 2; reflexivity.
    + intros _. destruct st; json_unfold; destruct k; destruct ps as [|k' ps]; cbn;
        try discriminate 1.
Qed.

Lemma json_closed_scan_eof (data : list ascii) :
  forall s : json.scanner,
  json_closed s = true -> json.eof (json_scan s data) = true ->
  forallb json.isSpace data = true.
Proof.
  induction data as [|c data IH]; intros s Hs Heof; [reflexivity|].
  cbn [forallb]. pose proof (json_closed_step s c Hs) as H.
  unfold json_scan in Heof. cbn [fold_left] in Heof. fold (json_scan (json.stepByte s c) data) in Heof.
  destruct (json.isSpace c); cbn [andb].
  - exact (IH _ H Heof).
  - apply (json_scan_err data) in H. unfold json.eof in Heof. rewrite H in Heof.
    discriminate Heof.
Qed.

Lemma json_topLevel_started (data : list ascii) :
  json.topLevelIsObjectOrNull data = true ->
  json_started (json_scan json.reset data) = true.
Proof.
  induction data as [|c data IH]; [discriminate 1|].
  cbn [json.topLevelIsObjectOrNull]. unfold json_scan. cbn [fold_left].
  destruct (json.isSpace c) eqn:Hsp.
  - assert (Hstay : json.stepByte json.reset c = json.reset).
    { unfold json.stepByte, json.reset, json.doBeginValue. cbn [json.step]. now rewrite Hsp. }
    rewrite Hstay. exact IH.
  - intros H. apply json_started_scan.
    apply orb_prop in H as [H|H]; apply Ascii.eqb_eq in H; subst c; reflexivity.
Qed.

Lemma list_ascii_of_string_app (a b : string) :
  list_ascii_of_string (a +:+ b) = list_ascii_of_string a ++ list_ascii_of_string b.
Proof.
  induction a as [|c a IH]; [reflexivity|].
  rewrite string_app_cons. cbn [list_ascii_of_string app]. now rewrite IH.
Qed.

(** The scanner on a text that continues a complete one. *)
Lemma json_checkValid_complete (a b : list ascii) :
  json.checkValid a = true ->
  json.topLevelIsObjectOrNull a = true ->
  json.checkValid (a ++ b) = true ->
  forallb json.isSpace b = true.
Proof.
  unfold json.checkValid. rewrite fold_left_app. intros Hva Hta Hvab.
  pose proof (json_topLevel_started _ Hta) as Hst.
  pose proof (json_started_eof _ Hst Hva) as Hcl.
  exact (json_closed_scan_eof _ _ Hcl Hvab).
Qed.

Lemma isValidJSON_checkValid (s : string) :
  isValidJSON s = true ->
  json.checkValid (list_ascii_of_string s) = true
  /\ json.topLevelIsObjectOrNull (list_ascii_of_string s) = true.
Proof.
  unfold isValidJSON, json.Unmarshal_map_ok. cbv zeta. intros H.
  apply andb_prop in H as [H _]. apply andb_prop in H as [H1 H2]. auto.
Qed.

(** A text that [isValidJSON] accepts is complete: it cannot be continued
    into another text that [isValidJSON] accepts except by white space.  So
    of the successive prefixes of the arguments of a tool call, the first one
    that parses holds the whole object; what may follow it is white space. *)
Theorem isValidJSON_complete (a b : string) :
  isValidJSON a = true -> isValidJSON (a +:+ b) = true -> all_space b = true.
Proof.
  intros Ha Hab.
  destruct (isValidJSON_checkValid a Ha) as [Hva Hta].
  destruct (isValidJSON_checkValid (a +:+ b) Hab) as [Hvab _].
  rewrite list_ascii_of_string_app in Hvab.
  unfold all_space.
  exact (json_checkValid_complete _ _ Hva Hta Hvab).
Qed.

Lemma isValidJSON_complete_witness :
  all_space (String " " (String "010" "")) = true.
Proof.
  apply (isValidJSON_complete paris_arguments (String " " (String "010" ""))).
  - vm_compute. reflexivity.
  - vm_compute. reflexivity.
Defined.

(** ** OpenAI: when the test of completion is exact *)

Lemma all_space_app (a b : string) :
  all_space (a +:+ b) = all_space a && all_space b.
Proof. unfold all_space. now rewrite list_ascii_of_string_app, forallb_app. Qed.

Lemma all_space_fragments_last (tcs : list openai.ToolCall.t) :
  forall d : openai.ToolCall.t,
  tcs <> [] ->
  all_space (fragments_text tcs) = true ->
  all_space (openai.FunctionCall.Arguments (openai.ToolCall.Function (List.last tcs d))) = true.
Proof.
  induction tcs as [|tc tcs IH]; intros d Hne H; [congruence|].
  cbn [fragments_text fold_right] in H. rewrite all_space_app in H.
  apply andb_prop in H as [H1 H2].
  destruct tcs as [|tc' tcs']; [exact H1|].
  change (List.last (tc :: tc' :: tcs') d) with (List.last (tc' :: tcs') d).
  apply IH; [discriminate | exact H2].
Qed.

Lemma completes_at_last_of_valid (tcs : list openai.ToolCall.t) :
  forall (buffered : ToolCall.t) (d : openai.ToolCall.t),
  tcs <> [] ->
  isValidJSON (ToolCallFunction.Arguments (ToolCall.Function buffered) +:+ fragments_text tcs)
  = true ->
  all_space (openai.FunctionCall.Arguments (openai.ToolCall.Function (List.last tcs d)))
  = false ->
  completes_at_last buffered tcs = true.
Proof.
  induction tcs as [|tc tcs IH]; intros buffered d Hne Hvalid Hlast; [congruence|].
  destruct tcs as [|tc' tcs'].
  - cbn [completes_at_last List.last] in *. unfold completes.
    rewrite absorb_Arguments.
    cbn [fragments_text fold_right] in Hvalid. rewrite string_app_nil_r in Hvalid.
    rewrite Hvalid, andb_true_r.
    destruct (streq (openai.FunctionCall.Arguments (openai.ToolCall.Function tc)) "") eqn:He;
      [|reflexivity].
    apply streq_true in He. rewrite He in Hlast. discriminate Hlast.
  - change (completes_at_last buffered (tc :: tc' :: tcs'))
      with (negb (completes buffered tc)
            && completes_at_last (absorb buffered tc) (tc' :: tcs')).
    change (List.last (tc :: tc' :: tcs') d) with (List.last (tc' :: tcs') d) in Hlast.
    change (fragments_text (tc :: tc' :: tcs'))
      with (openai.FunctionCall.Arguments (openai.ToolCall.Function tc)
            +:+ fragments_text (tc' :: tcs')) in Hvalid.
    rewrite <- string_app_assoc, <- absorb_Arguments in Hvalid.
    apply andb_true_intro. split.
    + apply negb_true_iff. destruct (completes buffered tc) eqn:Hc; [|reflexivity].
      unfold completes in Hc. apply andb_prop in Hc as [_ Hc].
      assert (Hsp : all_space (fragments_text (tc' :: tcs')) = true).
      { destruct (isValidJSON_checkValid _ Hc) as [Hva Hta].
        destruct (isValidJSON_checkValid _ Hvalid) as [Hvab _].
        rewrite list_ascii_of_string_app in Hvab.
        exact (json_checkValid_complete _ _ Hva Hta Hvab). }
      apply (all_space_fragments_last _ d) in Hsp; [|discriminate].
      rewrite Hsp in Hlast. discriminate Hlast.
    + apply (IH (absorb buffered tc) d); [discriminate | exact Hvalid | exact Hlast].
Qed.

(** The test of completion of the OpenAI wrapper is exact on a call whose
    arguments are a JSON object.  When the fragments [first :: more] of one
    tool call, one chunk each, put end to end, are a text [isValidJSON]
    accepts, and the last fragment brings something else than white space,
    then no earlier [Recv] hands a call out, and the last [Recv] hands out
    one call, with the ID of the first fragment and the whole text as its
    arguments: no prefix of the arguments is taken for the whole. *)
Theorem openai_reassembly_is_exact (first : openai.ToolCall.t)
  (more : list openai.ToolCall.t)
  (rest : list (openai.ChatCompletionStreamResponse.t + error))
  (closes : list (option error)) :
  openai.ToolCall.ID first <> "" ->
  Forall (fun tc => openai.ToolCall.ID tc = openai.ToolCall.ID first
                    \/ openai.ToolCall.ID tc = "") more ->
  isValidJSON (fragments_text (first :: more)) = true ->
  all_space (openai.FunctionCall.Arguments (openai.ToolCall.Function (List.last more first)))
  = false ->
  exists call : ToolCall.t,
    ToolCall.ID call = openai.ToolCall.ID first
    /\ ToolCallFunction.Arguments (ToolCall.Function call) = fragments_text (first :: more)
    /\ fst (openai_recvs (S (List.length more))
              (openAIStreamWrapper.newOpenAIStreamWrapper
                 (openai.ChatCompletionStream.mk
                    (map fragment_chunk (first :: more) ++ rest) closes)))
       = repeat (Return (fragment_delta [])) (List.length more)
           ++ [Return (fragment_delta [call])].
Proof.
  intros Hid Hall Hvalid Hlast.
  exists (fold_left absorb (first :: more) (opened first)).
  split; [now rewrite fold_absorb_ID|]. split; [now rewrite fold_absorb_Arguments|].
  rewrite (openai_recvs_call _ first more rest Hid);
    [reflexivity|reflexivity|reflexivity|exact Hall|reflexivity|].
  apply (completes_at_last_of_valid (first :: more) (opened first) first);
    [discriminate|exact Hvalid|].
  destruct more; exact Hlast.
Qed.

Lemma openai_reassembly_is_exact_witness :
  exists call : ToolCall.t,
    ToolCall.ID call = "call_7"
    /\ ToolCallFunction.Arguments (ToolCall.Function call) = weather_arguments
    /\ fst (openai_recvs 4
              (openAIStreamWrapper.newOpenAIStreamWrapper
                 (openai.ChatCompletionStream.mk
                    (map fragment_chunk weather_fragments ++ []) [])))
       = repeat (Return (fragment_delta [])) 3 ++ [Return (fragment_delta [call])].
Proof.
  apply (openai_reassembly_is_exact
           (openai.ToolCall.mk "call_7" "function" (openai.FunctionCall.mk "get_weather" ""))
           (tl weather_fragments) [] []).
  - discriminate.
  - unfold weather_fragments. cbn [tl].
    repeat (apply List.Forall_cons; [right; reflexivity|]). apply List.Forall_nil.
  - vm_compute. reflexivity.
  - vm_compute. reflexivity.
Defined.

(** ** Gemini: the translation of the messages *)

Section convertToGeminiMessages_facts.

Variable base64_DecodeString : string -> option string.
Variable json_Unmarshal_map : string -> list (string * any).

Lemma convertToGeminiMessages_map (messages : list InputMessage.t) :
  convertToGeminiMessages base64_DecodeString json_Unmarshal_map messages
  = map (convertToGeminiMessage base64_DecodeString json_Unmarshal_map) messages.
Proof.
  unfold convertToGeminiMessages.
  enough (H : forall acc,
             fold_left
               (fun contents msg =>
                  contents ++ [convertToGeminiMessage base64_DecodeString json_Unmarshal_map msg])
               messages acc
             = acc ++ map (convertToGeminiMessage base64_DecodeString json_Unmarshal_map)
                        messages) by exact (H []).
  induction messages as [|msg messages IH]; intros acc; cbn [fold_left map].
  - now rewrite app_nil_r.
  - rewrite IH, <- app_assoc. reflexivity.
Qed.

Lemma map_removelast {A B : Type} (f : A -> B) (l : list A) :
  removelast (map f l) = map f (removelast l).
Proof.
  induction l as [|a l IH]; [reflexivity|].
  destruct l as [|b l]; [reflexivity|].
  cbn [map removelast] in *. now rewrite IH.
Qed.

Lemma map_last {A B : Type} (f : A -> B) (l : list A) (d : A) :
  l <> [] -> forall d', List.last (map f l) d' = f (List.last l d).
Proof.
  induction l as [|a l IH]; intros Hne d'; [congruence|].
  destruct l as [|b l]; [reflexivity|].
  cbn [map List.last] in *. apply IH. discriminate.
Qed.

Lemma length_removelast {A : Type} (l : list A) :
  List.length (removelast l) = (List.length l - 1)%nat.
Proof.
  induction l as [|a l IH]; [reflexivity|].
  destruct l as [|b l]; [reflexivity|].
  cbn [removelast List.length] in *. rewrite IH. lia.
Qed.

(** The history of a Gemini chat needs two earlier messages.  Both entry
    points of the Gemini binding send the parts of the last message of the
    request and load the chat session with the translation of the messages
    before it, but only when there are at least two of them: when the
    request holds exactly two messages, the history stays empty and the
    first message does not reach the model. *)
Theorem gemini_history_needs_two_messages (messages : list InputMessage.t)
  (chatSession : ChatSession.t) (parts : list genaiContent.Part) :
  GeminiLLM_chatSession base64_DecodeString json_Unmarshal_map messages
  = Some (chatSession, parts) ->
  ChatSession.History chatSession
  = (if Nat.eqb (List.length messages) 2 then []
     else convertToGeminiMessages base64_DecodeString json_Unmarshal_map
            (removelast messages))
  /\ parts
     = genaiContent.Parts
         (convertToGeminiMessage base64_DecodeString json_Unmarshal_map
            (List.last messages (InputMessage.mk "" [] [] []))).
Proof.
  unfold GeminiLLM_chatSession. cbv zeta.
  rewrite !convertToGeminiMessages_map.
  destruct messages as [|m0 ms]; [discriminate 1|].
  remember (m0 :: ms) as messages eqn:Hm.
  destruct (map (convertToGeminiMessage base64_DecodeString json_Unmarshal_map) messages)
    as [|c cs] eqn:E; [subst messages; discriminate E|].
  rewrite <- E. intros H. injection H as <- <-. split.
  - unfold loadChatSession, StartChat.
    rewrite map_removelast, length_map, length_removelast. subst messages.
    destruct ms as [|m1 [|m2 ms]]; reflexivity.
  - f_equal. apply map_last. subst messages. discriminate.
Qed.

End convertToGeminiMessages_facts.

Lemma gemini_history_needs_two_messages_witness :
  let decode := fun _ : string => @None string in
  let unmarshal := fun _ : string => @nil (string * any) in
  let first := InputMessage.mk RoleUser [ContentPart.mk ContentTypeText "My name is Ada." "" ""]
                 [] [] in
  let second := InputMessage.mk RoleUser [ContentPart.mk ContentTypeText "What is my name?" "" ""]
                  [] [] in
  GeminiLLM_chatSession decode unmarshal [first; second]
  = Some (ChatSession.mk [], [genaiContent.Text "What is my name?"])
  /\ ChatSession.History (ChatSession.mk []) = []
  /\ [genaiContent.Text "What is my name?"]
     = genaiContent.Parts (convertToGeminiMessage decode unmarshal second).
Proof.
  intros decode unmarshal first second. split; [reflexivity|].
  exact (gemini_history_needs_two_messages decode unmarshal [first; second]
           (ChatSession.mk []) [genaiContent.Text "What is my name?"] eq_refl).
Defined.

(** ** Gemini: the tool calls of the stream wrapper *)

Lemma isNew_true (accumulated : list ToolCall.t) (tc : ToolCall.t) :
  geminiStreamWrapper.isNew accumulated tc = true ->
  ~ In (call_key tc) (map call_key accumulated).
Proof.
  unfold geminiStreamWrapper.isNew. intros H. apply negb_true_iff in H.
  induction accumulated as [|x acc IH]; [intros []|].
  cbn [existsb] in H. apply orb_false_elim in H as [Hx Hacc].
  intros [Heq|Hin]; [|exact (IH Hacc Hin)].
  unfold call_key in Heq. injection Heq as Hn Ha.
  rewrite Hn, Ha, !streq_refl in Hx. discriminate Hx.
Qed.

Lemma newCalls_fold (newToolCalls : list ToolCall.t) (P : ToolCall.t -> Prop) :
  forall (accumulated0 deltaCalls0 : list ToolCall.t),
  Forall P newToolCalls -> Forall P deltaCalls0 ->
  NoDup (map call_key (accumulated0 ++ deltaCalls0)) ->
  exists deltaCalls,
    fold_left
      (fun (acc : list ToolCall.t * list ToolCall.t) tc =>
         let '(deltaCalls, accumulated) := acc in
         if geminiStreamWrapper.isNew accumulated tc
         then (deltaCalls ++ [tc], accumulated ++ [tc])
         else (deltaCalls, accumulated))
      newToolCalls (deltaCalls0, accumulated0 ++ deltaCalls0)
    = (deltaCalls, accumulated0 ++ deltaCalls)
    /\ Forall P deltaCalls
    /\ NoDup (map call_key (accumulated0 ++ deltaCalls)).
Proof.
  induction newToolCalls as [|tc new IH]; intros acc0 d0 Hnew Hd Hnd; cbn [fold_left].
  - exists d0. auto.
  - apply Forall_cons_iff in Hnew as [Htc Hnew].
    destruct (geminiStreamWrapper.isNew (acc0 ++ d0) tc) eqn:E.
    + rewrite <- app_assoc. apply IH; [exact Hnew | |].
      * apply Forall_app. split; [exact Hd | constructor; [exact Htc | constructor]].
      * rewrite app_assoc, map_app. cbn [map]. apply NoDup_app. split; [exact Hnd|].
        split; [|apply NoDup_singleton].
        intros k Hk Hk'. apply list_elem_of_In in Hk, Hk'. destruct Hk' as [<-|[]].
        exact (isNew_true _ _ E Hk).
    + apply IH; assumption.
Qed.

Lemma newCalls_spec (accumulated newToolCalls : list ToolCall.t) (P : ToolCall.t -> Prop) :
  Forall P newToolCalls ->
  NoDup (map call_key accumulated) ->
  exists deltaCalls,
    geminiStreamWrapper.newCalls accumulated newToolCalls
    = (deltaCalls, accumulated ++ deltaCalls)
    /\ Forall P deltaCalls
    /\ NoDup (map call_key (accumulated ++ deltaCalls)).
Proof.
  intros Hnew Hnd. unfold geminiStreamWrapper.newCalls.
  pose proof (newCalls_fold newToolCalls P accumulated [] Hnew (Forall_nil_2 P)) as H.
  rewrite app_nil_r in H. exact (H Hnd).
Qed.

Lemma extractParts_calls (parts : list genai.Part) :
  Forall (fun tc => ToolCall.ID tc = "" /\ ToolCall.Type_ tc = "function")
    (snd (geminiStreamWrapper.extractParts parts)).
Proof.
  unfold geminiStreamWrapper.extractParts.
  enough (H : forall acc : string * list ToolCall.t,
             Forall (fun tc => ToolCall.ID tc = "" /\ ToolCall.Type_ tc = "function") (snd acc) ->
             Forall (fun tc => ToolCall.ID tc = "" /\ ToolCall.Type_ tc = "function")
               (snd (fold_left
                       (fun (acc : string * list ToolCall.t) part =>
                          let '(newText, newToolCalls) := acc in
                          match part with
                          | genai.Text p => (newText +:+ p, newToolCalls)
                          | genai.FunctionCall name (Some args) =>
                              (newText,
                               newToolCalls ++
                                 [ToolCall.mk "" "function" (ToolCallFunction.mk name args)])
                          | genai.FunctionCall _ None => (newText, newToolCalls)
                          | genai.OtherPart => (newText, newToolCalls)
                          end) parts acc)))
    by (apply H; constructor).
  induction parts as [|part parts IH]; intros [text calls] H; cbn [fold_left]; [exact H|].
  apply IH. destruct part as [p|name [args|]|]; cbn [snd] in *; try exact H.
  apply Forall_app. split; [exact H|]. repeat constructor.
Qed.

(** What one [Recv] does to the tool calls: it appends calls not seen
    before to the accumulated ones, and hands out those it appended, or
    nothing. *)
Lemma gemini_Recv_calls (w : geminiStreamWrapper.t) :
  NoDup (map call_key (geminiStreamWrapper.accumulatedToolCalls w)) ->
  exists deltaCalls,
    geminiStreamWrapper.accumulatedToolCalls (snd (geminiStreamWrapper.Recv w))
    = geminiStreamWrapper.accumulatedToolCalls w ++ deltaCalls
    /\ NoDup (map call_key
                (geminiStreamWrapper.accumulatedToolCalls (snd (geminiStreamWrapper.Recv w))))
    /\ Forall (fun tc => ToolCall.ID tc = "" /\ ToolCall.Type_ tc = "function") deltaCalls
    /\ (outcome_calls (fst (geminiStreamWrapper.Recv w)) = deltaCalls
        \/ outcome_calls (fst (geminiStreamWrapper.Recv w)) = []).
Proof.
  intros Hnd. unfold geminiStreamWrapper.Recv.
  assert (Hsame : forall (o : outcome ChatCompletionResponse.t) (w' : geminiStreamWrapper.t),
             outcome_calls o = [] ->
             geminiStreamWrapper.accumulatedToolCalls w'
             = geminiStreamWrapper.accumulatedToolCalls w ->
             exists deltaCalls,
               geminiStreamWrapper.accumulatedToolCalls (snd (o, w'))
               = geminiStreamWrapper.accumulatedToolCalls w ++ deltaCalls
               /\ NoDup (map call_key (geminiStreamWrapper.accumulatedToolCalls (snd (o, w'))))
               /\ Forall (fun tc => ToolCall.ID tc = "" /\ ToolCall.Type_ tc = "function")
                    deltaCalls
               /\ (outcome_calls (fst (o, w')) = deltaCalls
                   \/ outcome_calls (fst (o, w')) = [])).
  { intros o w' Ho Hw'. exists []. cbn [fst snd]. rewrite Hw', app_nil_r.
    split; [reflexivity|]. split; [exact Hnd|]. split; [constructor|]. auto. }
  destruct (geminiStreamWrapper.done w); [now apply Hsame|].
  destruct (geminiStreamWrapper.iter w) as [it|]; [|now apply Hsame].
  destruct (genai.Next it) as [[resp|err] it'].
  2:{ destruct (errors_Is_iterator_Done err); now apply Hsame. }
  destruct (genai.GenerateContentResponse.Candidates resp) as [|candidate rest].
  { exists []. cbn [fst snd geminiStreamWrapper.accumulatedToolCalls].
    rewrite app_nil_r. repeat split; auto. }
  pose proof (extractParts_calls (genai.Candidate.Content_Parts candidate)) as Hparts.
  destruct (geminiStreamWrapper.extractParts _) as [newText newToolCalls].
  cbn [snd] in Hparts.
  destruct (newCalls_spec (geminiStreamWrapper.accumulatedToolCalls w) newToolCalls _
              Hparts Hnd) as (deltaCalls & Hnew & HP & Hnd').
  cbn [geminiStreamWrapper.accumulatedToolCalls]. rewrite Hnew.
  exists deltaCalls.
  destruct (genai.Candidate.FinishReason candidate);
    try destruct (Nat.ltb 0 (List.length _));
    cbn [fst snd geminiStreamWrapper.accumulatedToolCalls outcome_calls response_calls
         ChatCompletionResponse.Choices flat_map Choice.Message OutputMessage.ToolCalls];
    rewrite ?app_nil_r; auto.
Qed.

Lemma gemini_recvs_calls (n : nat) :
  forall w : geminiStreamWrapper.t,
  NoDup (map call_key (geminiStreamWrapper.accumulatedToolCalls w)) ->
  exists extra,
    geminiStreamWrapper.accumulatedToolCalls (snd (gemini_recvs n w))
    = geminiStreamWrapper.accumulatedToolCalls w ++ extra
    /\ NoDup (map call_key (geminiStreamWrapper.accumulatedToolCalls (snd (gemini_recvs n w))))
    /\ Forall (fun tc => ToolCall.ID tc = "" /\ ToolCall.Type_ tc = "function") extra
    /\ outcomes_calls (fst (gemini_recvs n w)) `sublist_of` extra.
Proof.
  induction n as [|n IH]; intros w Hnd; cbn [gemini_recvs].
  - exists []. cbn [fst snd outcomes_calls flat_map]. rewrite app_nil_r.
    repeat split; auto; constructor.
  - destruct (gemini_Recv_calls w Hnd) as (delta & Hacc & Hnd1 & HP & Hout).
    destruct (geminiStreamWrapper.Recv w) as [o w1]. cbn [fst snd] in *.
    destruct (IH w1 Hnd1) as (extra & Hacc2 & Hnd2 & HPe & Hsub).
    destruct (gemini_recvs n w1) as [os w2]. cbn [fst snd] in *.
    exists (delta ++ extra). rewrite Hacc2, Hacc, <- app_assoc.
    split; [reflexivity|]. split; [rewrite app_assoc, <- Hacc, <- Hacc2; exact Hnd2|].
    split; [apply Forall_app; auto|].
    unfold outcomes_calls in *. cbn [flat_map]. apply sublist_app; [|exact Hsub].
    destruct Hout as [-> | ->]; [reflexivity | apply sublist_nil_l].
Qed.

(** The Gemini stream wrapper hands a tool call out once.  Over any number
    of [Recv] calls on the wrapper of a stream, whatever the events, no two
    of the tool calls handed out have the same function name and the same
    arguments: a call the model repeats with the same arguments, in the same
    event or in a later one, is dropped.  Every call handed out has the type
    "function" and an empty ID. *)
Theorem gemini_tool_calls_never_repeat (n : nat)
  (respIter : genai.GenerateContentResponseIterator) :
  NoDup (map call_key
           (outcomes_calls (fst (gemini_recvs n (geminiStreamWrapper.new respIter)))))
  /\ Forall (fun tc => ToolCall.ID tc = "" /\ ToolCall.Type_ tc = "function")
       (outcomes_calls (fst (gemini_recvs n (geminiStreamWrapper.new respIter)))).
Proof.
  destruct (gemini_recvs_calls n (geminiStreamWrapper.new respIter)) as
    (extra & Hacc & Hnd & HP & Hsub); [constructor|].
  cbn [geminiStreamWrapper.new geminiStreamWrapper.accumulatedToolCalls app] in Hacc.
  rewrite Hacc in Hnd. split.
  - apply (sublist_NoDup _ (map call_key extra)); [exact Hnd|].
    apply (fmap_sublist call_key). exact Hsub.
  - apply Forall_forall. intros tc Htc.
    apply (proj1 (Forall_forall _ _) HP). exact (elem_of_sublist _ _ _ Htc Hsub).
Qed.

Lemma newCalls_Forall (newToolCalls : list ToolCall.t) (P : ToolCall.t -> Prop) :
  forall accumulated : list ToolCall.t,
  Forall P newToolCalls ->
  Forall P (fst (geminiStreamWrapper.newCalls accumulated newToolCalls)).
Proof.
  unfold geminiStreamWrapper.newCalls. intros accumulated Hnew.
  enough (H : forall acc : list ToolCall.t * list ToolCall.t,
             Forall P (fst acc) ->
             Forall P
               (fst (fold_left
                       (fun (acc : list ToolCall.t * list ToolCall.t) tc =>
                          let '(deltaCalls, accumulated) := acc in
                          if geminiStreamWrapper.isNew accumulated tc
                          then (deltaCalls ++ [tc], accumulated ++ [tc])
                          else (deltaCalls, accumulated))
                       newToolCalls acc))) by (apply H; constructor).
  induction newToolCalls as [|tc new IH]; intros [d a] Hd; cbn [fold_left]; [exact Hd|].
  apply Forall_cons_iff in Hnew as [Htc Hnew].
  apply (IH Hnew). destruct (geminiStreamWrapper.isNew a tc); cbn [fst] in *; [|exact Hd].
  apply Forall_app. split; [exact Hd | constructor; [exact Htc | constructor]].
Qed.

Lemma gemini_Recv_call_ids (w w' : geminiStreamWrapper.t) (r : ChatCompletionResponse.t) :
  geminiStreamWrapper.Recv w = (Return r, w') ->
  Forall (fun tc => ToolCall.ID tc = "" /\ ToolCall.Type_ tc = "function") (response_calls r).
Proof.
  unfold geminiStreamWrapper.Recv.
  destruct (geminiStreamWrapper.done w); [discriminate|].
  destruct (geminiStreamWrapper.iter w) as [it|]; [|discriminate].
  destruct (genai.Next it) as [[resp|err] it'].
  2:{ destruct (errors_Is_iterator_Done err); discriminate. }
  destruct (genai.GenerateContentResponse.Candidates resp) as [|candidate rest].
  { intros [= <- <-]. constructor. }
  pose proof (extractParts_calls (genai.Candidate.Content_Parts candidate)) as Hparts.
  destruct (geminiStreamWrapper.extractParts _) as [newText newToolCalls].
  cbn [snd] in Hparts.
  pose proof (newCalls_Forall newToolCalls _ (geminiStreamWrapper.accumulatedToolCalls w)
                Hparts) as Hd.
  cbn [geminiStreamWrapper.accumulatedToolCalls].
  destruct (geminiStreamWrapper.newCalls _ _) as [deltaCalls calls]. cbn [fst] in Hd.
  destruct (genai.Candidate.FinishReason candidate);
    try destruct (Nat.ltb 0 (List.length calls));
    intros [= <- <-]; try discriminate;
    unfold response_calls; cbn [ChatCompletionResponse.Choices flat_map Choice.Message
                                 OutputMessage.ToolCalls];
    rewrite app_nil_r; exact Hd.
Qed.

(** The answer to a tool call of Gemini goes back without the name of the
    function.  A tool call handed out by [geminiStreamWrapper.Recv] has an
    empty ID; [convertToGeminiMessages] names the [FunctionResponse] of a
    tool message after the [ToolCallID] of its first result, not after its
    [FunctionName].  So the tool message that echoes the ID and the name of
    such a call is sent as a user content whose function response has the
    empty name, the name of the function being left inside the payload. *)
Theorem gemini_tool_answer_is_unnamed (base64_DecodeString : string -> option string)
  (json_Unmarshal_map : string -> list (string * any))
  (w w' : geminiStreamWrapper.t) (r : ChatCompletionResponse.t) (tc : ToolCall.t)
  (result : string) :
  geminiStreamWrapper.Recv w = (Return r, w') ->
  In tc (response_calls r) ->
  convertToGeminiMessages base64_DecodeString json_Unmarshal_map [tool_answer tc result]
  = [genaiContent.mk "user"
       [genaiContent.FunctionResponse ""
          [("response",
             any_map [("name", any_string (ToolCallFunction.Name (ToolCall.Function tc)));
                      ("content", any_string result)])]]].
Proof.
  intros Hrecv Hin.
  pose proof (gemini_Recv_call_ids w w' r Hrecv) as Hids.
  apply (proj1 (List.Forall_forall _ _)) with (x := tc) in Hids; [|exact Hin].
  destruct Hids as [Hid _]. destruct tc as [id ty [name args]]. cbn [ToolCall.ID] in Hid.
  subst id. reflexivity.
Qed.

Lemma gemini_tool_answer_is_unnamed_witness :
  let decode := fun _ : string => @None string in
  let unmarshal := fun _ : string => @nil (string * any) in
  let tc := ToolCall.mk "" "function" (ToolCallFunction.mk "get_weather" "{}") in
  convertToGeminiMessages decode unmarshal [tool_answer tc "sunny"]
  = [genaiContent.mk "user"
       [genaiContent.FunctionResponse ""
          [("response",
             any_map [("name", any_string "get_weather"); ("content", any_string "sunny")])]]].
Proof.
  intros decode unmarshal tc.
  refine (gemini_tool_answer_is_unnamed decode unmarshal
            (geminiStreamWrapper.new
               [gemini_call_event "get_weather" "{}" genai.FinishReasonStop])
            _ _ tc "sunny" eq_refl _).
  left. reflexivity.
Defined.

(** ** Gemini: the entry points *)

Lemma setModelConfig_without_system (model : genai.GenerativeModel.t)
  (req : ChatCompletionRequest.t) :
  genai.GenerativeModel.SystemInstruction (setModelConfig model req)
  = genai.GenerativeModel.SystemInstruction model
  /\ without_system (setModelConfig model req) = setModelConfig (without_system model) req.
Proof.
  destruct model as [n s t p m r tl]. unfold setModelConfig, without_system.
  destruct (float32_gt (ChatCompletionRequest.Temperature req) float32_zero);
    destruct (ChatCompletionRequest.TopP req) as [topP|];
    try destruct (float32_gt topP float32_zero);
    destruct (ChatCompletionRequest.JSONMode req); split; reflexivity.
Qed.

(** The streaming entry point of the Gemini binding leaves the system
    prompt out.  When [CreateChatCompletion] sends its request, the model it
    sends it with carries the system prompt of the request as its system
    instruction; [CreateChatCompletionStream], for the same request, sends
    the same messages with the same model configuration but without any
    system instruction. *)
Theorem gemini_stream_drops_system_prompt (g g' : GeminiClient.t)
  (req : ChatCompletionRequest.t) (model : genai.GenerativeModel.t)
  (messages : list InputMessage.t) :
  In (GeminiClient.call_SendMessage model messages)
     (snd (GeminiLLM_CreateChatCompletion g req)) ->
  genai.GenerativeModel.SystemInstruction model = ChatCompletionRequest.SystemPrompt req
  /\ snd (GeminiLLM_CreateChatCompletionStream g' req)
     = [GeminiClient.call_SendMessageStream (without_system model) messages].
Proof.
  unfold GeminiLLM_CreateChatCompletion, GeminiLLM_CreateChatCompletionStream.
  destruct (negb (GeminiLLM.isSupported _)); [intros []|]. cbv zeta.
  destruct (ChatCompletionRequest.Messages req) as [|m0 ms]; [intros []|].
  set (model0 := genai.GenerativeModel.new (ChatCompletionRequest.Model req)).
  set (model1 := match ChatCompletionRequest.SystemPrompt req with
                 | Some prompt => setSystemInstruction model0 prompt
                 | None => model0
                 end).
  assert (H1 : genai.GenerativeModel.SystemInstruction model1
               = ChatCompletionRequest.SystemPrompt req
               /\ without_system model1 = model0).
  { subst model1. destruct (ChatCompletionRequest.SystemPrompt req); split; reflexivity. }
  destruct H1 as [Hsys Hwithout].
  destruct (setModelConfig_without_system model1 req) as [Hsys' Hwithout'].
  intros Hin.
  assert (Heq : GeminiClient.call_SendMessage model messages
                = GeminiClient.call_SendMessage (setModelConfig model1 req) (m0 :: ms)).
  { destruct (GeminiClient.SendMessage g _ _); destruct Hin as [H|[]]; now rewrite H. }
  injection Heq as -> ->. cbn [snd].
  rewrite Hsys', Hsys, Hwithout', Hwithout. split; reflexivity.
Qed.

Lemma gemini_stream_drops_system_prompt_witness :
  let req := ChatCompletionRequest.mk ModelGemini2Flash
               [InputMessage.mk RoleUser [ContentPart.mk ContentTypeText "hi" "" ""] [] []]
               (Some "Answer in French.") [] float32_zero None 0 false in
  let g := GeminiClient.mk (fun _ _ => inr io_EOF) (fun _ _ => []) genai.FinishReason_String in
  exists model messages,
    snd (GeminiLLM_CreateChatCompletion g req) = [GeminiClient.call_SendMessage model messages]
    /\ genai.GenerativeModel.SystemInstruction model = Some "Answer in French."
    /\ snd (GeminiLLM_CreateChatCompletionStream g req)
       = [GeminiClient.call_SendMessageStream (without_system model) messages]
    /\ genai.GenerativeModel.SystemInstruction (without_system model) = None.
Proof.
  intros req g.
  destruct (snd (GeminiLLM_CreateChatCompletion g req)) as [|[model messages|] l] eqn:E;
    try discriminate E.
  exists model, messages.
  destruct (gemini_stream_drops_system_prompt g g req model messages) as [H1 H2].
  - rewrite E. left. reflexivity.
  - vm_compute in E. injection E as <- <- <-. repeat split; assumption.
Defined.

Lemma strings_Join_empty_snoc (l : list string) (s : string) :
  strings_Join_empty (l ++ [s]) = strings_Join_empty l +:+ s.
Proof.
  unfold strings_Join_empty. induction l as [|a l IH]; cbn [app fold_right].
  - now rewrite string_app_nil_r.
  - rewrite IH, string_app_assoc. reflexivity.
Qed.




(** ** Claude: the translation of the messages *)

Lemma convertFromClaudeMessage_blocks (msg : anthropic.MessagesResponse.t) :
  convertFromClaudeMessage msg
  = OutputMessage.mk (anthropic.MessagesResponse.Role msg)
      (strings_Join_empty (text_blocks (anthropic.MessagesResponse.Content msg)))
      (convertFromClaudeToolCalls (tool_uses (anthropic.MessagesResponse.Content msg))).
Proof.
  unfold convertFromClaudeMessage.
  enough (H : forall (blocks : list anthropic.MessageContent)
                     (acc : list string * list anthropic.MessageContentToolUse.t),
             fold_left
               (fun (acc : list string * list anthropic.MessageContentToolUse.t) part =>
                  let '(textParts, toolCalls) := acc in
                  match part with
                  | anthropic.TextBlock text => (textParts ++ [text], toolCalls)
                  | anthropic.ToolUseBlock use => (textParts, toolCalls ++ [use])
                  | anthropic.OtherBlock => (textParts, toolCalls)
                  end) blocks acc
             = (fst acc ++ text_blocks blocks, snd acc ++ tool_uses blocks)).
  { rewrite H. reflexivity. }
  induction blocks as [|block blocks IH]; intros [textParts toolCalls]; cbn [fold_left fst snd].
  - unfold text_blocks, tool_uses. cbn [flat_map]. now rewrite !app_nil_r.
  - rewrite IH. unfold text_blocks, tool_uses. cbn [flat_map].
    destruct block; cbn [fst snd app]; rewrite <- ?app_assoc; reflexivity.
Qed.

(** A message of Claude sent back to Claude.  The assistant message
    [CreateChatCompletion] makes of a response, appended to the conversation
    with its content as one text part and with its tool calls, is translated
    by [convertToClaudeMessages] into one assistant message: when the
    response held no tool use, its only block is the text of the response;
    when it held tool uses, its only block is the first tool use, with its
    ID, name and input unchanged, and the text and the other tool uses are
    not sent back. *)
Theorem claude_round_trip_keeps_first_tool_use (resp : anthropic.MessagesResponse.t) :
  anthropic.MessagesResponse.Role resp = "assistant" ->
  convertToClaudeMessages [echo_message (convertFromClaudeMessage resp)]
  = [anthropicMessage.mk "assistant"
       match tool_uses (anthropic.MessagesResponse.Content resp) with
       | use :: _ =>
           [anthropicMessage.ToolUse (anthropic.MessageContentToolUse.ID use)
              (anthropic.MessageContentToolUse.Name use)
              (anthropic.MessageContentToolUse.Input use)]
       | [] =>
           [anthropicMessage.Text
              (strings_Join_empty (text_blocks (anthropic.MessagesResponse.Content resp)))]
       end].
Proof.
  intros Hrole. rewrite convertFromClaudeMessage_blocks, Hrole.
  destruct (tool_uses (anthropic.MessagesResponse.Content resp)) as [|use uses]; reflexivity.
Qed.

Lemma claude_round_trip_keeps_first_tool_use_witness :
  let resp := anthropic.MessagesResponse.mk "msg_1" "assistant"
                [anthropic.TextBlock "I will look both up.";
                 anthropic.ToolUseBlock
                   (anthropic.MessageContentToolUse.mk "toolu_1" "get_weather" "{}");
                 anthropic.ToolUseBlock
                   (anthropic.MessageContentToolUse.mk "toolu_2" "get_time" "{}")]
                "tool_use" 10 20 in
  convertToClaudeMessages [echo_message (convertFromClaudeMessage resp)]
  = [anthropicMessage.mk "assistant" [anthropicMessage.ToolUse "toolu_1" "get_weather" "{}"]].
Proof.
  intros resp. exact (claude_round_trip_keeps_first_tool_use resp eq_refl).
Defined.

(** A message whose role is none of user, assistant and tool (a message
    with the role "system", say) fares differently with each provider:
    OpenAI is sent the message with an empty role, Gemini a content with an
    empty role, and Claude is not sent the message at all. *)
Theorem unknown_role_by_provider (base64_DecodeString : string -> option string)
  (json_Unmarshal_map : string -> list (string * any)) (msg : InputMessage.t) :
  known_role (InputMessage.Role msg) = false ->
  convertToOpenAIMessages [msg]
  = Return [openai.ChatCompletionMessage.mk "" ""
              (convertOpenAIMessageContent (InputMessage.MultiContent msg))
              (convertToOpenAIToolsCalls (InputMessage.ToolCalls msg)) ""]
  /\ convertToGeminiMessages base64_DecodeString json_Unmarshal_map [msg]
     = [genaiContent.mk ""
          (convertToGeminiParts base64_DecodeString (InputMessage.MultiContent msg))]
  /\ convertToClaudeMessages [msg] = [].
Proof.
  unfold known_role. intros H.
  apply orb_false_elim in H as [H Htool]. apply orb_false_elim in H as [Huser Hassistant].
  unfold convertToOpenAIMessages, convertToGeminiMessages, convertToClaudeMessages.
  cbn [convertToOpenAIMessages_from fold_left app].
  unfold convertToOpenAIMessage, convertToGeminiMessage, convertToClaudeMessage.
  rewrite Huser, Hassistant, Htool. cbn [andb]. repeat split; reflexivity.
Qed.

Lemma unknown_role_by_provider_witness :
  let decode := fun _ : string => @None string in
  let unmarshal := fun _ : string => @nil (string * any) in
  let msg := InputMessage.mk "system" [ContentPart.mk ContentTypeText "Be brief." "" ""] [] [] in
  convertToOpenAIMessages [msg]
  = Return [openai.ChatCompletionMessage.mk "" ""
              [openai.ChatMessagePart.mk "text" "Be brief." None] [] ""]
  /\ convertToGeminiMessages decode unmarshal [msg]
     = [genaiContent.mk "" [genaiContent.Text "Be brief."]]
  /\ convertToClaudeMessages [msg] = [].
Proof.
  intros decode unmarshal msg.
  exact (unknown_role_by_provider decode unmarshal msg eq_refl).
Defined.

(** ** Claude: the stream wrapper and its callbacks *)

Lemma claude_feed_app (a b : list anthropic.StreamEvent) :
  forall w : claudeStreamWrapper.t,
  claude_feed (a ++ b) w
  = match claude_feed a w with
    | chan.Done w' => claude_feed b w'
    | other => other
    end.
Proof.
  induction a as [|ev a IH]; intros w; cbn [app claude_feed]; [reflexivity|].
  destruct (claudeStreamWrapper.onEvent w ev); auto.
Qed.

Lemma claude_feed_text (ts : list string) :
  forall (waiting : list ChatCompletionResponse.t) (errors : list (option error))
         (text : string) (calls : list ToolCall.t),
  claude_feed (map anthropic.EvTextDelta ts) (claude_open waiting errors text calls)
  = if Nat.leb (List.length waiting + List.length ts) 10
    then chan.Done (claude_open (waiting ++ map (text_delta calls) ts) errors
                      (text +:+ strings_Join_empty ts) calls)
    else if Nat.leb (List.length waiting) 10 then chan.Blocks
    else match ts with
         | [] => chan.Done (claude_open waiting errors text calls)
         | _ :: _ => chan.Blocks
         end.
Proof.
  induction ts as [|t ts IH]; intros waiting errors text calls.
  - cbn [map claude_feed List.length strings_Join_empty fold_right].
    rewrite Nat.add_0_r, app_nil_r, string_app_nil_r.
    destruct (Nat.leb (List.length waiting) 10); reflexivity.
  - cbn [map claude_feed List.length].
    unfold claudeStreamWrapper.onEvent, claudeStreamWrapper.sendEvent, chan.send, claude_open.
    cbn [claudeStreamWrapper.eventsChan claudeStreamWrapper.errChan
         claudeStreamWrapper.cancelled claudeStreamWrapper.done
         claudeStreamWrapper.partialTextBuilder claudeStreamWrapper.toolCalls
         chan.closed chan.buf chan.cap].
    destruct (Nat.ltb_spec (List.length waiting) 10) as [Hlt|Hge].
    + match goal with
      | |- claude_feed _ ?w = _ =>
          change w with (claude_open (waiting ++ [text_delta calls t]) errors (text +:+ t) calls)
      end.
      rewrite IH, length_app. cbn [List.length].
      replace (List.length waiting + 1 + List.length ts)%nat
        with (List.length waiting + S (List.length ts))%nat by lia.
      destruct (Nat.leb_spec (List.length waiting + S (List.length ts)) 10) as [H1|H1].
      * rewrite <- app_assoc. cbn [app strings_Join_empty fold_right].
        rewrite string_app_assoc. reflexivity.
      * destruct (Nat.leb_spec (List.length waiting + 1) 10) as [H2|H2]; [|lia].
        destruct (Nat.leb_spec (List.length waiting) 10) as [H3|H3]; [reflexivity|lia].
    + destruct (Nat.leb_spec (List.length waiting + S (List.length ts)) 10) as [H1|H1]; [lia|].
      destruct (Nat.leb (List.length waiting) 10); reflexivity.
Qed.

(** The callbacks of a Claude stream hand the text deltas over in order and
    hold the vendor back.  Run on a list of text deltas before the consumer
    reads, the callbacks queue one response per delta, in the order of the
    deltas, each with the text of its delta, as long as there are at most
    ten; the callback of an eleventh delta blocks, the channel being full. *)
Theorem claude_callbacks_queue_in_order (ts : list string) :
  claude_feed (map anthropic.EvTextDelta ts) claudeStreamWrapper.new
  = if Nat.leb (List.length ts) 10
    then chan.Done (claude_open (map (text_delta []) ts) [] (strings_Join_empty ts) [])
    else chan.Blocks.
Proof.
  change claudeStreamWrapper.new with (claude_open [] [] "" []).
  rewrite claude_feed_text. cbn [List.length Nat.add app].
  destruct (Nat.leb (List.length ts) 10); reflexivity.
Qed.

Lemma claude_feed_errors (errs : list error) :
  forall (waiting : list ChatCompletionResponse.t) (errors : list (option error))
         (text : string) (calls : list ToolCall.t),
  (List.length errors <= 1)%nat ->
  claude_feed (error_events errs) (claude_open waiting errors text calls)
  = chan.Done (claude_open waiting (firstn 1 (errors ++ map Some errs)) text calls).
Proof.
  induction errs as [|e errs IH]; intros waiting errors text calls Hlen.
  - cbn [error_events map claude_feed]. rewrite app_nil_r.
    destruct errors as [|x [|y errors]]; [reflexivity|reflexivity|simpl in Hlen; lia].
  - cbn [error_events map claude_feed].
    unfold claudeStreamWrapper.onEvent, claudeStreamWrapper.trySendErr, chan.send, claude_open.
    cbn [claudeStreamWrapper.eventsChan claudeStreamWrapper.errChan
         claudeStreamWrapper.cancelled claudeStreamWrapper.done
         claudeStreamWrapper.partialTextBuilder claudeStreamWrapper.toolCalls
         chan.closed chan.buf chan.cap].
    destruct errors as [|x [|y errors]]; [| |simpl in Hlen; lia]; cbn [List.length Nat.ltb Nat.leb].
    + match goal with
      | |- claude_feed _ ?w = _ =>
          change w with (claude_open waiting [Some e] text calls)
      end.
      fold (error_events errs). rewrite IH by (simpl; lia). reflexivity.
    + match goal with
      | |- claude_feed _ ?w = _ =>
          change w with (claude_open waiting [x] text calls)
      end.
      fold (error_events errs). rewrite IH by (simpl; lia). reflexivity.
Qed.

Lemma claude_goroutineEnd_open (waiting : list ChatCompletionResponse.t)
  (errors : list (option error)) (text : string) (calls : list ToolCall.t)
  (err : option error) :
  (List.length errors <= 1)%nat ->
  claudeStreamWrapper.goroutineEnd (claude_open waiting errors text calls) err
  = chan.Done
      (claude_closed waiting
         (match errors with
          | [] => match err with
                  | Some e => if errors_Is_EOF e then [] else [Some e]
                  | None => []
                  end
          | _ :: _ => errors
          end) text calls).
Proof.
  intros Hlen. unfold claudeStreamWrapper.goroutineEnd.
  destruct err as [e|]; [destruct (errors_Is_EOF e)|];
    destruct errors as [|x [|y errors]]; try (simpl in Hlen; lia); reflexivity.
Qed.

Lemma claude_recvs_closed (waiting : list ChatCompletionResponse.t) :
  forall (errors : list (option error)) (text : string) (calls : list ToolCall.t) (n : nat),
  claude_recvs (List.length waiting + n) (claude_closed waiting errors text calls)
  = map Return waiting ++ claude_recvs n (claude_closed [] errors text calls).
Proof.
  induction waiting as [|r waiting IH]; intros errors text calls n; [reflexivity|].
  cbn [List.length Nat.add claude_recvs map app].
  unfold claudeStreamWrapper.Recv, claude_closed, chan.recv.
  cbn [claudeStreamWrapper.eventsChan claudeStreamWrapper.errChan
       claudeStreamWrapper.cancelled claudeStreamWrapper.done
       claudeStreamWrapper.partialTextBuilder claudeStreamWrapper.toolCalls
       chan.closed chan.buf chan.cap].
  match goal with
  | |- _ :: claude_recvs _ ?w = _ =>
      change w with (claude_closed waiting errors text calls)
  end.
  rewrite IH. reflexivity.
Qed.

(** The errors of a Claude stream reach the consumer after the deltas, and
    one of them at most.  The callbacks run on at most ten text deltas and
    then on any number of errors, and [CreateMessagesStream] returns [err];
    the consumer reads afterwards.  [Recv] first returns the deltas, in
    order, although [Close] has run; then it returns one error, the first
    one [OnError] was given or else [err], the other errors being dropped;
    when there is none, or [err] is [io.EOF], it returns [io.EOF]; after
    that it returns [io.EOF]. *)
Theorem claude_first_error_after_deltas (ts : list string) (errs : list error)
  (err : option error) :
  (List.length ts <= 10)%nat ->
  claude_turn (map anthropic.EvTextDelta ts ++ error_events errs) err (List.length ts + 2)
  = map (fun t => Return (text_delta [] t)) ts
      ++ [Fail (match claude_reported_error errs err with
                | Some e => e
                | None => io_EOF
                end);
          Fail io_EOF].
Proof.
  intros Hlen. unfold claude_turn.
  change claudeStreamWrapper.new with (claude_open [] [] "" []).
  rewrite claude_feed_app, claude_feed_text. cbn [List.length Nat.add app].
  destruct (Nat.leb_spec (List.length ts) 10) as [_|H]; [|lia].
  rewrite claude_feed_errors by (simpl; lia).
  rewrite claude_goroutineEnd_open by (destruct errs; simpl; lia).
  replace (List.length ts) with (List.length (map (text_delta []) ts)) at 1
    by apply length_map.
  rewrite claude_recvs_closed, map_map. f_equal.
  unfold claude_reported_error.
  destruct errs as [|e errs]; cbn [app map firstn];
    [destruct err as [e|]; [destruct (errors_Is_EOF e)|]|]; reflexivity.
Qed.

Lemma claude_first_error_after_deltas_witness :
  claude_turn (map anthropic.EvTextDelta ["Hel"; "lo"]
                 ++ error_events [vendor_error "overloaded"; vendor_error "timeout"])
    (Some (vendor_error "connection reset")) (2 + 2)
  = map (fun t => Return (text_delta [] t)) ["Hel"; "lo"]
      ++ [Fail (vendor_error "overloaded"); Fail io_EOF].
Proof.
  apply (claude_first_error_after_deltas ["Hel"; "lo"]
           [vendor_error "overloaded"; vendor_error "timeout"]
           (Some (vendor_error "connection reset"))).
  simpl. lia.
Defined.

Lemma tokens_text_spec_tokens (cs : list Choice.t) :
  tokens_text (flat_map (fun c => stream_Recv :: spec_tokens c) cs) = spec_text cs.
Proof.
  induction cs as [|c cs IH]; [reflexivity|].
  cbn [flat_map app tokens_text]. rewrite tokens_text_app, IH.
  unfold spec_text at 2. cbn [fold_right]. fold (spec_text cs). f_equal.
  unfold spec_tokens.
  destruct (streq (OutputMessage.Content (Choice.Message c)) "") eqn:E.
  - apply streq_true in E. now rewrite E.
  - cbn [tokens_text]. apply string_app_nil_r.
Qed.

Lemma spec_text_app (a b : list Choice.t) :
  spec_text (a ++ b) = spec_text a +:+ spec_text b.
Proof.
  unfold spec_text. induction a as [|c a IH]; [reflexivity|].
  cbn [app fold_right]. rewrite IH, string_app_assoc. reflexivity.
Qed.

Lemma spec_text_text_choices (calls : list ToolCall.t) (ts : list string) :
  spec_text (map (fun t => Choice.mk 0 (OutputMessage.mk RoleAssistant t calls) FinishReasonNull)
               ts)
  = strings_Join_empty ts.
Proof.
  unfold spec_text, strings_Join_empty.
  induction ts as [|t ts IH]; [reflexivity|].
  cbn [map fold_right Choice.Message OutputMessage.Content]. now rewrite IH.
Qed.

(** At a tool use the Claude stream hands the text out a second time.  The
    vendor streams a message made of at most nine text deltas and one tool
    use, and the consumer reads afterwards.  [Recv] returns one delta per
    text delta, then a delta that carries the tool call together with the
    whole text of the message so far, then [io.EOF]; no delta carries a
    finish reason.  So [StreamChatCompletion] hands the text to [OnToken]
    twice: the tokens it passes, put end to end, are the text of the message
    followed by the same text again. *)
Theorem claude_tool_use_repeats_text (ts : list string)
  (use : anthropic.MessageContentToolUse.t) (fuel : nat) :
  (List.length ts < 10)%nat ->
  (List.length ts + 2 <= fuel)%nat ->
  let outcomes :=
    claude_turn
      (anthropic.EvMessageStart
         :: map anthropic.EvTextDelta ts
         ++ [anthropic.EvContentBlockStop (anthropic.ToolUseBlock use);
             anthropic.EvMessageStop])
      None (List.length ts + 2) in
  outcomes
  = map (fun t => Return (text_delta [] t)) ts
      ++ [Return (delta (strings_Join_empty ts) [claude_tool_call use] FinishReasonNull);
          Fail io_EOF]
  /\ tokens_text
       (fst (fst (StreamChatCompletion scripted_Recv scripted_Close fuel (Return outcomes))))
     = strings_Join_empty ts +:+ strings_Join_empty ts.
Proof.
  intros Hlen Hfuel. cbv zeta.
  assert (Hout :
            claude_turn
              (anthropic.EvMessageStart
                 :: map anthropic.EvTextDelta ts
                 ++ [anthropic.EvContentBlockStop (anthropic.ToolUseBlock use);
                     anthropic.EvMessageStop])
              None (List.length ts + 2)
            = map (fun t => Return (text_delta [] t)) ts
                ++ [Return (delta (strings_Join_empty ts) [claude_tool_call use]
                              FinishReasonNull);
                    Fail io_EOF]).
  { unfold claude_turn. cbn [claude_feed claudeStreamWrapper.onEvent].
    change (claudeStreamWrapper.mk _ _ _ _ "" [])
      with (claude_open [] [] "" []).
    rewrite claude_feed_app, claude_feed_text. cbn [List.length Nat.add app].
    destruct (Nat.leb_spec (List.length ts) 10) as [_|H]; [|lia].
    change ("" +:+ strings_Join_empty ts) with (strings_Join_empty ts).
    cbn [claude_feed].
    unfold claudeStreamWrapper.onEvent at 1, claudeStreamWrapper.sendEvent, chan.send,
      claude_open.
    cbn [claudeStreamWrapper.eventsChan claudeStreamWrapper.errChan
         claudeStreamWrapper.cancelled claudeStreamWrapper.done
         claudeStreamWrapper.partialTextBuilder claudeStreamWrapper.toolCalls
         chan.closed chan.buf chan.cap].
    rewrite length_map.
    destruct (Nat.ltb_spec (List.length ts) 10) as [_|H]; [|lia].
    cbn [app].
    match goal with
    | |- context [claudeStreamWrapper.onEvent ?w anthropic.EvMessageStop] =>
        change (claudeStreamWrapper.onEvent w anthropic.EvMessageStop)
          with (chan.Done
                  (claude_closed
                     (map (text_delta []) ts
                        ++ [delta (strings_Join_empty ts) [claude_tool_call use]
                              FinishReasonNull])
                     [] (strings_Join_empty ts) [claude_tool_call use]))
    end.
    cbv iota.
    change (claudeStreamWrapper.goroutineEnd (claude_closed ?a ?b ?c ?d) None)
      with (chan.Done (claude_closed a b c d)).
    cbv iota.
    replace (List.length ts + 2)%nat
      with (List.length (map (text_delta []) ts
                           ++ [delta (strings_Join_empty ts) [claude_tool_call use]
                                 FinishReasonNull]) + 1)%nat
      by (rewrite length_app, length_map; simpl; lia).
    rewrite claude_recvs_closed, map_app, map_map, <- app_assoc. reflexivity. }
  rewrite Hout. split; [reflexivity|].
  set (cs := map (fun t => Choice.mk 0 (OutputMessage.mk RoleAssistant t []) FinishReasonNull) ts
             ++ [Choice.mk 0 (OutputMessage.mk RoleAssistant (strings_Join_empty ts)
                                [claude_tool_call use]) FinishReasonNull]).
  assert (Hscript :
            map (fun t => Return (text_delta [] t)) ts
              ++ [Return (delta (strings_Join_empty ts) [claude_tool_call use]
                            FinishReasonNull);
                  Fail io_EOF]
            = map (fun c => Return (ChatCompletionResponse.mk "" [c] Usage.zero)) cs
                ++ ending_outcome (EndsWithError io_EOF) :: []).
  { subst cs. rewrite map_app, map_map, <- app_assoc. reflexivity. }
  rewrite Hscript. unfold StreamChatCompletion.
  rewrite (pump_scripted cs "" [] fuel (EndsWithError io_EOF) []).
  - cbn [spec_result isEOF scripted_Close fst tokens_text].
    rewrite !tokens_text_app, tokens_text_spec_tokens. cbn [tokens_text].
    rewrite !string_app_nil_r. subst cs.
    rewrite spec_text_app, spec_text_text_choices.
    unfold spec_text. cbn [fold_right Choice.Message OutputMessage.Content].
    now rewrite string_app_nil_r.
  - subst cs. apply Forall_app. split; [|repeat constructor].
    apply Forall_forall. intros c Hc. apply list_elem_of_In, in_map_iff in Hc.
    destruct Hc as (t & <- & _). reflexivity.
  - exact I.
  - subst cs. rewrite length_app, length_map. simpl. lia.
Qed.

Lemma claude_tool_use_repeats_text_witness :
  let use := anthropic.MessageContentToolUse.mk "toolu_1" "get_weather" "{}" in
  let outcomes :=
    claude_turn
      (anthropic.EvMessageStart
         :: map anthropic.EvTextDelta ["Let me "; "check."]
         ++ [anthropic.EvContentBlockStop (anthropic.ToolUseBlock use);
             anthropic.EvMessageStop])
      None (2 + 2) in
  outcomes
  = map (fun t => Return (text_delta [] t)) ["Let me "; "check."]
      ++ [Return (delta "Let me check." [claude_tool_call use] FinishReasonNull);
          Fail io_EOF]
  /\ tokens_text
       (fst (fst (StreamChatCompletion scripted_Recv scripted_Close 5 (Return outcomes))))
     = "Let me check.Let me check.".
Proof.
  intros use.
  apply (claude_tool_use_repeats_text ["Let me "; "check."] use 5); simpl; lia.
Defined.

(** ** Ollama *)

Lemma last_cons_default {A : Type} (l : list A) (a d : A) :
  List.last (a :: l) d = List.last l a.
Proof.
  revert a d. induction l as [|b l IH]; intros a d; [reflexivity|].
  change (List.last (a :: b :: l) d) with (List.last (b :: l) d).
  rewrite !IH. reflexivity.
Qed.

Lemma ollama_callback_fold (responses : list api.ChatResponse.t) :
  forall (finalResponse : api.ChatResponse.t) (fullContent : string),
  fold_left
    (fun (acc : api.ChatResponse.t * string) response =>
       let '(_, fullContent) := acc in
       (response,
        if negb (streq (api.Message.Content (api.ChatResponse.Message response)) "")
        then fullContent +:+ api.Message.Content (api.ChatResponse.Message response)
        else fullContent))
    responses (finalResponse, fullContent)
  = (List.last responses finalResponse, fullContent +:+ ollama_contents responses).
Proof.
  unfold ollama_contents, strings_Join_empty.
  induction responses as [|r responses IH]; intros finalResponse fullContent.
  - cbn [fold_left List.last map fold_right]. now rewrite string_app_nil_r.
  - cbn [fold_left map fold_right]. rewrite IH, last_cons_default.
    destruct (streq (api.Message.Content (api.ChatResponse.Message r)) "") eqn:E; cbn [negb].
    + apply streq_true in E. rewrite E. reflexivity.
    + rewrite string_app_assoc. reflexivity.
Qed.



Lemma ollama_recvs_text (responses : list api.ChatResponse.t) :
  forall err : option error,
  forallb (fun r => negb (api.ChatResponse.Done r)) (removelast responses) = true ->
  responses_text
    (returned (fst (ollama_recvs (map ollamaStreamWrapper.stream_recv responses)
                      (ollamaStreamWrapper.mk false err))))
  = ollama_contents responses.
Proof.
  unfold ollama_contents, strings_Join_empty.
  induction responses as [|r responses IH]; intros err Hdone; [reflexivity|].
  cbn [map ollama_recvs fold_right].
  unfold ollamaStreamWrapper.Recv. cbn [ollamaStreamWrapper.done ollamaStreamWrapper.err].
  destruct responses as [|r' responses'].
  - cbn [map ollama_recvs fold_right].
    destruct (streq (api.Message.Content (api.ChatResponse.Message r)) "") eqn:E.
    + apply streq_true in E. rewrite E. reflexivity.
    + cbn [fst returned responses_text fold_right ChatCompletionResponse.Choices choices_text
           Choice.Message OutputMessage.Content].
      now rewrite !string_app_nil_r.
  - change (removelast (r :: r' :: responses')) with (r :: removelast (r' :: responses')) in Hdone.
    cbn [forallb] in Hdone. apply andb_prop in Hdone as [Hr Hdone].
    apply negb_true_iff in Hr. rewrite Hr.
    specialize (IH err Hdone).
    destruct (streq (api.Message.Content (api.ChatResponse.Message r)) "") eqn:E.
    + apply streq_true in E. rewrite E.
      destruct (ollama_recvs (map ollamaStreamWrapper.stream_recv (r' :: responses'))
                  (ollamaStreamWrapper.mk false err)) as [os w2].
      cbn [fst returned responses_text fold_right ChatCompletionResponse.Choices
           ChatCompletionResponse.zero choices_text] in *.
      exact IH.
    + destruct (ollama_recvs (map ollamaStreamWrapper.stream_recv (r' :: responses'))
                  (ollamaStreamWrapper.mk false err)) as [os w2].
      cbn [fst returned responses_text fold_right ChatCompletionResponse.Choices choices_text
           Choice.Message OutputMessage.Content] in *.
      rewrite string_app_nil_r. f_equal. exact IH.
Qed.

(** Streaming and not streaming give the same text with Ollama.  The server
    streams responses of which only the last may be marked done.  The
    deltas [Recv] returns for them, read one after the other from a fresh
    wrapper, put end to end, are the content of the message
    [CreateChatCompletion] returns for the same responses. *)
Theorem ollama_stream_matches_completion (o : api.Client.t) (req : ChatCompletionRequest.t)
  (responses : list api.ChatResponse.t) (r : ChatCompletionResponse.t) :
  api.Client.Chat o (OllamaLLM.buildRequest req) = (responses, None) ->
  forallb (fun r => negb (api.ChatResponse.Done r)) (removelast responses) = true ->
  fst (OllamaLLM.CreateChatCompletion o req) = Return r ->
  responses_text
    (returned (fst (ollama_recvs (map ollamaStreamWrapper.stream_recv responses)
                      (ollamaStreamWrapper.mk false None))))
  = choices_text (ChatCompletionResponse.Choices r).
Proof.
  intros Hchat Hdone Hr. rewrite (ollama_recvs_text responses None Hdone).
  unfold OllamaLLM.CreateChatCompletion in Hr. cbv zeta in Hr. rewrite Hchat in Hr.
  rewrite ollama_callback_fold in Hr. cbn [fst] in Hr. injection Hr as <-.
  cbn [ChatCompletionResponse.Choices choices_text fold_right Choice.Message
       convertFromOllamaMessage OutputMessage.Content api.Message.Content].
  now rewrite string_app_nil_r.
Qed.

Lemma ollama_stream_matches_completion_witness :
  let responses := [api.ChatResponse.mk (api.Message.mk "assistant" "Hel") false "" 0 0;
                    api.ChatResponse.mk (api.Message.mk "assistant" "lo") false "" 0 0;
                    api.ChatResponse.mk (api.Message.mk "assistant" "") true "stop" 7 2] in
  responses_text
    (returned (fst (ollama_recvs (map ollamaStreamWrapper.stream_recv responses)
                      (ollamaStreamWrapper.mk false None))))
  = "Hello".
Proof.
  intros responses.
  exact (ollama_stream_matches_completion (ollama_server responses) (simple_request "llama3")
           responses
           (ChatCompletionResponse.mk ""
              [Choice.mk 0 (OutputMessage.mk "assistant" "Hello" []) FinishReasonStop]
              (Usage.mk 7 2 9))
           eq_refl eq_refl eq_refl).
Defined.

Section convertToOllamaMessages_facts.

Variable strings_ToLower : string -> string.
Variable base64_DecodeString : string -> option string.

Lemma convertToOllamaMessages_fold (messages : list InputMessage.t) :
  forall acc : list apiMessage.t,
  fold_left
    (fun ollamaMessages msg =>
       let role := strings_ToLower (InputMessage.Role msg) in
       let '(textParts, images) :=
         fold_left
           (fun (acc : list string * list string) part =>
              let '(textParts, images) := acc in
              if streq (ContentPart.Type_ part) ContentTypeText then
                (textParts ++ [ContentPart.Text part], images)
              else if streq (ContentPart.Type_ part) ContentTypeImage then
                match base64_DecodeString (ContentPart.Data part) with
                | Some imageBytes => (textParts, images ++ [imageBytes])
                | None => (textParts, images)
                end
              else (textParts, images))
           (InputMessage.MultiContent msg) ([], []) in
       let content := strings_Join_empty textParts in
       ollamaMessages ++ [apiMessage.mk role content images])
    messages acc
  = acc ++ flat_map (fun msg => convertToOllamaMessages strings_ToLower base64_DecodeString [msg])
             messages.
Proof.
  induction messages as [|msg messages IH]; intros acc; cbn [fold_left flat_map].
  - now rewrite app_nil_r.
  - rewrite IH. unfold convertToOllamaMessages at 2. cbn [fold_left].
    destruct (fold_left _ (InputMessage.MultiContent msg) ([], [])) as [textParts images].
    cbn [app]. now rewrite <- app_assoc.
Qed.

Lemma ollama_text_parts (content : list ContentPart.t) :
  forall acc : list string * list string,
  strings_Join_empty
    (fst (fold_left
            (fun (acc : list string * list string) part =>
               let '(textParts, images) := acc in
               if streq (ContentPart.Type_ part) ContentTypeText then
                 (textParts ++ [ContentPart.Text part], images)
               else if streq (ContentPart.Type_ part) ContentTypeImage then
                 match base64_DecodeString (ContentPart.Data part) with
                 | Some imageBytes => (textParts, images ++ [imageBytes])
                 | None => (textParts, images)
                 end
               else (textParts, images))
            content acc))
  = strings_Join_empty (fst acc) +:+ text_of content.
Proof.
  unfold text_of.
  induction content as [|part content IH]; intros [textParts images]; cbn [fold_left fst].
  - cbn [List.filter map strings_Join_empty fold_right]. now rewrite string_app_nil_r.
  - rewrite IH. cbn [List.filter].
    destruct (streq (ContentPart.Type_ part) ContentTypeText).
    + cbn [fst map]. rewrite strings_Join_empty_snoc, string_app_assoc. reflexivity.
    + destruct (streq (ContentPart.Type_ part) ContentTypeImage);
        [destruct (base64_DecodeString (ContentPart.Data part))|]; reflexivity.
Qed.

(** Ollama is sent neither tool calls nor tool results.  Whatever
    [strings.ToLower] and the base64 decoder do, [convertToOllamaMessages]
    makes one message of each message of the request, whose content is the
    text parts of the message put end to end; the tool calls and the tool
    results of the message play no part in it, so that a tool message that
    holds only results is sent as an empty message. *)
Theorem ollama_messages_carry_text_only (messages : list InputMessage.t) :
  convertToOllamaMessages strings_ToLower base64_DecodeString messages
  = convertToOllamaMessages strings_ToLower base64_DecodeString (map without_tools messages)
  /\ map apiMessage.Content
       (convertToOllamaMessages strings_ToLower base64_DecodeString messages)
     = map (fun msg => text_of (InputMessage.MultiContent msg)) messages.
Proof.
  unfold convertToOllamaMessages at 1 2 3. rewrite !convertToOllamaMessages_fold.
  cbn [app]. split.
  - induction messages as [|msg messages IH]; [reflexivity|].
    cbn [map flat_map]. rewrite IH. reflexivity.
  - induction messages as [|msg messages IH]; [reflexivity|].
    cbn [map flat_map]. rewrite map_app, IH. f_equal.
    unfold convertToOllamaMessages. cbn [fold_left].
    pose proof (ollama_text_parts (InputMessage.MultiContent msg) ([], [])) as H.
    destruct (fold_left _ (InputMessage.MultiContent msg) ([], [])) as [textParts images].
    cbn [fst app map apiMessage.Content] in *. rewrite H. reflexivity.
Qed.

End convertToOllamaMessages_facts.

(** ** The allow-lists of the models *)

Lemma openai_isSupported_In (model : Model) :
  OpenAILLM.isSupported model = true ->
  In model [ModelO3Mini; ModelGPT4o; ModelGPT4oMini].
Proof.
  unfold OpenAILLM.isSupported.
  repeat match goal with
         | |- context [streq model ?x] =>
             let E := fresh "E" in
             destruct (streq model x) eqn:E;
             [apply streq_true in E; subst model; cbn [In]; tauto|]
         end.
  discriminate.
Qed.

Lemma gemini_isSupported_In (model : Model) :
  GeminiLLM.isSupported model = true ->
  In model [ModelGemini2Flash; ModelGemini15Flash; ModelGemini15Flash8B; ModelGemini15Pro;
            ModelGemini2FlashLite001].
Proof.
  unfold GeminiLLM.isSupported. intros H.
  repeat (apply orb_prop in H as [H|H]); apply streq_true in H; subst model; cbn [In]; tauto.
Qed.

Lemma claude_isSupported_In (model : Model) :
  ClaudeLLM.isSupported model = true ->
  In model [ModelClaude2Dot0; ModelClaude2Dot1; ModelClaude3Opus20240229;
            ModelClaude3Sonnet20240229; ModelClaude3Dot5Sonnet20240620;
            ModelClaude3Dot5Sonnet20241022; ModelClaude3Dot5SonnetLatest;
            ModelClaude3Haiku20240307; ModelClaude3Dot5HaikuLatest;
            ModelClaude3Dot5Haiku20241022].
Proof.
  unfold ClaudeLLM.isSupported. intros H.
  repeat (apply orb_prop in H as [H|H]); apply streq_true in H; subst model; cbn [In]; tauto.
Qed.

(** The allow-lists name the provider.  No model is accepted by two of the
    bindings of OpenAI, Gemini and Claude, and every model one of them
    accepts is a constant the package declares.  The converse fails for
    OpenAI: of its thirteen declared models the binding accepts three, and
    rejects the ten others, which no binding accepts. *)
Theorem allow_lists_name_the_provider :
  (forall model : Model,
     OpenAILLM.isSupported model && GeminiLLM.isSupported model = false
     /\ OpenAILLM.isSupported model && ClaudeLLM.isSupported model = false
     /\ GeminiLLM.isSupported model && ClaudeLLM.isSupported model = false
     /\ (supported_somewhere model = true -> In model declared_models))
  /\ List.filter (fun model => negb (supported_somewhere model)) declared_models
     = [ModelChatGPT4oLatest; ModelGPT4o2024_08_06; ModelGPT4oMini2024_07_18; ModelO1;
        ModelO1_2024_12_17; ModelO1Preview2024_09_12; ModelO1Preview; ModelO1Mini;
        ModelO1Mini2024_09_12; ModelO3Mini2025_01_31].
Proof.
  split; [|vm_compute; reflexivity].
  intros model.
  pose proof (openai_isSupported_In model) as Ho.
  pose proof (gemini_isSupported_In model) as Hg.
  pose proof (claude_isSupported_In model) as Hc.
  unfold supported_somewhere.
  destruct (OpenAILLM.isSupported model) eqn:Eo.
  - specialize (Ho eq_refl). cbn [In] in Ho.
    repeat destruct Ho as [Ho|Ho]; try contradiction; subst model;
      (repeat split; [vm_compute; reflexivity .. | intros _; vm_compute; tauto]).
  - destruct (GeminiLLM.isSupported model) eqn:Eg.
    + specialize (Hg eq_refl). cbn [In] in Hg.
      repeat destruct Hg as [Hg|Hg]; try contradiction; subst model;
        (repeat split; [vm_compute; reflexivity .. | intros _; vm_compute; tauto]).
    + cbn [andb orb]. repeat split.
      intros Ec. specialize (Hc Ec). cbn [In] in Hc.
      repeat destruct Hc as [Hc|Hc]; try contradiction; subst model; vm_compute; tauto.
Qed.

(** ** OpenAI: streaming and not streaming *)

Lemma absorb_opened_whole (tc : openai.ToolCall.t) :
  whole_call tc = true ->
  completes (opened tc) tc = true
  /\ [absorb (opened tc) tc] = convertFromOpenAIToolCalls [tc].
Proof.
  unfold whole_call. intros H. apply andb_prop in H as [Hid Hvalid].
  destruct tc as [id ty [name args]].
  cbn [openai.ToolCall.ID openai.ToolCall.Function openai.FunctionCall.Arguments] in *.
  assert (Hargs : streq args "" = false).
  { destruct args; [discriminate Hvalid | reflexivity]. }
  unfold completes, absorb, opened.
  cbn [openai.ToolCall.ID openai.ToolCall.Function openai.FunctionCall.Arguments
       openai.FunctionCall.Name openai.ToolCall.Type_].
  rewrite Hid, Hargs. cbn [negb andb].
  destruct (streq name "") eqn:Hname; cbn [negb];
    unfold openAIStreamWrapper.appendArguments, openAIStreamWrapper.setName;
    cbn [ToolCall.Function ToolCallFunction.Arguments ToolCallFunction.Name ToolCall.ID
         ToolCall.Type_];
    change ("" +:+ args) with args; rewrite Hvalid; split; reflexivity.
Qed.

Lemma handleToolCalls_whole (tcs : list openai.ToolCall.t) :
  forall (emitted h : list ToolCall.t) (current : option nat),
  forallb whole_call tcs = true ->
  fold_left openAIStreamWrapper.handleToolCallDelta tcs
    (openAIStreamWrapper.mkLoop emitted h current ∅)
  = openAIStreamWrapper.mkLoop (emitted ++ convertFromOpenAIToolCalls tcs)
      (h ++ convertFromOpenAIToolCalls tcs)
      (match tcs with [] => current | _ :: _ => None end) ∅.
Proof.
  induction tcs as [|tc tcs IH]; intros emitted h current Hall.
  - cbn [fold_left convertFromOpenAIToolCalls map]. now rewrite !app_nil_r.
  - cbn [forallb] in Hall. apply andb_prop in Hall as [Htc Hall].
    destruct (absorb_opened_whole tc Htc) as [Hc Ha].
    cbn [fold_left].
    rewrite handleToolCallDelta_first.
    + rewrite Hc, IH by exact Hall.
      change (convertFromOpenAIToolCalls (tc :: tcs))
        with (convertFromOpenAIToolCalls [tc] ++ convertFromOpenAIToolCalls tcs).
      rewrite <- Ha, <- !app_assoc. destruct tcs; reflexivity.
    + unfold whole_call in Htc. apply andb_prop in Htc as [Hid _].
      apply negb_true_iff, streq_false in Hid. exact Hid.
    + apply lookup_empty.
Qed.

Lemma openai_handleChoices_whole (cs : list openai.ChatCompletionStreamChoice.t) :
  forall (w : openAIStreamWrapper.t) (choices : list Choice.t),
  openAIStreamWrapper.toolCallBuffer w = ∅ ->
  forallb (fun c => forallb whole_call
                      (openai.ChatCompletionStreamChoiceDelta.ToolCalls
                         (openai.ChatCompletionStreamChoice.Delta c))) cs = true ->
  OpenAILLM.convertChoices (map as_completion_choice cs) = Return choices ->
  fst (openAIStreamWrapper.handleChoices w cs) = Return choices.
Proof.
  induction cs as [|c cs IH]; intros w choices Hbuf Hall Hconv.
  - cbn in Hconv. injection Hconv as <-. reflexivity.
  - cbn [forallb] in Hall. apply andb_prop in Hall as [Hc Hall].
    cbn [map OpenAILLM.convertChoices] in Hconv.
    cbn [openAIStreamWrapper.handleChoices].
    unfold openAIStreamWrapper.handleChoice, openAIStreamWrapper.handleToolCalls. cbv zeta.
    rewrite Hbuf, (handleToolCalls_whole _ [] _ _ Hc).
    change (openai.ChatCompletionChoice.FinishReason (as_completion_choice c))
      with (openai.ChatCompletionStreamChoice.FinishReason c) in Hconv.
    destruct (convertFromOpenAIFinishReason (openai.ChatCompletionStreamChoice.FinishReason c))
      as [reason|e|p]; try discriminate Hconv.
    destruct (OpenAILLM.convertChoices (map as_completion_choice cs)) as [choices'|e|p] eqn:Hrest;
      try discriminate Hconv.
    injection Hconv as <-.
    cbn [openAIStreamWrapper.toolCalls openAIStreamWrapper.l_heap
         openAIStreamWrapper.l_current openAIStreamWrapper.l_buffer app].
    specialize (IH (openAIStreamWrapper.mk (openAIStreamWrapper.stream w)
                      (openAIStreamWrapper.heap w
                         ++ convertFromOpenAIToolCalls
                              (openai.ChatCompletionStreamChoiceDelta.ToolCalls
                                 (openai.ChatCompletionStreamChoice.Delta c)))
                      (match openai.ChatCompletionStreamChoiceDelta.ToolCalls
                               (openai.ChatCompletionStreamChoice.Delta c) with
                       | [] => openAIStreamWrapper.currentToolCall w
                       | _ :: _ => None
                       end) ∅) choices' eq_refl Hall eq_refl).
    destruct (openAIStreamWrapper.handleChoices _ cs) as [o w1]. cbn [fst] in IH. subst o.
    reflexivity.
Qed.

(** A chunk that carries whole tool calls is read as a response is.  When
    every tool-call delta of the first chunk of a stream holds an ID and
    arguments that parse, [openAIStreamWrapper.Recv] returns the choices
    [CreateChatCompletion] makes of a response that holds the same indices,
    roles, contents, tool calls and finish reasons: the calls go through the
    buffer and come out at once, unchanged. *)
Theorem openai_chunk_matches_completion (id : string)
  (cs : list openai.ChatCompletionStreamChoice.t)
  (rest : list (openai.ChatCompletionStreamResponse.t + error))
  (closes : list (option error)) (choices : list Choice.t) :
  forallb (fun c => forallb whole_call
                      (openai.ChatCompletionStreamChoiceDelta.ToolCalls
                         (openai.ChatCompletionStreamChoice.Delta c))) cs = true ->
  OpenAILLM.convertChoices (map as_completion_choice cs) = Return choices ->
  fst (openAIStreamWrapper.Recv
         (openAIStreamWrapper.newOpenAIStreamWrapper
            (openai.ChatCompletionStream.mk
               (inl (openai.ChatCompletionStreamResponse.mk id cs) :: rest) closes)))
  = Return (ChatCompletionResponse.mk id choices Usage.zero).
Proof.
  intros Hall Hconv.
  unfold openAIStreamWrapper.Recv, openai.ChatCompletionStream.Recv,
    openAIStreamWrapper.newOpenAIStreamWrapper.
  cbn [openAIStreamWrapper.stream openai.ChatCompletionStream.recvs
       openai.ChatCompletionStream.closes openAIStreamWrapper.heap
       openAIStreamWrapper.currentToolCall openAIStreamWrapper.toolCallBuffer
       openai.ChatCompletionStreamResponse.Choices openai.ChatCompletionStreamResponse.ID].
  pose proof (openai_handleChoices_whole cs
                (openAIStreamWrapper.mk (openai.ChatCompletionStream.mk rest closes) [] None ∅)
                choices eq_refl Hall Hconv) as H.
  destruct (openAIStreamWrapper.handleChoices _ cs) as [o w1]. cbn [fst] in H. subst o.
  reflexivity.
Qed.

Lemma openai_chunk_matches_completion_witness :
  let tc := openai.ToolCall.mk "call_1" "function"
              (openai.FunctionCall.mk "get_weather" paris_arguments) in
  let c := openai.ChatCompletionStreamChoice.mk 0
             (openai.ChatCompletionStreamChoiceDelta.mk "Checking." "assistant" [tc])
             "tool_calls" in
  fst (openAIStreamWrapper.Recv
         (openAIStreamWrapper.newOpenAIStreamWrapper
            (openai.ChatCompletionStream.mk
               (inl (openai.ChatCompletionStreamResponse.mk "chatcmpl-1" [c]) :: []) [])))
  = Return (ChatCompletionResponse.mk "chatcmpl-1"
              [Choice.mk 0
                 (OutputMessage.mk "assistant" "Checking."
                    [ToolCall.mk "call_1" "function"
                       (ToolCallFunction.mk "get_weather" paris_arguments)])
                 FinishReasonToolCalls] Usage.zero).
Proof.
  intros tc c.
  apply (openai_chunk_matches_completion "chatcmpl-1" [c] [] []).
  - vm_compute. reflexivity.
  - vm_compute. reflexivity.
Defined.

(** ** Gemini: the schema of a tool *)





(** ** Reading after [Close] *)

Lemma ollama_recvs_done (sels : list ollamaStreamWrapper.selected) :
  forall w : ollamaStreamWrapper.t,
  ollamaStreamWrapper.done w = true ->
  ollama_recvs sels w = (repeat (Fail io_EOF) (List.length sels), w).
Proof.
  induction sels as [|sel sels IH]; intros w Hdone; [reflexivity|].
  cbn [ollama_recvs List.length repeat]. unfold ollamaStreamWrapper.Recv.
  rewrite Hdone, (IH w Hdone). reflexivity.
Qed.

(** After [Close], the stream wrappers of Gemini and of Ollama only return
    [io.EOF]: whatever state the wrapper was in, every [Recv] that follows a
    [Close] returns [io.EOF], without a look at the stream.  For Gemini,
    whose [Close] sets the iterator to nil, no such [Recv] dereferences
    it. *)
Theorem Recv_after_Close_is_EOF :
  (forall (w : geminiStreamWrapper.t) (n : nat),
     gemini_recvs n (snd (geminiStreamWrapper.Close w))
     = (repeat (Fail io_EOF) n, snd (geminiStreamWrapper.Close w)))
  /\ (forall (w : ollamaStreamWrapper.t) (sels : list ollamaStreamWrapper.selected),
        ollama_recvs sels (snd (ollamaStreamWrapper.Close w))
        = (repeat (Fail io_EOF) (List.length sels), snd (ollamaStreamWrapper.Close w))).
Proof.
  split.
  - intros w n. apply gemini_recvs_done. reflexivity.
  - intros w sels. apply ollama_recvs_done. reflexivity.
Qed.
